(** * cfbs: the command layer ([cfbs/commands.py]) as a shallow embedding

    The development follows the Python source command by command:
    - [PyStr]: the few [str] builtins the commands rely on (ASCII model);
    - the module record (a JSON object of the build list) and the outcome
      and exception types;
    - [update_command]: version comparison and the per-target decision;
    - [_clean_unused_modules] ("prune") with its reachability recursion;
    - [remove_command];
    - [_download_dependencies] (the fetch-and-stage pipeline);
    - [init_command].

    Python [str] values are modelled as [string] (sequences of 8-bit
    characters); code points above 127 are never whitespace, digits or
    case-convertible in this model. *)

From stdpp Require Import base option list strings gmap.
From Stdlib Require Import ZArith Ascii String Lia.

Local Open Scope Z_scope.
Local Open Scope string_scope.
Local Open Scope list_scope.

(** ** Python string builtins *)

Module PyStr.

Definition code (c : ascii) : nat := nat_of_ascii c.

(** [str.isspace] on a single ASCII character: TAB, LF, VT, FF, CR,
    FS, GS, RS, US and SPACE. *)
Definition is_space (c : ascii) : bool :=
  let n := code c in
  ((9 <=? n) && (n <=? 13) || (28 <=? n) && (n <=? 32))%nat.

Definition is_digit (c : ascii) : bool :=
  let n := code c in ((48 <=? n) && (n <=? 57))%nat.

Definition digit_value (c : ascii) : Z := Z.of_nat (code c) - 48.

Fixpoint lstrip_chars (l : list ascii) : list ascii :=
  match l with
  | c :: r => if is_space c then lstrip_chars r else l
  | [] => []
  end.

Definition rstrip_chars (l : list ascii) : list ascii :=
  rev (lstrip_chars (rev l)).

Definition strip_chars (l : list ascii) : list ascii :=
  rstrip_chars (lstrip_chars l).

(** [s.strip()] *)
Definition strip (s : string) : string :=
  string_of_list_ascii (strip_chars (list_ascii_of_string s)).

Definition lower_char (c : ascii) : ascii :=
  let n := code c in
  if ((65 <=? n) && (n <=? 90))%nat then ascii_of_nat (n + 32) else c.

(** [s.lower()] *)
Fixpoint lower (s : string) : string :=
  match s with
  | EmptyString => EmptyString
  | String c r => String (lower_char c) (lower r)
  end.

(** [s.startswith(p)] for a single prefix. *)
Definition startswith (s p : string) : bool := String.prefix p s.

(** [s.startswith(ps)] for a tuple of prefixes. *)
Definition startswith_any (s : string) (ps : list string) : bool :=
  existsb (startswith s) ps.

(** [s.endswith(p)] for a single suffix. *)
Definition endswith (s p : string) : bool :=
  String.prefix (String.rev p) (String.rev s).

Definition endswith_any (s : string) (ps : list string) : bool :=
  existsb (endswith s) ps.

(** [s[n:]] for [n >= 0]. *)
Fixpoint drop (n : nat) (s : string) : string :=
  match n, s with
  | O, _ => s
  | S k, String _ r => drop k r
  | S _, EmptyString => EmptyString
  end.

(** [sep.join(l)] *)
Fixpoint join (sep : string) (l : list string) : string :=
  match l with
  | [] => ""
  | [x] => x
  | x :: r => x +:+ sep +:+ join sep r
  end.

(** Line boundaries recognised by [str.splitlines] (ASCII range):
    LF, VT, FF, CR, FS, GS, RS.  CR LF counts as one boundary. *)
Definition is_linebreak (c : ascii) : bool :=
  let n := code c in
  ((10 <=? n) && (n <=? 13) || (28 <=? n) && (n <=? 30))%nat.

Definition is_cr (c : ascii) : bool := (code c =? 13)%nat.
Definition is_lf (c : ascii) : bool := (code c =? 10)%nat.

(** [splitlines_from cur l]: [cur] is the line being read, reversed. *)
Fixpoint splitlines_from (cur : list ascii) (l : list ascii) : list string :=
  match l with
  | [] => match cur with
          | [] => []
          | _ => [string_of_list_ascii (rev cur)]
          end
  | c :: r =>
      if is_linebreak c then
        string_of_list_ascii (rev cur) ::
          match r with
          | d :: r' => if is_cr c && is_lf d then splitlines_from [] r'
                       else splitlines_from [] r
          | [] => []
          end
      else splitlines_from (c :: cur) r
  end.

(** [s.splitlines()] *)
Definition splitlines (s : string) : list string :=
  splitlines_from [] (list_ascii_of_string s).

(** [re.split(r"[-\.]", s)]: the pattern matches exactly one character,
    so the result has one more element than there are separators. *)
Definition is_version_sep (c : ascii) : bool :=
  let n := code c in ((n =? 45) || (n =? 46))%nat.

Fixpoint re_split_version (s : string) : list string :=
  match s with
  | EmptyString => [""]
  | String c r =>
      if is_version_sep c then "" :: re_split_version r
      else match re_split_version r with
           | h :: t => String c h :: t
           | [] => [String c ""]
           end
  end.

(** The digit part of an integer literal: decimal digits, single
    underscores allowed between two digits only.  [sep_ok] tells whether
    an underscore may come next (false at the start and after one). *)
Fixpoint int_digits (sep_ok : bool) (acc : Z) (l : list ascii) : option Z :=
  match l with
  | [] => if sep_ok then Some acc else None
  | c :: r =>
      if is_digit c then int_digits true (10 * acc + digit_value c) r
      else if (code c =? 95)%nat then
             if sep_ok then int_digits false acc r else None
      else None
  end.

(** The whitespace that [int] skips around a literal ([Py_ISSPACE]):
    TAB, LF, VT, FF, CR and SPACE.  The separators FS, GS, RS and US,
    which [str.strip] drops, are not skipped: [int] rejects them. *)
Definition is_int_space (c : ascii) : bool :=
  let n := code c in ((9 <=? n) && (n <=? 13) || (n =? 32))%nat.

Fixpoint int_lstrip_chars (l : list ascii) : list ascii :=
  match l with
  | c :: r => if is_int_space c then int_lstrip_chars r else l
  | [] => []
  end.

Definition int_strip_chars (l : list ascii) : list ascii :=
  rev (int_lstrip_chars (rev (int_lstrip_chars l))).

(** [int(s)] in base 10 on an ASCII string ([None] stands for
    [ValueError]): the whitespace around the literal is skipped, one sign
    is accepted, then [int_digits].  The interpreter's configurable limit
    on the number of digits is not part of the model. *)
Definition int (s : string) : option Z :=
  match int_strip_chars (list_ascii_of_string s) with
  | c :: r =>
      if (code c =? 43)%nat then int_digits false 0 r
      else if (code c =? 45)%nat then Z.opp <$> int_digits false 0 r
      else int_digits false 0 (c :: r)
  | [] => None
  end.

(** ["%d" % n] for a natural number. *)
Definition digit_char (n : nat) : ascii := ascii_of_nat (48 + n).

Fixpoint dec_digits (fuel n : nat) (acc : list ascii) : list ascii :=
  match fuel with
  | O => acc
  | S f =>
      let acc' := digit_char (n mod 10) :: acc in
      if (n <? 10)%nat then acc' else dec_digits f (n / 10) acc'
  end.

Definition str_of_nat (n : nat) : string :=
  string_of_list_ascii (dec_digits (S n) n []).

(** ["%03d" % n] *)
Definition fmt_03d (n : nat) : string :=
  let s := str_of_nat n in
  string_of_list_ascii (repeat "0"%char (3 - String.length s)) +:+ s.

End PyStr.

(** ** Data model *)

(** A module of the build list: a JSON object.  [name] is read
    unconditionally by every command; the other keys may be absent, which
    is what ["key" in module] tests.  Keys the commands never read are kept
    in [extra], so that equality of records is equality of the objects
    ([list.remove] compares with [==]). *)
Record BuildModule := mkModule {
  name : string;
  description : option string;
  version : option string;
  commit : option string;
  url : option string;
  repo : option string;
  subdirectory : option string;
  dependencies : option (list string);
  added_by : option string;
  index : option string;
  _directory : option string;
  _counter : option nat;
  extra : list (string * string)
}.

Global Instance BuildModule_eq_dec : EqDecision BuildModule.
Proof. solve_decision. Defined.

(** The exceptions the commands raise or let through. *)
Inductive Exception :=
| CFBSExitError (msg : string)
| CFBSUserError (msg : string)
| CFBSGitError (msg : string)
| CFBSNetworkError (msg : string)
| CFBSReturnWithoutCommit (retval : Z)
| ValueError
| KeyError
| AssertionError
| RecursionError.

Global Instance Exception_eq_dec : EqDecision Exception.
Proof. solve_decision. Defined.

(** What a call produces: a value or a raised exception. *)
Inductive Outcome (A : Type) :=
| Return (a : A)
| Raise (e : Exception).
Arguments Return {A} a.
Arguments Raise {A} e.

(** [Result(rc, commit, msg, files)] of [cfbs/git_magic.py], built
    positionally by the commands: exit code, whether a commit is wanted
    (the spec's "changed"), the message and the files touched. *)
Record Result := mkResult {
  rc : Z;
  changed : bool;
  msg : string;
  files : list string
}.

(** A line written by [print] or through [logging]. *)
Inductive Line :=
| Stdout (s : string)
| LogWarning (s : string)
| LogDebug (s : string).

(** ** State and exceptions

    A command threads a state [S] and may raise: the state reached when
    the exception is raised is kept, as side effects are not rolled back. *)

Definition M (S A : Type) : Type := S -> Outcome A * S.

Definition ret {S A} (a : A) : M S A := fun s => (Return a, s).

Definition bind {S A B} (c : M S A) (k : A -> M S B) : M S B :=
  fun s => match c s with
           | (Return a, s') => k a s'
           | (Raise e, s') => (Raise e, s')
           end.

Definition raise {S A} (e : Exception) : M S A := fun s => (Raise e, s).
Definition get {S} : M S S := fun s => (Return s, s).
Definition modify {S} (f : S -> S) : M S unit := fun s => (Return tt, f s).

Notation "x <- c ;; k" := (bind c (fun x => k))
  (at level 100, c at next level, right associativity).
Notation "c ;;; k" := (bind c (fun _ => k))
  (at level 100, k at level 200, right associativity).

(** [for x in l: body(x)] where the body neither breaks nor returns. *)
Fixpoint for_each {S A} (body : A -> M S unit) (l : list A) : M S unit :=
  match l with
  | [] => ret tt
  | x :: r => body x ;;; for_each body r
  end.

(** ** The session a command runs in

    The [CFBSConfig] singleton (only what the commands read of it: the
    ["build"] list, absent when the key is, and the non-interactive
    flag), the lines written so far, and the world outside the process
    (files, network, the user at the prompt).  Two logs record calls made
    into the world, so that properties can speak of them: the commits made
    and the staging calls of the fetch pipeline. *)

(** A staging call: [local_module_copy(module, counter, max_length)] or
    [cp(source, target)]. *)
Inductive StagingCall :=
| LocalCopy (module : BuildModule) (counter max_length : nat)
| Copy (source target : string).

Record Session (W : Type) := mkSession {
  build : option (list BuildModule);
  non_interactive : bool;
  out : list Line;
  commits : list (string * list string);
  staged : list StagingCall;
  world : W
}.
Arguments mkSession {W}.
Arguments build {W}.
Arguments non_interactive {W}.
Arguments out {W}.
Arguments commits {W}.
Arguments staged {W}.
Arguments world {W}.

Definition dquote : string := String "034" "".
Definition newline : string := String "010" "".

(** Collaborators of [cfbs/prompts.py], [cfbs/cfbs_config.py] and
    [cfbs/module.py], and the operating system calls the commands make. *)
Class Collaborators (W : Type) := {
  YES_NO_CHOICES : list string;
  (** [prompt_user(non_interactive, prompt, choices, default)] *)
  prompt_user : bool -> string -> list string -> string -> W -> string * W;
  (** the warnings [config.warn_about_unknown_keys()] logs *)
  unknown_key_warnings : W -> list Line;
  (** [config.save()] *)
  config_save : option (list BuildModule) -> W -> W;
  is_module_added_manually : string -> bool;
  (** [cfbs_filename()] *)
  cfbs_filename : string;
  SUPPORTED_URI_SCHEMES : list string;
  os_path_exists : string -> W -> bool;
  os_path_isfile : string -> W -> bool;
  (** [rm(path)] and [rm(path, missing_ok=True)] *)
  rm : string -> W -> W;
  (** [git_commit_maybe_prompt(message, non_interactive, files)] *)
  git_commit_maybe_prompt : string -> bool -> list string -> W -> Outcome unit * W
}.

Section SessionOps.
Context {W : Type} `{Collaborators W}.

Definition emit (l : Line) : M (Session W) unit :=
  modify (fun st => mkSession (build st) (non_interactive st) (out st ++ [l])
                      (commits st) (staged st) (world st)).

Definition emit_all (ls : list Line) : M (Session W) unit :=
  modify (fun st => mkSession (build st) (non_interactive st) (out st ++ ls)
                      (commits st) (staged st) (world st)).

Definition set_build (b : list BuildModule) : M (Session W) unit :=
  modify (fun st => mkSession (Some b) (non_interactive st) (out st)
                      (commits st) (staged st) (world st)).

Definition log_staging (c : StagingCall) : M (Session W) unit :=
  modify (fun st => mkSession (build st) (non_interactive st) (out st)
                      (commits st) (staged st ++ [c]) (world st)).

Definition set_world (w : W) : M (Session W) unit :=
  modify (fun st => mkSession (build st) (non_interactive st) (out st)
                      (commits st) (staged st) w).

(** An effect on the world that cannot raise. *)
Definition effect (f : W -> W) : M (Session W) unit :=
  st <- get ;; set_world (f (world st)).

(** A call into the world that returns a value. *)
Definition ask {A} (f : W -> A * W) : M (Session W) A :=
  st <- get ;;
  let (a, w) := f (world st) in
  set_world w ;;; ret a.

(** A call into the world that may raise. *)
Definition call {A} (f : W -> Outcome A * W) : M (Session W) A :=
  fun st =>
    let (o, w) := f (world st) in
    (o, mkSession (build st) (non_interactive st) (out st) (commits st)
          (staged st) w).

Definition warn_about_unknown_keys : M (Session W) unit :=
  st <- get ;; emit_all (unknown_key_warnings (world st)).

Definition save : M (Session W) unit :=
  st <- get ;; set_world (config_save (build st) (world st)).

(** [answer.lower() in ("yes", "y")] *)
Definition is_yes (answer : string) : bool :=
  bool_decide (PyStr.lower answer ∈ ["yes"; "y"]).

End SessionOps.

(** [l.remove(x)]: drops the first element equal to [x]; [None] stands
    for the [ValueError] raised when there is none. *)
Fixpoint list_remove (x : BuildModule) (l : list BuildModule)
    : option (list BuildModule) :=
  match l with
  | [] => None
  | y :: r => if bool_decide (y = x) then Some r
              else cons y <$> list_remove x r
  end.

(** [os.path.join(a, b)] on POSIX. *)
Definition os_path_join (a b : string) : string :=
  if PyStr.startswith b "/" then b
  else if bool_decide (a = "") || PyStr.endswith a "/" then a +:+ b
  else a +:+ "/" +:+ b.

(** ** [_clean_unused_modules]: prune *)

Section Clean.
Context {W : Type} `{Collaborators W}.

(** The nested function [_someone_needs_me(this)].  [depth] bounds the
    depth of the recursion, as the interpreter's recursion limit does:
    [None] is a recursion that has not returned within [depth] frames
    (a [RecursionError] in Python).  The inner loop is the [for other in
    modules] of the source, which returns from the first module that
    lists [this] among its dependencies. *)
Fixpoint _someone_needs_me (depth : nat) (modules : list BuildModule)
    (this : BuildModule) : option bool :=
  match depth with
  | O => None
  | S depth' =>
      if match added_by this with
         | None => true
         | Some a => is_module_added_manually a
         end
      then Some true
      else
        (fix scan (others : list BuildModule) : option bool :=
           match others with
           | [] => Some false
           | other :: rest =>
               match dependencies other with
               | None => scan rest
               | Some deps =>
                   if bool_decide (name this ∈ deps)
                   then _someone_needs_me depth' modules other
                   else scan rest
               end
           end) modules
  end.

(** The loop that fills [to_remove], over the suffix [l] of [modules]. *)
Fixpoint unused_among (depth : nat) (modules l : list BuildModule)
    : option (list BuildModule) :=
  match l with
  | [] => Some []
  | module :: r =>
      match _someone_needs_me depth modules module with
      | None => None
      | Some needed =>
          match unused_among depth modules r with
          | None => None
          | Some rest => Some (if needed then rest else module :: rest)
          end
      end
  end.

(** [for module in to_remove: modules.remove(module)] *)
Fixpoint remove_each (to_remove modules : list BuildModule)
    : option (list BuildModule) :=
  match to_remove with
  | [] => Some modules
  | module :: r =>
      match list_remove module modules with
      | None => None
      | Some modules' => remove_each r modules'
      end
  end.

Definition unused_line (module : BuildModule) : Line :=
  Stdout (name module +:+ " - " +:+ default "" (description module)
           +:+ " - added by: " +:+ default "" (added_by module)).

Definition _clean_unused_modules (recursion_limit : nat) : M (Session W) Z :=
  warn_about_unknown_keys ;;;
  st <- get ;;
  match build st with
  | None =>
      emit (LogWarning ("No " +:+ dquote +:+ "build" +:+ dquote
                       +:+ " key with modules - nothing to clean")) ;;;
      ret 0
  | Some [] => ret 0
  | Some modules =>
      match unused_among recursion_limit modules modules with
      | None => raise RecursionError
      | Some [] => raise (CFBSReturnWithoutCommit 0)
      | Some to_remove =>
          emit (Stdout "The following modules were added as dependencies but are no longer needed:") ;;;
          emit_all (map unused_line to_remove) ;;;
          answer <- ask (prompt_user (non_interactive st)
                           "Do you wish to remove these modules?"
                           YES_NO_CHOICES "yes") ;;
          (if is_yes answer then
             match remove_each to_remove modules with
             | None => raise ValueError
             | Some modules' => set_build modules' ;;; save
             end
           else ret tt) ;;;
          ret 0
      end
  end.

End Clean.

(** ** [remove_command] *)

(** The three accumulators of the loop of [remove_command]. *)
Record Removal := mkRemoval {
  num_removed : nat;
  removal_msg : string;
  removal_files : list string
}.

Section Remove.
Context {W : Type} `{Collaborators W}.

Definition modules_of (st : Session W) : list BuildModule :=
  default [] (build st).

Definition depends_on (dependency : string) (m : BuildModule) : list string :=
  if bool_decide (dependency ∈ default [] (dependencies m))
  then [name m] else [].

(** [reduce_dependencies(a, b)]: [a] is the first module on the first
    call and the list built so far afterwards. *)
Definition reduce_dependencies (dependency : string)
    (a : BuildModule + list string) (b : BuildModule) : list string :=
  match a with
  | inr names => names ++ depends_on dependency b
  | inl first => depends_on dependency first ++ depends_on dependency b
  end.

(** [_get_dependents(dependency)], with [functools.reduce] seeded by the
    first module. *)
Definition _get_dependents (modules : list BuildModule) (dependency : string)
    : list string :=
  if (List.length modules <? 2)%nat then []
  else match modules with
       | [] => []
       | first :: rest =>
           match fold_left (fun a b => inr (reduce_dependencies dependency a b))
                           rest (inl first) with
           | inr names => names
           | inl _ => []
           end
       end.

(** [_get_module_by_name(name)] *)
Definition _get_module_by_name (modules : list BuildModule) (w : W)
    (nm : string) : option BuildModule :=
  let nm' := if negb (PyStr.startswith nm "./") && PyStr.endswith nm ".cf"
                && os_path_exists nm w
             then "./" +:+ nm else nm in
  List.find (fun module => bool_decide (name module = nm')) modules.

(** [_get_modules_by_url(name)] *)
Definition _get_modules_by_url (modules : list BuildModule) (nm : string)
    : list BuildModule :=
  List.filter (fun module => bool_decide (url module = Some nm)) modules.

Definition remove_question (modules : list BuildModule) (module : BuildModule)
    : string :=
  let dependents := _get_dependents modules (name module) in
  "Do you wish to remove '" +:+ name module +:+ "'?"
  +:+ match dependents with
      | [] => ""
      | _ => " (The module is a dependency of the following module"
               +:+ (if (1 <? List.length dependents)%nat then "s" else "")
               +:+ ": " +:+ PyStr.join ", " dependents +:+ ")"
      end.

(** [_remove_module_user_prompt(module)] *)
Definition _remove_module_user_prompt (module : BuildModule)
    : M (Session W) string :=
  st <- get ;;
  ask (prompt_user (non_interactive st)
         (remove_question (modules_of st) module) YES_NO_CHOICES "yes").

(** The body shared by the two branches once the user was asked:
    [shown] is what the source prints as the module's name. *)
Definition remove_confirmed (shown : string) (module : BuildModule)
    (acc : Removal) : M (Session W) Removal :=
  emit (Stdout ("Removing module '" +:+ shown +:+ "'")) ;;;
  st <- get ;;
  match list_remove module (modules_of st) with
  | None => raise ValueError
  | Some modules' =>
      set_build modules' ;;;
      ret (mkRemoval (S (num_removed acc))
             (removal_msg acc +:+ newline +:+ " - Removed module '"
                +:+ name module +:+ "'")
             (removal_files acc))
  end.

(** [for module in matches: ...] of the URL branch. *)
Fixpoint remove_matches (matches : list BuildModule) (acc : Removal)
    : M (Session W) Removal :=
  match matches with
  | [] => ret acc
  | module :: r =>
      answer <- _remove_module_user_prompt module ;;
      acc' <- (if is_yes answer
               then remove_confirmed (name module) module acc
               else ret acc) ;;
      remove_matches r acc'
  end.

(** The input-data part that closes every iteration. *)
Definition remove_input_data (nm : string) (acc : Removal)
    : M (Session W) Removal :=
  let input_path := os_path_join (os_path_join "." nm) "input.json" in
  st <- get ;;
  if os_path_isfile input_path (world st) then
    answer <- ask (prompt_user (non_interactive st)
                     ("Module '" +:+ nm +:+ "' has input data '" +:+ input_path
                        +:+ "'. Do you want to remove it?")
                     YES_NO_CHOICES "no") ;;
    if is_yes answer then
      effect (rm input_path) ;;;
      emit (LogDebug ("Deleted module data '" +:+ input_path +:+ "'")) ;;;
      ret (mkRemoval (num_removed acc)
             (removal_msg acc +:+ newline +:+ " - Removed input data for module '"
                +:+ nm +:+ "'")
             (removal_files acc ++ [input_path]))
    else ret acc
  else ret acc.

(** One iteration of [for name in to_remove]. *)
Definition remove_one (nm : string) (acc : Removal) : M (Session W) Removal :=
  acc' <- (if PyStr.startswith_any nm SUPPORTED_URI_SCHEMES then
             st <- get ;;
             match _get_modules_by_url (modules_of st) nm with
             | [] => raise (CFBSExitError
                              ("Could not find module with URL '" +:+ nm +:+ "'"))
             | matches => remove_matches matches acc
             end
           else
             st <- get ;;
             match _get_module_by_name (modules_of st) (world st) nm with
             | Some module =>
                 answer <- _remove_module_user_prompt module ;;
                 if is_yes answer then remove_confirmed nm module acc
                 else ret acc
             | None =>
                 emit (Stdout ("Module '" +:+ nm +:+ "' not found")) ;;;
                 ret acc
             end) ;;
  remove_input_data nm acc'.

Fixpoint remove_loop (to_remove : list string) (acc : Removal)
    : M (Session W) Removal :=
  match to_remove with
  | [] => ret acc
  | nm :: r => acc' <- remove_one nm acc ;; remove_loop r acc'
  end.

(** [try: _clean_unused_modules(config) except CFBSReturnWithoutCommit: pass] *)
Definition absorb_return_without_commit {A} (c : M (Session W) A)
    : M (Session W) unit :=
  fun st =>
    match c st with
    | (Return _, st') => (Return tt, st')
    | (Raise (CFBSReturnWithoutCommit _), st') => (Return tt, st')
    | (Raise e, st') => (Raise e, st')
    end.

(** [remove_command] after the loop. *)
Definition remove_finish (recursion_limit : nat) (acc : Removal)
    : M (Session W) Result :=
  let num_lines := List.length (PyStr.splitlines (PyStr.strip (removal_msg acc))) in
  let changes_made := (0 <? num_lines)%nat in
  let message :=
    if (1 <? num_lines)%nat
    then "Removed " +:+ PyStr.str_of_nat (num_removed acc) +:+ " modules"
           +:+ newline +:+ removal_msg acc
    else PyStr.drop 4 (removal_msg acc) in
  save ;;;
  (if (0 <? num_removed acc)%nat
   then absorb_return_without_commit (_clean_unused_modules recursion_limit)
   else ret tt) ;;;
  ret (mkResult 0 changes_made message (removal_files acc)).

Definition remove_command (recursion_limit : nat) (to_remove : list string)
    : M (Session W) Result :=
  warn_about_unknown_keys ;;;
  st <- get ;;
  match build st with
  | None =>
      raise (CFBSExitError
               ("Cannot remove any modules because the " +:+ dquote +:+ "build"
                  +:+ dquote +:+ " key is missing from cfbs.json"))
  | Some _ =>
      acc <- remove_loop to_remove (mkRemoval 0 "" []) ;;
      remove_finish recursion_limit acc
  end.

(** Modelled from the spec: the transaction wrapper, the decorator
    [commit_after_command] of [cfbs/git_magic.py], is not among the
    sources.  Following section 4.1: when the outcome reports a change,
    the manifest and the touched files are staged and one commit is made;
    otherwise no commit is made and the exit code is returned; the
    "nothing to commit" signal suppresses the commit and yields the exit
    code it carries; a failing commit propagates. *)
Definition commit_after_command (commit_msg : string)
    (operation : M (Session W) Result) : M (Session W) Z :=
  fun st =>
    match operation st with
    | (Raise (CFBSReturnWithoutCommit retval), st') => (Return retval, st')
    | (Raise e, st') => (Raise e, st')
    | (Return r, st') =>
        if changed r then
          let staged_files := cfbs_filename :: files r in
          match git_commit_maybe_prompt commit_msg (non_interactive st')
                  staged_files (world st') with
          | (Return _, w) =>
              (Return (rc r),
               mkSession (build st') (non_interactive st') (out st')
                 (commits st' ++ [(commit_msg, staged_files)]) (staged st') w)
          | (Raise e, w) =>
              (Raise e,
               mkSession (build st') (non_interactive st') (out st')
                 (commits st') (staged st') w)
          end
        else (Return (rc r), st')
    end.

End Remove.

(** ** [update_command]: the version and update resolver *)

(** [[int(n) for n in re.split(r"[-\.]", v)]]; [None] when one of the
    conversions raises [ValueError]. *)
Definition version_tuple (v : string) : option (list Z) :=
  mapM PyStr.int (PyStr.re_split_version v).

(** Python's [a > b] on two lists of integers: the first position where
    the lists differ decides; without one, the longer list is greater. *)
Fixpoint list_gt (a b : list Z) : bool :=
  match a, b with
  | x :: a', y :: b' => if Z.eqb x y then list_gt a' b' else Z.gtb x y
  | _ :: _, [] => true
  | [], _ => false
  end.

(** Lexicographic order on integer tuples, as the specification words it:
    a proper prefix is smaller, otherwise the first difference decides. *)
Inductive lex_lt : list Z -> list Z -> Prop :=
| lex_lt_nil y b : lex_lt [] (y :: b)
| lex_lt_head x y a b : x < y -> lex_lt (x :: a) (y :: b)
| lex_lt_tail x a b : lex_lt a b -> lex_lt (x :: a) (x :: b).

(** [ModuleUpdates] of [cfbs/updates.py], by the attributes read here. *)
Record ModuleUpdates := mkModuleUpdates {
  new_deps : list string;
  new_deps_added_by : list (string * string);
  changes_made : bool;
  updates_msg : string;
  updates_files : list string
}.

(** The locals of [update_command] next to the session. *)
Record UpdateState (Index W : Type) := mkUpdateState {
  session : Session W;
  module_updates : ModuleUpdates;
  updated : list string;
  last_index : option Index
}.
Arguments mkUpdateState {Index W}.
Arguments session {Index W}.
Arguments module_updates {Index W}.
Arguments updated {Index W}.
Arguments last_index {Index W}.

(** What [update_command] reaches outside this file: the argument parser
    ([cfbs/module.py]), the index ([cfbs/index.py]), the configuration
    object ([cfbs/cfbs_config.py]) and the updater ([cfbs/updates.py]). *)
Class Updater (Index W : Type) := {
  (** [Module(arg).name] *)
  Module_name : string -> string;
  (** [config.index] and [Index(old_module["index"])] *)
  config_index : Index;
  Index_of : string -> Index;
  (** [index.get_module_object(name)]; [None] also for a falsy object *)
  get_module_object : Index -> string -> option BuildModule;
  (** [index.get_module_object(name, added_by)] *)
  get_module_object_added_by :
    Index -> string -> string -> M (UpdateState Index W) BuildModule;
  (** [config.get_module_from_build(name)] *)
  get_module_from_build : list BuildModule -> string -> option BuildModule;
  (** [clone_url_repo(url)] followed by [CFBSJson(...).get_provides()] *)
  get_provides : string -> M (UpdateState Index W) (list (string * BuildModule));
  (** [update_module(old_module, new_module, module_updates, update)] *)
  update_module :
    BuildModule -> BuildModule -> string -> M (UpdateState Index W) unit;
  (** [config.add_with_dependencies(objects)] *)
  add_with_dependencies : list BuildModule -> M (UpdateState Index W) unit
}.

Section Update.
Context {Index W : Type} `{Collaborators W} `{Updater Index W}.

(** A session operation run inside [update_command]. *)
Definition in_session {A} (c : M (Session W) A) : M (UpdateState Index W) A :=
  fun st =>
    let (o, s) := c (session st) in
    (o, mkUpdateState s (module_updates st) (updated st) (last_index st)).

Definition set_index (i : Index) : M (UpdateState Index W) unit :=
  modify (fun st => mkUpdateState (session st) (module_updates st) (updated st)
                      (Some i)).

Definition append_updated (u : string) : M (UpdateState Index W) unit :=
  modify (fun st => mkUpdateState (session st) (module_updates st)
                      (updated st ++ [u]) (last_index st)).

Definition set_updates_msg (m : string) : M (UpdateState Index W) unit :=
  modify (fun st =>
    let mu := module_updates st in
    mkUpdateState (session st)
      (mkModuleUpdates (new_deps mu) (new_deps_added_by mu) (changes_made mu)
                       m (updates_files mu))
      (updated st) (last_index st)).

(** The tail of one iteration: [update_module(...)] and
    [updated.append(update)]. *)
Definition apply_update (old_module new_module : BuildModule) (update : string)
    : M (UpdateState Index W) unit :=
  update_module old_module new_module update ;;;
  append_updated update.

(** The index-sourced branch of one iteration (the [else] of
    ["url" in old_module]).  Every [continue] is a plain return. *)
Definition update_from_index (idx : Index) (old_module : BuildModule)
    (update : string) : M (UpdateState Index W) unit :=
  match version old_module with
  | None =>
      in_session (emit (LogWarning ("Module '" +:+ name old_module
                       +:+ "' not updatable. Skipping its update."))) ;;;
      in_session (emit (LogDebug ("Module '" +:+ name old_module
                       +:+ "' has no version attribute.")))
  | Some old_version =>
      match get_module_object idx (Module_name update) with
      | None =>
          in_session (emit (LogWarning ("Module '" +:+ name old_module
                           +:+ "' not present in the index, cannot update it.")))
      | Some index_info =>
          match version_tuple old_version with
          | None => raise ValueError
          | Some local_ver =>
              match version index_info with
              | None => raise KeyError
              | Some new_version =>
                  match version_tuple new_version with
                  | None => raise ValueError
                  | Some index_ver =>
                      if bool_decide (local_ver = index_ver) then
                        in_session (emit (Stdout ("Module '" +:+ name old_module
                                       +:+ "' already up to date")))
                      else if list_gt local_ver index_ver then
                        in_session (emit (LogWarning
                          ("The requested version of module '" +:+ name old_module
                             +:+ "' is older than current version ("
                             +:+ new_version +:+ " < " +:+ old_version +:+ ")."
                             +:+ " Skipping its update.")))
                      else apply_update old_module index_info update
                  end
              end
          end
      end
  end.

(** The URL-sourced branch of one iteration. *)
Definition update_from_url (u : string) (old_module : BuildModule)
    (update : string) : M (UpdateState Index W) unit :=
  provides <- get_provides u ;;
  let module_name := name old_module in
  if bool_decide (module_name = "") then ret tt
  else match List.find (fun kv => bool_decide (fst kv = module_name)) provides with
       | None => ret tt
       | Some kv => apply_update old_module (snd kv) update
       end.

(** One iteration of [for update in to_update].  The lookup is asserted
    to succeed; as a module record is never falsy, the two
    [if not old_module] blocks that follow the assertion cannot run. *)
Definition update_one (update : string) : M (UpdateState Index W) unit :=
  st <- get ;;
  match build (session st) with
  | None => raise KeyError
  | Some modules =>
      match get_module_from_build modules (Module_name update) with
      | None => raise AssertionError
      | Some old_module =>
          let idx := match index old_module with
                     | Some i => Index_of i
                     | None => config_index
                     end in
          set_index idx ;;;
          match url old_module with
          | Some u => update_from_url u old_module update
          | None => update_from_index idx old_module update
          end
      end
  end.

(** [index.get_module_object(d, module_updates.new_deps_added_by[d])]
    for every new dependency. *)
Fixpoint new_dep_objects (idx : Index) (added : list (string * string))
    (deps : list string) : M (UpdateState Index W) (list BuildModule) :=
  match deps with
  | [] => ret []
  | d :: r =>
      match List.find (fun kv => bool_decide (fst kv = d)) added with
      | None => raise KeyError
      | Some kv =>
          o <- get_module_object_added_by idx d (snd kv) ;;
          os <- new_dep_objects idx added r ;;
          ret (o :: os)
      end
  end.

Definition update_command (to_update : list string)
    : M (UpdateState Index W) Result :=
  in_session warn_about_unknown_keys ;;;
  st0 <- get ;;
  match build (session st0) with
  | None => raise KeyError
  | Some modules =>
      let targets := match to_update with
                     | [] => map name modules
                     | _ => to_update
                     end in
      for_each update_one targets ;;;
      st1 <- get ;;
      (match new_deps (module_updates st1) with
       | [] => ret tt
       | deps =>
           match last_index st1 with
           | None => raise AssertionError
           | Some idx =>
               objects <- new_dep_objects idx
                            (new_deps_added_by (module_updates st1)) deps ;;
               add_with_dependencies objects
           end
       end) ;;;
      in_session save ;;;
      st2 <- get ;;
      let mu := module_updates st2 in
      (if changes_made mu then
         let m := if (1 <? List.length (updated st2))%nat
                  then "Updated " +:+ PyStr.str_of_nat (List.length (updated st2))
                         +:+ " modules" +:+ newline +:+ updates_msg mu
                  else PyStr.drop 4 (updates_msg mu) in
         set_updates_msg m ;;;
         in_session (emit (Stdout (m +:+ newline)))
       else in_session (emit (Stdout "Modules are already up to date"))) ;;;
      st3 <- get ;;
      let mu3 := module_updates st3 in
      ret (mkResult 0 (changes_made mu3) (updates_msg mu3) (updates_files mu3))
  end.

End Update.

(** ** [_download_dependencies]: the fetch-and-stage pipeline *)

Definition _MODULES_URL : string := "https://archive.build.cfengine.com/modules".

(** What the pipeline reaches in [cfbs/utils.py],
    [cfbs/internal_file_management.py], [cfbs/index.py] and
    [cfbs/cfbs_config.py].  The versions catalog is the JSON object
    name -> version -> key -> value. *)
Class Fetcher (W : Type) := {
  is_a_commit_hash : string -> bool;
  get_download_path : BuildModule -> string;
  strip_right : string -> string -> string;
  pad_right : string -> nat -> string;
  SUPPORTED_ARCHIVES : list string;
  _VERSION_INDEX : string;
  (** [config.longest_module_key_length(key)] *)
  longest_module_key_length : option (list BuildModule) -> string -> nat;
  (** [local_module_copy(module, counter, max_length)], which annotates
      the module it is given *)
  local_module_copy : BuildModule -> nat -> nat -> W -> Outcome BuildModule * W;
  (** [fetch_archive(url, checksum, directory, with_index)] *)
  fetch_archive :
    string -> option string -> option string -> bool -> W -> Outcome unit * W;
  sh : string -> W -> Outcome unit * W;
  cp : string -> string -> W -> Outcome unit * W;
  get_json : string -> W -> Outcome (gmap string (gmap string (gmap string string))) * W
}.

Section Download.
Context {W : Type} `{Collaborators W} `{Fetcher W}.

(** Writing [module] back at its place in the build list: the source
    mutates the object the list holds. *)
Definition annotate (position : nat) (module : BuildModule) : M (Session W) unit :=
  st <- get ;;
  match build st with
  | Some modules => set_build (<[position := module]> modules)
  | None => ret tt
  end.

(** [versions[name][module["version"]]["archive_sha256"]]; [None] is the
    [KeyError] of any of the four subscripts. *)
Definition archive_checksum
    (versions : gmap string (gmap string (gmap string string)))
    (module : BuildModule) : option string :=
  by_version ← versions !! name module;
  v ← version module;
  entry ← by_version !! v;
  entry !! "archive_sha256".

Definition missing_subdirectory (where_ : string) (module : BuildModule)
    (u : string) : Exception :=
  CFBSExitError
    ("Subdirectory '" +:+ default "" (subdirectory module) +:+ "' for module '"
       +:+ name module +:+ "' was not found in " +:+ where_ +:+ " '" +:+ u +:+ "': "
       +:+ "Please check cfbs.json for possible typos.").

(** The body of [if not os.path.exists(module_dir)]. *)
Definition fetch_missing (module : BuildModule) (c u commit_dir : string)
    (ignore_versions : bool) : M (Session W) unit :=
  st <- get ;;
  let stale := os_path_exists commit_dir (world st)
               && bool_decide (is_Some (subdirectory module)) in
  if PyStr.endswith_any u SUPPORTED_ARCHIVES then
    if stale then raise (missing_subdirectory "fetched archive" module u)
    else call (fetch_archive u (Some c) None true)
  else if bool_decide (is_Some (index module))
          || bool_decide (is_Some (url module)) || ignore_versions then
    if stale then raise (missing_subdirectory "cloned repository" module u)
    else
      call (sh ("git clone " +:+ u +:+ " " +:+ commit_dir)) ;;;
      call (sh ("(cd " +:+ commit_dir +:+ " && git checkout " +:+ c +:+ ")"))
  else
    versions <- (fun s =>
                   match call (get_json _VERSION_INDEX) s with
                   | (Raise (CFBSNetworkError _), s') =>
                       (Raise (CFBSExitError
                          "Downloading CFEngine Build Module Index failed - check your Wi-Fi / network settings."),
                        s')
                   | r => r
                   end) ;;
    match archive_checksum versions module with
    | None => raise (CFBSExitError
                       ("Cannot verify checksum of the '" +:+ name module
                          +:+ "' module"))
    | Some checksum =>
        let module_archive_url :=
          os_path_join (os_path_join _MODULES_URL (name module)) (c +:+ ".tar.gz") in
        call (fetch_archive module_archive_url (Some checksum) (Some commit_dir) false)
    end.

(** ["out/steps/%03d_%s_%s/" % (counter, module["name"], commit)] *)
Definition staged_directory (counter : nat) (module : BuildModule) (c : string)
    : string :=
  "out/steps/" +:+ PyStr.fmt_03d counter +:+ "_" +:+ name module +:+ "_" +:+ c +:+ "/".

Definition with_staging (module : BuildModule) (target : string) (counter : nat)
    : BuildModule :=
  mkModule (name module) (description module) (version module) (commit module)
    (url module) (repo module) (subdirectory module) (dependencies module)
    (added_by module) (index module) (Some target) (Some counter) (extra module).

(** [module.get("url") or module["repo"]]; [None] is the [KeyError]. *)
Definition source_url (module : BuildModule) : option string :=
  match url module with
  | Some u => if bool_decide (u = "") then repo module else Some u
  | None => repo module
  end.

(** One iteration of the loop; the value is the counter after it. *)
Definition download_one (redownload ignore_versions : bool)
    (max_length position counter : nat) (module : BuildModule)
    : M (Session W) nat :=
  if PyStr.startswith (name module) "./" then
    log_staging (LocalCopy module counter max_length) ;;;
    module' <- call (local_module_copy module counter max_length) ;;
    annotate position module' ;;;
    ret (counter + 1)%nat
  else
    match commit module with
    | None => raise (CFBSExitError
                       ("module " +:+ name module +:+ " must have a commit property"))
    | Some c =>
        if negb (is_a_commit_hash c) then
          raise (CFBSExitError ("'" +:+ c +:+ "' is not a commit reference"))
        else
          match source_url module with
          | None => raise KeyError
          | Some u0 =>
              let u := strip_right u0 ".git" in
              let commit_dir := get_download_path module in
              (if redownload then effect (rm commit_dir) else ret tt) ;;;
              let module_dir := match subdirectory module with
                                | Some sd => os_path_join commit_dir sd
                                | None => commit_dir
                                end in
              st <- get ;;
              (if os_path_exists module_dir (world st) then ret tt
               else fetch_missing module c u commit_dir ignore_versions) ;;;
              let target := staged_directory counter module c in
              annotate position (with_staging module target counter) ;;;
              let source := match subdirectory module with
                            | Some sd => if bool_decide (sd = "") then commit_dir
                                         else os_path_join commit_dir sd
                            | None => commit_dir
                            end in
              log_staging (Copy source target) ;;;
              call (cp source target) ;;;
              emit (Stdout (PyStr.fmt_03d counter +:+ " "
                             +:+ pad_right (name module) max_length
                             +:+ " @ " +:+ c +:+ " (Downloaded)")) ;;;
              ret (counter + 1)%nat
          end
    end.

(** [for module in config.get("build", [])], from [position] on. *)
Fixpoint download_loop (redownload ignore_versions : bool)
    (max_length position counter : nat) (modules : list BuildModule)
    : M (Session W) nat :=
  match modules with
  | [] => ret counter
  | module :: r =>
      counter' <- download_one redownload ignore_versions max_length
                    position counter module ;;
      download_loop redownload ignore_versions max_length (S position) counter' r
  end.

(** [prefer_offline] is accepted and never read. *)
Definition _download_dependencies (prefer_offline redownload ignore_versions : bool)
    : M (Session W) unit :=
  emit (Stdout (newline +:+ "Modules:")) ;;;
  st <- get ;;
  let max_length := longest_module_key_length (build st) "name" in
  download_loop redownload ignore_versions max_length 0 1 (default [] (build st)) ;;;
  ret tt.

End Download.

(** ** [init_command] *)

(** The manifest [init_command] writes. *)
Record Manifest := mkManifest {
  manifest_name : string;
  manifest_type : string;
  manifest_description : string;
  manifest_build : list BuildModule;
  manifest_index : option string;
  manifest_git : bool
}.

(** What [init_command] reaches in [cfbs/args.py], [cfbs/utils.py],
    [cfbs/git.py], [cfbs/pretty.py], [cfbs/cfbs_config.py] and the
    operating system. *)
Class Initializer (W : Type) := {
  is_cfbs_repo : W -> bool;
  (** [get_args().git], [.git_user_name] and [.git_user_email] *)
  args_git : option string;
  args_git_user_name : option string;
  args_git_user_email : option string;
  is_git_repo : W -> bool;
  git_exists : W -> bool;
  git_get_config : string -> W -> option string;
  git_set_config : string -> string -> W -> bool * W;
  git_init : string -> string -> string -> W -> Outcome unit * W;
  (** [os.uname().nodename] *)
  nodename : string;
  (** [pretty(config, CFBS_DEFAULT_SORTING_RULES)] *)
  pretty : Manifest -> string;
  (** [with open(path, "w") as f: f.write(data)] *)
  write_file : string -> string -> W -> W;
  os_unlink : string -> W -> W;
  (** [CFBSConfig.reload()] *)
  reload : M (Session W) unit;
  ls_remote : string -> string -> W -> option string * W;
  (** the command [add_command(to_add, added_by=...)], commit included *)
  add_command : list string -> string -> M (Session W) Z
}.

(** [re.match(r"[0-9]+(\.[0-9]+){2}(\-[0-9]+)?", s)]: the match is anchored
    at the start only and the last group is optional, so it succeeds
    exactly when [s] starts with three dot-separated runs of digits. *)
Fixpoint skip_digits (l : list ascii) : list ascii :=
  match l with
  | c :: r => if PyStr.is_digit c then skip_digits r else l
  | [] => []
  end.

Definition digits1 (l : list ascii) : option (list ascii) :=
  match l with
  | c :: r => if PyStr.is_digit c then Some (skip_digits r) else None
  | [] => None
  end.

Definition dot_digits1 (l : list ascii) : option (list ascii) :=
  match l with
  | c :: r => if (PyStr.code c =? 46)%nat then digits1 r else None
  | [] => None
  end.

Definition looks_like_version (s : string) : bool :=
  match digits1 (list_ascii_of_string s) with
  | Some r1 => match dot_digits1 r1 with
               | Some r2 => match dot_digits1 r2 with
                            | Some _ => true
                            | None => false
                            end
               | None => false
               end
  | None => false
  end.

Definition truthy (o : option string) : option string :=
  match o with
  | Some "" => None
  | _ => o
  end.

Section Init.
Context {W : Type} `{Collaborators W} `{Initializer W}.

(** The block [if do_git is True]: [Some rc] is an early [return rc]. *)
Definition init_git (description : string) (is_git : bool)
    : M (Session W) (option Z) :=
  st <- get ;;
  if negb (git_exists (world st)) then
    emit (Stdout "Command 'git' was not found") ;;; ret (Some 1)
  else
    user_name <-
      match truthy args_git_user_name with
      | Some n => ret n
      | None =>
          st <- get ;;
          let configured := git_get_config "user.name" (world st) in
          ask (prompt_user (non_interactive st)
                 "Please enter user name to use for git commits" []
                 (default "cfbs" (truthy configured)))
      end ;;
    user_email <-
      match truthy args_git_user_email with
      | Some e => ret e
      | None =>
          st <- get ;;
          let configured := git_get_config "user.email" (world st) in
          ask (prompt_user (non_interactive st)
                 "Please enter user email to use for git commits" []
                 (default ("cfbs@" +:+ nodename) (truthy configured)))
      end ;;
    if negb is_git then
      fun s =>
        match call (git_init user_name user_email description) s with
        | (Raise (CFBSGitError e), s') =>
            (emit (Stdout e) ;;; ret (Some 1)) s'
        | (Raise e, s') => (Raise e, s')
        | (Return _, s') => (Return None, s')
        end
    else
      ok_name <- ask (git_set_config "user.name" user_name) ;;
      ok <- (if ok_name then ask (git_set_config "user.email" user_email)
             else ret false) ;;
      if ok then ret None
      else emit (Stdout "Failed to set Git user name and email") ;;; ret (Some 1).

(** From [data = pretty(config, ...)] to the end of the [try] around the
    commit: [Some 1] is the [return 1] of the handler. *)
Definition write_and_commit (config : Manifest) (non_inter : bool)
    : M (Session W) (option Z) :=
  let data := pretty config +:+ newline in
  effect (write_file cfbs_filename data) ;;;
  st <- get ;;
  if negb (is_cfbs_repo (world st)) then raise AssertionError
  else if manifest_git config then
    fun s =>
      match call (git_commit_maybe_prompt
                    "Initialized a new CFEngine Build project"
                    non_inter [cfbs_filename]) s with
      | (Raise (CFBSGitError e), s') =>
          (emit (Stdout e) ;;;
           effect (os_unlink cfbs_filename) ;;;
           ret (Some 1)) s'
      | (Raise e, s') => (Raise e, s')
      | (Return _, s') =>
          (Return None,
           mkSession (build s') (non_interactive s') (out s')
             (commits s' ++ [("Initialized a new CFEngine Build project",
                              [cfbs_filename])])
             (staged s') (world s'))
      end
  else ret None.

(** The part after the manifest is in place: choosing what to add. *)
Definition init_masterfiles (masterfiles : option string) (non_inter : bool)
    : M (Session W) Z :=
  choice <-
    match masterfiles with
    | None =>
        answer <- ask (prompt_user non_inter
                         "Do you wish to build on top of the default policy set, masterfiles? (Recommended)"
                         YES_NO_CHOICES "yes") ;;
        if bool_decide (answer ∈ ["yes"; "y"]) then ret (None, ["masterfiles"])
        else
          answer <- ask (prompt_user non_inter
                           "Specify policy set to use instead (empty to skip)" [] "") ;;
          ret (None, if bool_decide (answer = "") then [] else [answer])
    | Some m =>
        if looks_like_version m then
          emit (LogDebug ("--masterfiles=" +:+ m +:+ " appears to be a version number")) ;;;
          ret (None, ["masterfiles@" +:+ m])
        else if negb (bool_decide (m = "no")) then
          emit (LogDebug ("--masterfiles=" +:+ m +:+ " appears to be a branch")) ;;;
          ret (Some m, ["masterfiles"])
        else ret (None, [])
    end ;;
  to_add <-
    match fst choice with
    | None => ret (snd choice)
    | Some branch =>
        let remote := "https://github.com/cfengine/masterfiles" in
        found <- ask (ls_remote remote branch) ;;
        match found with
        | None => raise (CFBSExitError
                           ("Failed to find branch or tag " +:+ branch
                              +:+ " at remote " +:+ remote))
        | Some c =>
            emit (LogDebug ("Current commit for masterfiles branch " +:+ branch
                           +:+ " is " +:+ c)) ;;;
            ret [remote +:+ "@" +:+ c; "masterfiles"]
        end
    end ;;
  match to_add with
  | [] => ret 0
  | _ => add_command to_add "cfbs init"
  end.

(** [init_command] up to the manifest it is about to write: an early
    [return] gives the exit code on the left. *)
Definition init_prepare (idx : option string) (non_inter : bool)
    : M (Session W) (Z + Manifest) :=
  st <- get ;;
  if is_cfbs_repo (world st) then
    raise (CFBSUserError ("Already initialized - look at " +:+ cfbs_filename))
  else
    nm <- ask (prompt_user non_inter
                 "Please enter the name of this CFEngine Build project" []
                 "Example project") ;;
    description <- ask (prompt_user non_inter
                 "Please enter the description of this CFEngine Build project" []
                 "Example description") ;;
    st <- get ;;
    let is_git := is_git_repo (world st) in
    do_git <-
      match args_git with
      | None =>
          git_ans <- ask (prompt_user non_inter
              (if is_git
               then "This is a git repository. Do you want cfbs to make commits to it?"
               else "Do you want cfbs to initialize a git repository and make commits to it?")
              YES_NO_CHOICES "yes") ;;
          ret (is_yes git_ans)
      | Some g =>
          if bool_decide (g ∈ ["yes"; "no"]) then ret (bool_decide (g = "yes"))
          else raise AssertionError
      end ;;
    early <- (if do_git then init_git description is_git else ret None) ;;
    match early with
    | Some code => ret (inl code)
    | None => ret (inr (mkManifest nm "policy-set" description [] (truthy idx) do_git))
    end.

(** [init_command] from the writing of the manifest on. *)
Definition init_finish (config : Manifest) (masterfiles : option string)
    (non_inter : bool) : M (Session W) Z :=
  failed <- write_and_commit config non_inter ;;
  match failed with
  | Some code => ret code
  | None =>
      emit (Stdout ("Initialized an empty project called '" +:+ manifest_name config
                     +:+ "' in '" +:+ cfbs_filename +:+ "'")) ;;;
      reload ;;;
      init_masterfiles masterfiles non_inter
  end.

Definition init_command (idx masterfiles : option string) (non_inter : bool)
    : M (Session W) Z :=
  prepared <- init_prepare idx non_inter ;;
  match prepared with
  | inl code => ret code
  | inr config => init_finish config masterfiles non_inter
  end.

End Init.

(** ** Specification-side notions *)

(** A root of the build list: no [added_by], or the manual marker. *)
Definition is_root {W} `{Collaborators W} (m : BuildModule) : bool :=
  match added_by m with
  | None => true
  | Some a => is_module_added_manually a
  end.

(** Reachability as the specification defines it: a module is reachable
    if it is a root, or if some module of the build list that lists it
    among its dependencies is reachable. *)
Inductive reachable {W} `{Collaborators W} (modules : list BuildModule)
    : BuildModule -> Prop :=
| reachable_root m :
    is_root m = true -> reachable modules m
| reachable_dependency m other deps :
    other ∈ modules ->
    dependencies other = Some deps ->
    name m ∈ deps ->
    reachable modules other ->
    reachable modules m.

(** Whether [other] lists [nm] among its dependencies. *)
Definition lists_dependency (nm : string) (other : BuildModule) : bool :=
  match dependencies other with
  | Some deps => bool_decide (nm ∈ deps)
  | None => false
  end.

(** The module the loop of [_someone_needs_me] recurses into: the first
    one of the build list that lists [nm]. *)
Definition first_dependent (modules : list BuildModule) (nm : string)
    : option BuildModule :=
  List.find (lists_dependency nm) modules.

(** A character that [strip] keeps. *)
Definition has_visible (s : string) : bool :=
  existsb (fun c => negb (PyStr.is_space c)) (list_ascii_of_string s).

(** A version component made of decimal digits only, at least one. *)
Definition is_decimal (s : string) : bool :=
  negb (bool_decide (s = "")) && forallb PyStr.is_digit (list_ascii_of_string s).

(** The staging call the pipeline is expected to make for the module at
    sequence number [counter]. *)
Definition expected_staging {W} `{Fetcher W} (max_length counter : nat)
    (module : BuildModule) : StagingCall :=
  if PyStr.startswith (name module) "./" then LocalCopy module counter max_length
  else
    let commit_dir := get_download_path module in
    let c := default "" (commit module) in
    Copy (match subdirectory module with
          | Some sd => if bool_decide (sd = "") then commit_dir
                       else os_path_join commit_dir sd
          | None => commit_dir
          end)
         (staged_directory counter module c).

(** The session after [config.warn_about_unknown_keys()]. *)
Definition warned {W} `{Collaborators W} (st : Session W) : Session W :=
  mkSession (build st) (non_interactive st)
    (out st ++ unknown_key_warnings (world st)) (commits st) (staged st) (world st).

(** The session after [config.save()]. *)
Definition saved {W} `{Collaborators W} (st : Session W) : Session W :=
  mkSession (build st) (non_interactive st) (out st) (commits st) (staged st)
    (config_save (build st) (world st)).

(** The session with another world. *)
Definition in_world {W} (st : Session W) (w : W) : Session W :=
  mkSession (build st) (non_interactive st) (out st) (commits st) (staged st) w.

(** A computation that leaves a component [f] of the session (the build
    list, the log of commits, the log of staging calls) as it found it,
    however it ends. *)
Definition kept {W X A} (f : Session W -> X) (c : M (Session W) A) : Prop :=
  forall st o st', c st = (o, st') -> f st' = f st.

(** The session once the pipeline has printed its heading. *)
Definition started {W} (st : Session W) : Session W :=
  mkSession (build st) (non_interactive st)
    (out st ++ [Stdout (newline +:+ "Modules:")]) (commits st) (staged st) (world st).

(** The accumulators of [remove_command] are consistent when a removed
    module has left a visible character in the message. *)
Definition message_tells (acc : Removal) : Prop :=
  (0 < num_removed acc)%nat -> has_visible (removal_msg acc) = true.

(** The index an update of [old_module] consults. *)
Definition index_for {Index W} `{Updater Index W} (old_module : BuildModule)
    : Index :=
  match index old_module with
  | Some i => Index_of i
  | None => config_index
  end.

(** The state after an iteration of [update_command] that consulted
    [idx] and wrote the lines [ls], and did nothing else. *)
Definition consulted {Index W} (st : UpdateState Index W) (idx : Index)
    (ls : list Line) : UpdateState Index W :=
  let s := session st in
  mkUpdateState
    (mkSession (build s) (non_interactive s) (out s ++ ls) (commits s)
       (staged s) (world s))
    (module_updates st) (updated st) (Some idx).

(** ** A scripted world

    A small concrete world for worked examples: the paths that exist, the
    answers the user will give in order, whether commits fail, and the
    versions catalog the network serves. *)

Module Scripted.

Record World := mkWorld {
  paths : list string;
  answers : list string;
  commit_fails : bool;
  catalog : gmap string (gmap string (gmap string string))
}.

Definition with_paths (w : World) (p : list string) : World :=
  mkWorld p (answers w) (commit_fails w) (catalog w).

Definition exists_ (p : string) (w : World) : bool :=
  bool_decide (p ∈ paths w).

Definition create (p : string) (w : World) : World :=
  with_paths w (paths w ++ [p]).

Definition delete (p : string) (w : World) : World :=
  with_paths w (List.filter (fun q => negb (bool_decide (q = p))) (paths w)).

Definition answer (ni : bool) (question : string) (choices : list string)
    (dflt : string) (w : World) : string * World :=
  if ni then (dflt, w)
  else match answers w with
       | a :: r => (a, mkWorld (paths w) r (commit_fails w) (catalog w))
       | [] => (dflt, w)
       end.

Definition commit_ (message : string) (ni : bool) (fs : list string) (w : World)
    : Outcome unit * World :=
  if commit_fails w then (Raise (CFBSGitError "git commit failed"), w)
  else (Return tt, w).

Global Instance collaborators : Collaborators World := {|
  YES_NO_CHOICES := ["yes"; "y"; "no"; "n"];
  prompt_user := answer;
  unknown_key_warnings := fun _ => [];
  config_save := fun _ w => w;
  is_module_added_manually := fun a => bool_decide (a ∈ ["cfbs add"; "cfbs init"]);
  cfbs_filename := "cfbs.json";
  SUPPORTED_URI_SCHEMES := ["https://"; "ssh://"; "git://"];
  os_path_exists := exists_;
  os_path_isfile := exists_;
  rm := delete;
  git_commit_maybe_prompt := commit_
|}.

Definition is_hex (c : ascii) : bool :=
  let n := PyStr.code c in
  PyStr.is_digit c || ((97 <=? n) && (n <=? 102))%nat.

Definition stage_local (module : BuildModule) (counter max_length : nat)
    (w : World) : Outcome BuildModule * World :=
  let target := "out/steps/" +:+ PyStr.fmt_03d counter +:+ "_local/" in
  (Return (with_staging module target counter), create target w).

Global Instance fetcher : Fetcher World := {|
  is_a_commit_hash := fun c =>
    (String.length c =? 40)%nat && forallb is_hex (list_ascii_of_string c);
  get_download_path := fun m => "cache/" +:+ default "" (commit m);
  strip_right := fun s e =>
    if PyStr.endswith s e
    then String.substring 0 (String.length s - String.length e) s else s;
  pad_right := fun s n =>
    s +:+ string_of_list_ascii (repeat " "%char (n - String.length s));
  SUPPORTED_ARCHIVES := [".zip"; ".tar.gz"; ".tgz"];
  _VERSION_INDEX := "https://example.com/versions.json";
  longest_module_key_length := fun b _ =>
    foldr Nat.max 0%nat (map (fun m => String.length (name m)) (default [] b));
  local_module_copy := stage_local;
  fetch_archive := fun _ _ directory _ w =>
    (Return tt, match directory with Some d => create d w | None => w end);
  sh := fun _ w => (Return tt, w);
  cp := fun _ target w => (Return tt, create target w);
  get_json := fun _ w => (Return (catalog w), w)
|}.

Global Instance initializer : Initializer World := {|
  is_cfbs_repo := exists_ "cfbs.json";
  args_git := None;
  args_git_user_name := None;
  args_git_user_email := None;
  is_git_repo := exists_ ".git";
  git_exists := fun _ => true;
  git_get_config := fun _ _ => None;
  git_set_config := fun _ _ w => (true, w);
  git_init := fun _ _ _ w => (Return tt, create ".git" w);
  nodename := "host";
  pretty := manifest_name;
  write_file := fun p _ w => create p w;
  os_unlink := delete;
  reload := ret tt;
  ls_remote := fun _ _ w => (None, w);
  add_command := fun _ _ => ret 0
|}.

(** An index is the list of the modules it offers. *)
Definition lookup (l : list BuildModule) (n : string) : option BuildModule :=
  List.find (fun m => bool_decide (name m = n)) l.

(** A stand-in for the updater: the new record takes the place of the
    old one in the build list. *)
Definition replace_module (old_module new_module : BuildModule) (update : string)
    : M (UpdateState (list BuildModule) World) unit :=
  modify (fun st =>
    let s := session st in
    mkUpdateState
      (mkSession
         (map (fun m => if bool_decide (m = old_module) then new_module else m)
            <$> build s)
         (non_interactive s) (out s) (commits s) (staged s) (world s))
      (module_updates st) (updated st) (last_index st)).

Definition catalog_1_2_4 : list BuildModule :=
  [mkModule "m1" None (Some "1.2.4") None None None None None None None None None []].

Global Instance updater : Updater (list BuildModule) World := {|
  Module_name := fun a => a;
  config_index := catalog_1_2_4;
  Index_of := fun _ => [];
  get_module_object := lookup;
  get_module_object_added_by := fun _ _ _ => raise KeyError;
  get_module_from_build := lookup;
  get_provides := fun _ => ret [];
  update_module := replace_module;
  add_with_dependencies := fun _ => ret tt
|}.

Definition quiet : World := mkWorld [] [] false ∅.

Definition session_of (b : list BuildModule) (w : World) : Session World :=
  mkSession (Some b) false [] [] [] w.

End Scripted.

(** ** Notions used by the further properties *)

(** The bookkeeping of the loop of [remove_command]: what holds between
    a session and the accumulators before and after. *)
Definition removal_accounted {W} (st : Session W) (acc : Removal)
    (st' : Session W) (acc' : Removal) : Prop :=
  sublist (modules_of st') (modules_of st)
  /\ (List.length (modules_of st') + num_removed acc'
      = List.length (modules_of st) + num_removed acc)%nat
  /\ (is_Some (build st) -> is_Some (build st')).

(** A computation that makes at most the staging call [c], however it
    ends. *)
Definition stages_at_most {W A} (c : StagingCall) (m : M (Session W) A) : Prop :=
  forall st o st', m st = (o, st') ->
                   staged st' = staged st \/ staged st' = staged st ++ [c].

(** A version string with an empty component: the empty string, or one
    that starts or ends with a separator, or has two separators in a
    row. *)
Definition has_empty_component (v : string) : Prop :=
  v = ""
  \/ (exists c r, v = String c r /\ PyStr.is_version_sep c = true)
  \/ (exists a c, v = a +:+ String c "" /\ PyStr.is_version_sep c = true)
  \/ (exists a c1 c2 b,
        v = a +:+ String c1 (String c2 b)
        /\ PyStr.is_version_sep c1 = true /\ PyStr.is_version_sep c2 = true).

(** A target of [update_command] that is index-sourced and whose
    installed and catalog versions parse to the same tuple. *)
Definition already_current {Index W} `{Updater Index W}
    (modules : list BuildModule) (update : string) (old_module : BuildModule)
    : Prop :=
  get_module_from_build modules (Module_name update) = Some old_module
  /\ url old_module = None
  /\ exists old_version index_info new_version tuple,
       version old_module = Some old_version
       /\ get_module_object (index_for old_module) (Module_name update)
          = Some index_info
       /\ version index_info = Some new_version
       /\ version_tuple old_version = Some tuple
       /\ version_tuple new_version = Some tuple.

(** ** [download_command], [build_command], [install_command] *)

(** What these commands reach in [cfbs/validate.py], [cfbs/build.py] and
    the operating system. *)
Class Builder (W : Type) := {
  (** [validate_config(config)] *)
  validate_config : M (Session W) Z;
  init_out_folder : W -> Outcome unit * W;
  (** [perform_build(config)] *)
  perform_build : M (Session W) Z;
  os_getuid : W -> nat;
  (** [os.environ["HOME"]]; [None] when the variable is not set *)
  os_environ_HOME : W -> option string
}.

Definition validation_warning : string :=
  "At least one error encountered while validating your cfbs.json file."
  +:+ newline +:+ "Please see the error messages above and apply fixes accordingly."
  +:+ newline +:+ "If not fixed, these errors will cause your project to not build in future cfbs versions.".

Section Build.
Context {W : Type} `{Collaborators W} `{Fetcher W} `{Builder W}.

(** The validation both commands start with: a failure is only warned
    about. *)
Definition validate_and_warn : M (Session W) unit :=
  r <- validate_config ;;
  if negb (r =? 0)%Z then emit (LogWarning validation_warning) else ret tt.

Definition download_command (force ignore_versions : bool) : M (Session W) Z :=
  validate_and_warn ;;;
  _download_dependencies false force ignore_versions ;;;
  ret 0.

Definition build_command (ignore_versions : bool) : M (Session W) Z :=
  validate_and_warn ;;;
  call init_out_folder ;;;
  _download_dependencies true false ignore_versions ;;;
  perform_build.

(** The destination [install_command] settles on, before the ["./"]
    prefix; [None] is the [KeyError] of [os.environ["HOME"]].  The first
    assignment of the source, made when the user is root, is always
    overwritten by one of the three that follow. *)
Definition install_destination (args : list string) (w : W) : option string :=
  match args with
  | destination :: _ => Some destination
  | [] => if (os_getuid w =? 0)%nat then Some "/var/cfengine/masterfiles"
          else (fun home => os_path_join home ".cfagent/inputs")
                 <$> os_environ_HOME w
  end.

Definition install_command (args : list string) : M (Session W) Z :=
  if (1 <? List.length args)%nat then
    raise (CFBSExitError
             "Only one destination is allowed for command: cfbs install [destination]")
  else
    st <- get ;;
    built <- (if negb (os_path_exists "out/masterfiles" (world st))
              then build_command false else ret 0) ;;
    if negb (built =? 0)%Z then ret built
    else
      st <- get ;;
      match install_destination args (world st) with
      | None => raise KeyError
      | Some d =>
          let destination :=
            if negb (PyStr.startswith d "/") && negb (PyStr.startswith d "./")
            then "./" +:+ d else d in
          effect (rm destination) ;;;
          log_staging (Copy "out/masterfiles" destination) ;;;
          call (cp "out/masterfiles" destination) ;;;
          emit (Stdout ("Installed to " +:+ destination)) ;;;
          ret 0
      end.

End Build.

(** ** [pretty_command] *)

(** What reading or rewriting a JSON file gives: a value, or one of the
    two exceptions the command handles, or another one. *)
Inductive FileOutcome (A : Type) :=
| FileOk (a : A)
| FileNotFoundError
| JSONDecodeError (ex : string)
| FileRaise (e : Exception).
Arguments FileOk {A} a.
Arguments FileNotFoundError {A}.
Arguments JSONDecodeError {A} ex.
Arguments FileRaise {A} e.

(** [os.path.basename(p)]: what follows the last slash. *)
Fixpoint os_path_basename (p : string) : string :=
  match p with
  | EmptyString => EmptyString
  | String c r =>
      if existsb (fun x => (PyStr.code x =? 47)%nat) (list_ascii_of_string p)
      then if (PyStr.code c =? 47)%nat
           then if existsb (fun x => (PyStr.code x =? 47)%nat) (list_ascii_of_string r)
                then os_path_basename r else r
           else os_path_basename r
      else p
  end.

(** [cfbs/pretty.py]: the formatter, with its sorting rules. *)
Class Prettifier (W Rules : Type) := {
  CFBS_DEFAULT_SORTING_RULES : Rules;
  (** [pretty_check_file(f, rules)]: whether the file is formatted *)
  pretty_check_file : string -> option Rules -> W -> FileOutcome bool;
  (** [pretty_file(f, rules)] *)
  pretty_file : string -> option Rules -> W -> FileOutcome unit * W
}.

Section Pretty.
Context {W Rules : Type} `{Collaborators W} `{Prettifier W Rules}.

(** The [except] clauses around one file. *)
Definition handled {A} (f : string) (o : FileOutcome A) : Outcome A :=
  match o with
  | FileOk a => Return a
  | FileNotFoundError => Raise (CFBSExitError ("File '" +:+ f +:+ "' not found"))
  | JSONDecodeError ex =>
      Raise (CFBSExitError ("Error reading json file '" +:+ f +:+ "': " +:+ ex))
  | FileRaise e => Raise e
  end.

(** One iteration of [for f in filenames]; the value is [num_files]. *)
Definition pretty_one (check : bool) (sorting_rules : option Rules)
    (num_files : nat) (f : string) : M (Session W) nat :=
  if bool_decide (f = "") || negb (PyStr.endswith f ".json") then
    raise (CFBSExitError
             ("cfbs pretty command can only be used with .json files, not '"
                +:+ os_path_basename f +:+ "'"))
  else if check then
    formatted <- call (fun w => (handled f (pretty_check_file f sorting_rules w), w)) ;;
    if negb formatted then
      emit (Stdout ("Would reformat " +:+ f)) ;;; ret (num_files + 1)%nat
    else ret num_files
  else
    call (fun w => let (o, w') := pretty_file f sorting_rules w in (handled f o, w')) ;;;
    ret num_files.

Fixpoint pretty_loop (check : bool) (sorting_rules : option Rules)
    (num_files : nat) (filenames : list string) : M (Session W) nat :=
  match filenames with
  | [] => ret num_files
  | f :: r =>
      n <- pretty_one check sorting_rules num_files f ;;
      pretty_loop check sorting_rules n r
  end.

Definition pretty_command (filenames : list string) (check keep_order : bool)
    : M (Session W) Z :=
  match filenames with
  | [] => raise (CFBSExitError "Filenames missing for cfbs pretty command")
  | _ =>
      let sorting_rules := if keep_order then Some CFBS_DEFAULT_SORTING_RULES
                           else None in
      num_files <- pretty_loop check sorting_rules 0 filenames ;;
      if check then
        emit (Stdout ("Would reformat " +:+ PyStr.str_of_nat num_files +:+ " file(s)")) ;;;
        ret (if (0 <? num_files)%nat then 1 else 0)
      else ret 0
  end.

End Pretty.

(** ** [validate_command] *)

Class Validator (W : Type) := {
  os_path_isdir : string -> W -> bool;
  (** [CFBSJson(path=path, index_argument=index_arg)] followed by
      [validate_config] on it *)
  validate_project : string -> option string -> M (Session W) Z
}.

Section Validate.
Context {W : Type} `{Collaborators W} `{Initializer W} `{Builder W} `{Validator W}.

(** One iteration of [for path in paths]; the value is [ret_value]. *)
Definition validate_one (index_arg : option string) (ret_value : Z)
    (path : string) : M (Session W) Z :=
  st <- get ;;
  let w := world st in
  let is_json := PyStr.endswith path ".json" in
  let project := os_path_join path "cfbs.json" in
  if negb (os_path_exists path w) then
    raise (CFBSUserError ("Specified path '" +:+ path +:+ "' does not exist"))
  else if is_json && negb (os_path_isfile path w) then
    raise (CFBSUserError
             ("'" +:+ path +:+ "' is not a file - Please specify a path to a cfbs project file, ending in .json, or a folder containing a cfbs.json"))
  else if negb is_json && negb (os_path_isfile project w) then
    raise (CFBSUserError ("No CFBS project file found at '" +:+ project +:+ "'"))
  else if negb is_json && negb (os_path_isdir path w) then raise AssertionError
  else
    let file := if is_json then path else project in
    if negb (os_path_isfile file w) then raise AssertionError
    else
      r <- validate_project file index_arg ;;
      if negb (r =? 0)%Z then
        emit (LogWarning ("Validation of project at path " +:+ file +:+ " failed")) ;;;
        ret 1
      else
        emit (Stdout ("Successfully validated the project at path " +:+ file)) ;;;
        ret ret_value.

Fixpoint validate_loop (index_arg : option string) (ret_value : Z)
    (paths : list string) : M (Session W) Z :=
  match paths with
  | [] => ret ret_value
  | path :: r =>
      ret_value' <- validate_one index_arg ret_value path ;;
      validate_loop index_arg ret_value' r
  end.

Definition validate_command (paths : list string) (index_arg : option string)
    : M (Session W) Z :=
  match paths with
  | _ :: _ => validate_loop index_arg 0 paths
  | [] =>
      st <- get ;;
      if negb (is_cfbs_repo (world st)) then
        raise (CFBSExitError
                 ("Cannot validate: this is not a CFBS project. "
                    +:+ "Use `cfbs init` to start a new project in this directory, or provide a path to a CFBS project to validate."))
      else validate_config
  end.

End Validate.

(** ** [set_input_command]: the comparison of input data with its
    specification *)

(** A Python [float]: not-a-number, an infinity, a zero, or mantissa and
    exponent of another value, in lowest terms. *)
Inductive PyFloat :=
| FNaN
| FInf (negative : bool)
| FZero (negative : bool)
| FNum (mantissa exponent : Z).

(** [x == y] on floats: not-a-number equals nothing, the two zeros are
    equal. *)
Definition float_eq (f g : PyFloat) : bool :=
  match f, g with
  | FInf a, FInf b => Bool.eqb a b
  | FZero _, FZero _ => true
  | FNum m e, FNum m' e' => (m =? m')%Z && (e =? e')%Z
  | _, _ => false
  end.

(** What [json.load] gives; the keys of an object are distinct. *)
#[local] Unset Elimination Schemes.
Inductive JSON :=
| JNull
| JBool (b : bool)
| JInt (z : Z)
| JFloat (f : PyFloat)
| JStr (s : string)
| JList (items : list JSON)
| JDict (entries : list (string * JSON)).
#[local] Set Elimination Schemes.

(** [d[k]] *)
Definition json_get (k : string) (d : list (string * JSON)) : option JSON :=
  snd <$> List.find (fun kv => bool_decide (fst kv = k)) d.

(** [set(a) == set(b)] on two lists of keys. *)
Definition same_key_set (a b : list string) : bool :=
  forallb (fun k => bool_decide (k ∈ b)) a && forallb (fun k => bool_decide (k ∈ a)) b.

(** The body of the loop of [_compare_list] on one pair [x], [y], the
    loop included for nested lists and the body of [_compare_dict] for
    nested objects: different types differ, objects are compared key by
    key, lists item by item, other values with [!=]. *)
Fixpoint compare_value (x y : JSON) : bool :=
  match x, y with
  | JDict a, JDict b =>
      same_key_set (map fst a) (map fst b)
      && (fix entries (es : list (string * JSON)) : bool :=
            match es with
            | [] => true
            | (k, v) :: r =>
                match json_get k b with
                | Some w => compare_value v w && entries r
                | None => false
                end
            end) a
  | JList a, JList b =>
      (fix items (xs ys : list JSON) : bool :=
         match xs, ys with
         | [], [] => true
         | x' :: xs', y' :: ys' => compare_value x' y' && items xs' ys'
         | _, _ => false
         end) a b
  | JNull, JNull => true
  | JBool a, JBool b => Bool.eqb a b
  | JInt a, JInt b => (a =? b)%Z
  | JFloat a, JFloat b => float_eq a b
  | JStr a, JStr b => bool_decide (a = b)
  | _, _ => false
  end.

(** [_compare_list(a, b)] *)
Definition _compare_list (a b : list JSON) : bool :=
  (List.length a =? List.length b)%nat
  && forallb (fun xy => compare_value (fst xy) (snd xy)) (combine a b).

(** [_compare_dict(a, b, ignore)]: the key sets are compared first, so
    every key of [a] is one of [b] when the values are fetched. *)
Definition _compare_dict (a b : list (string * JSON)) (ignore : list string) : bool :=
  let keys := map fst a in
  same_key_set keys (List.filter (fun k => negb (bool_decide (k ∈ ignore))) (map fst b))
  && _compare_list (map (fun k => default JNull (json_get k a)) keys)
                   (map (fun k => default JNull (json_get k b)) keys).

(** The loop [for a, b in zip(spec, data)] of [set_input_command], for a
    specification and data that are both lists: [false] is the error
    "does not conform with input definition" and the return of 1. *)
Definition input_conforms (spec data : list JSON) : bool :=
  forallb (fun ab => match ab with
                     | (JDict a, JDict b) => _compare_dict a b ["response"]
                     | _ => false
                     end)
          (combine spec data).

(** A value without not-a-number in it. *)
Fixpoint nan_free (x : JSON) : bool :=
  match x with
  | JFloat FNaN => false
  | JList l => forallb nan_free l
  | JDict d => forallb (fun kv => match kv with (_, v) => nan_free v end) d
  | _ => true
  end.

(** A value all of whose objects have distinct keys. *)
Fixpoint distinct_keys (x : JSON) : bool :=
  match x with
  | JList l => forallb distinct_keys l
  | JDict d =>
      bool_decide (NoDup (map fst d))
      && forallb (fun kv => match kv with (_, v) => distinct_keys v end) d
  | _ => true
  end.

(** Induction on a value, with the items of a list and the values of an
    object as induction hypotheses. *)
Section JSONInduction.
Variable P : JSON -> Prop.
Hypothesis Hnull : P JNull.
Hypothesis Hbool : forall b, P (JBool b).
Hypothesis Hint : forall z, P (JInt z).
Hypothesis Hfloat : forall f, P (JFloat f).
Hypothesis Hstr : forall s, P (JStr s).
Hypothesis Hlist : forall l, Forall P l -> P (JList l).
Hypothesis Hdict : forall d, Forall (fun kv => P (snd kv)) d -> P (JDict d).

Fixpoint JSON_ind (x : JSON) : P x :=
  match x with
  | JNull => Hnull
  | JBool b => Hbool b
  | JInt z => Hint z
  | JFloat f => Hfloat f
  | JStr s => Hstr s
  | JList l =>
      Hlist l ((fix items (l : list JSON) : Forall P l :=
                  match l with
                  | [] => @List.Forall_nil _ P
                  | y :: r => @List.Forall_cons _ P y r (JSON_ind y) (items r)
                  end) l)
  | JDict d =>
      Hdict d ((fix entries (d : list (string * JSON))
                  : Forall (fun kv => P (snd kv)) d :=
                  match d with
                  | [] => @List.Forall_nil _ _
                  | (k, v) :: r =>
                      @List.Forall_cons _ (fun kv => P (snd kv)) (k, v) r (JSON_ind v) (entries r)
                  end) d)
  end.
End JSONInduction.

(** ** [search_command] *)

(** An entry of the index as the command reads it: the keys ["alias"]
    and ["description"], each there or not. *)
Record IndexData := mkIndexData {
  data_alias : option string;
  data_description : option string
}.

(** A value of [results]: a dict with the keys ["description"] and
    ["aliases"], each there or not. *)
Record SearchResult := mkSearchResult {
  result_description : option string;
  result_aliases : option (list string)
}.

(** [t in s] on strings. *)
Fixpoint str_contains (s t : string) : bool :=
  PyStr.startswith s t
  || match s with
     | EmptyString => false
     | String _ r => str_contains r t
     end.

(** The truth value of a string. *)
Definition truthy_str (s : string) : bool := negb (bool_decide (s = "")).

(** [d[k]] and [d[k] = f(d.get(k))] on a dict, which keeps the order in
    which its keys were first set. *)
Definition dict_get {V} (k : string) (d : list (string * V)) : option V :=
  snd <$> List.find (fun kv => bool_decide (fst kv = k)) d.

Fixpoint dict_set {V} (k : string) (f : option V -> V) (d : list (string * V))
    : list (string * V) :=
  match d with
  | [] => [(k, f None)]
  | (k', v) :: r =>
      if bool_decide (k' = k) then (k', f (Some v)) :: r
      else (k', v) :: dict_set k f r
  end.

(** One iteration of [for name, data in index.items()]. *)
Definition gather_one (results : list (string * SearchResult)) (name : string)
    (data : IndexData) : Outcome (list (string * SearchResult)) :=
  match data_alias data with
  | Some realname =>
      Return (dict_set realname
                (fun o =>
                   let v := default (mkSearchResult None None) o in
                   mkSearchResult (result_description v)
                     (Some (match result_aliases v with
                            | Some aliases => aliases ++ [name]
                            | None => [name]
                            end)))
                results)
  | None =>
      match data_description data with
      | None => Raise KeyError
      | Some description =>
          Return (dict_set name
                    (fun o =>
                       match o with
                       | Some v => mkSearchResult (Some description) (result_aliases v)
                       | None => mkSearchResult (Some description) (Some [])
                       end)
                    results)
      end
  end.

Fixpoint gather (index : list (string * IndexData))
    (results : list (string * SearchResult))
    : Outcome (list (string * SearchResult)) :=
  match index with
  | [] => Return results
  | (name, data) :: r =>
      match gather_one results name data with
      | Return results' => gather r results'
      | Raise e => Raise e
      end
  end.

(** The condition of the generator that filters [results]: [any] over a
    generator of strings is true when it yields a string that is not
    empty, and [data["aliases"]] is only read when the first [any] is
    false and there is a term. *)
Definition search_matches (terms : list string) (name : string)
    (data : SearchResult) : Outcome bool :=
  if existsb truthy_str (List.filter (fun t => str_contains name t) terms)
  then Return true
  else match terms with
       | [] => Return false
       | _ :: _ =>
           match result_aliases data with
           | None => Raise KeyError
           | Some aliases =>
               Return (existsb truthy_str
                         (List.filter
                            (fun t => existsb truthy_str
                                        (List.filter (fun s => str_contains s t) aliases))
                            terms))
           end
       end.

Fixpoint search_filter (terms : list string) (results filtered : list (string * SearchResult))
    : Outcome (list (string * SearchResult)) :=
  match results with
  | [] => Return filtered
  | (name, data) :: r =>
      match search_matches terms name data with
      | Return true => search_filter terms r (dict_set name (fun _ => data) filtered)
      | Return false => search_filter terms r filtered
      | Raise e => Raise e
      end
  end.

(** The line of one result, up to the description. *)
Definition result_heading (k : string) (aliases : list string) : string :=
  if existsb truthy_str aliases
  then k +:+ " (" +:+ PyStr.join ", " aliases +:+ ")" else k.

(** The loop that prints the results, on the text written to the
    standard output so far: the name and the aliases are written before
    the description is read. *)
Fixpoint print_results (results : list (string * SearchResult)) (text : string)
    : Outcome unit * string :=
  match results with
  | [] => (Return tt, text)
  | (k, v) :: r =>
      match result_aliases v with
      | None => (Raise KeyError, text +:+ k)
      | Some aliases =>
          match result_description v with
          | None => (Raise KeyError, text +:+ result_heading k aliases)
          | Some description =>
              print_results r (text +:+ result_heading k aliases +:+ " - "
                                 +:+ description +:+ newline)
          end
      end
  end.

(** [search_command(terms)] on the items of the index: the exit code or
    the exception, and the text written to the standard output. *)
Definition search_command (index : list (string * IndexData)) (terms : list string)
    : Outcome Z * string :=
  match gather index [] with
  | Raise e => (Raise e, "")
  | Return results =>
      match (match terms with
             | [] => Return results
             | _ :: _ => search_filter terms results []
             end) with
      | Raise e => (Raise e, "")
      | Return results =>
          match print_results results "" with
          | (Raise e, text) => (Raise e, text)
          | (Return _, text) =>
              (Return (if existsb truthy_str (map fst results) then 0 else 1), text)
          end
      end
  end.

(** What the results are made of.  The name an entry goes under: its
    own, or the one it is an alias of. *)
Definition search_target (entry : string * IndexData) : string :=
  default (fst entry) (data_alias (snd entry)).

(** The names of a list without repetition, in the order of their first
    mention. *)
Definition first_mentions (names : list string) : list string :=
  fold_left (fun seen k => if bool_decide (k ∈ seen) then seen else seen ++ [k])
    names [].

(** The description of the entry of the index called [k] that is not an
    alias. *)
Definition described (index : list (string * IndexData)) (k : string)
    : option string :=
  match List.find (fun entry => bool_decide (fst entry = k)
                                && bool_decide (data_alias (snd entry) = None))
          index with
  | Some entry => data_description (snd entry)
  | None => None
  end.

(** The aliases of [k], in the order of the index. *)
Definition aliases_of (index : list (string * IndexData)) (k : string)
    : list string :=
  map fst (List.filter (fun entry => bool_decide (data_alias (snd entry) = Some k))
             index).

(** The results expected from the index. *)
Definition gathered (index : list (string * IndexData))
    : list (string * SearchResult) :=
  map (fun k => (k, mkSearchResult (described index k) (Some (aliases_of index k))))
    (first_mentions (map search_target index)).

(** Whether a non-empty term occurs in the name or in an alias. *)
Definition term_occurs (terms : list string) (k : string) (aliases : list string)
    : bool :=
  existsb (fun t => truthy_str t
                    && (str_contains k t
                        || existsb (fun s => str_contains s t) aliases))
    terms.

(** The line printed for a result. *)
Definition result_line (index : list (string * IndexData)) (k : string) : string :=
  result_heading k (aliases_of index k) +:+ " - "
  +:+ default "" (described index k) +:+ newline.

(** ** The scripted world, continued *)

Module ScriptedTools.

(** The project validates, the build succeeds and leaves
    [out/masterfiles]; the user is not root. *)
Global Instance builder : Builder Scripted.World := {|
  validate_config := ret 0;
  init_out_folder := fun w => (Return tt, w);
  perform_build := fun st =>
    (Return 0, in_world st (Scripted.create "out/masterfiles" (world st)));
  os_getuid := fun _ => 1000%nat;
  os_environ_HOME := fun _ => Some "/home/user"
|}.

(** A file is there when its path exists, and is formatted unless its
    name starts with "ugly". *)
Global Instance prettifier : Prettifier Scripted.World unit := {|
  CFBS_DEFAULT_SORTING_RULES := tt;
  pretty_check_file := fun f _ w =>
    if Scripted.exists_ f w then FileOk (negb (PyStr.startswith f "ugly"))
    else FileNotFoundError;
  pretty_file := fun f _ w =>
    if Scripted.exists_ f w then (FileOk tt, w) else (FileNotFoundError, w)
|}.

(** The same with a build that fails with code 3 and leaves nothing. *)
Definition failing_builder : Builder Scripted.World := {|
  validate_config := ret 0;
  init_out_folder := fun w => (Return tt, w);
  perform_build := ret 3;
  os_getuid := fun _ => 1000%nat;
  os_environ_HOME := fun _ => Some "/home/user"
|}.

(** The initializer of the scripted world when [--git] is given, on a
    machine where [git] is installed or not. *)
Definition initializer_with_git (git : string) (installed : bool)
    : Initializer Scripted.World := {|
  is_cfbs_repo := Scripted.exists_ "cfbs.json";
  args_git := Some git;
  args_git_user_name := None;
  args_git_user_email := None;
  is_git_repo := Scripted.exists_ ".git";
  git_exists := fun _ => installed;
  git_get_config := fun _ _ => None;
  git_set_config := fun _ _ w => (true, w);
  git_init := fun _ _ _ w => (Return tt, Scripted.create ".git" w);
  nodename := "host";
  pretty := manifest_name;
  write_file := fun p _ w => Scripted.create p w;
  os_unlink := Scripted.delete;
  reload := ret tt;
  ls_remote := fun _ _ w => (None, w);
  add_command := fun _ _ => ret 0
|}.

(** A project is invalid, with code 2, when its path starts with "bad". *)
Global Instance validator : Validator Scripted.World := {|
  os_path_isdir := Scripted.exists_;
  validate_project := fun path _ =>
    ret (if PyStr.startswith path "bad" then 2 else 0)
|}.

End ScriptedTools.

(** * Properties *)

(** ** Running the monad *)

Lemma bind_return {S A B} (c : M S A) (k : A -> M S B) s a s' :
  c s = (Return a, s') -> bind c k s = k a s'.
Proof. intros E. unfold bind. now rewrite E. Qed.

Lemma bind_raise {S A B} (c : M S A) (k : A -> M S B) s e s' :
  c s = (Raise e, s') -> bind c k s = (Raise e, s').
Proof. intros E. unfold bind. now rewrite E. Qed.

Lemma bind_inv {S A B} (c : M S A) (k : A -> M S B) s b s' :
  bind c k s = (Return b, s') ->
  exists a s1, c s = (Return a, s1) /\ k a s1 = (Return b, s').
Proof.
  unfold bind. destruct (c s) as [[a | e] s1]; [| discriminate].
  intros Hk. now exists a, s1.
Qed.


(** ** Version comparison *)

Lemma lex_lt_list_gt a b :
  lex_lt a b -> list_gt a b = false /\ list_gt b a = true /\ a <> b.
Proof.
  induction 1 as [y b | x y a b Hxy | x a b _ (IH1 & IH2 & IH3)].
  - repeat split; congruence.
  - simpl. rewrite (proj2 (Z.eqb_neq x y)) by lia.
    rewrite (proj2 (Z.eqb_neq y x)) by lia.
    repeat split; try lia. intros [= -> _]. lia.
  - simpl. rewrite Z.eqb_refl. repeat split; try assumption. congruence.
Qed.

Lemma lex_trichotomy a b : a = b \/ lex_lt b a \/ lex_lt a b.
Proof.
  revert b. induction a as [| x a IH]; intros [| y b].
  - now left.
  - right; right. constructor.
  - right; left. constructor.
  - destruct (Z.lt_total x y) as [Hlt | [-> | Hgt]].
    + right; right. now constructor.
    + destruct (IH b) as [-> | [Hl | Hl]].
      * now left.
      * right; left. now constructor.
      * right; right. now constructor.
    + right; left. now constructor.
Qed.

Lemma list_gt_lex a b : list_gt a b = true <-> lex_lt b a.
Proof.
  split.
  - intros Hgt. destruct (lex_trichotomy a b) as [-> | [Hl | Hl]].
    + exfalso. clear -Hgt. induction b as [| y b IH]; simpl in Hgt.
      * discriminate.
      * rewrite Z.eqb_refl in Hgt. auto.
    + assumption.
    + apply lex_lt_list_gt in Hl. destruct Hl as (Hf & _). congruence.
  - intros Hl. now apply lex_lt_list_gt in Hl.
Qed.

(** ** Integer parsing *)






Lemma mapM_int_None (l : list string) :
  mapM PyStr.int l = None <-> exists c, c ∈ l /\ PyStr.int c = None.
Proof.
  induction l as [| x r IH]; simpl.
  - split; [discriminate | intros (c & Hc & _); inversion Hc].
  - unfold mbind, option_bind, mret, option_ret in *.
    destruct (PyStr.int x) as [z |] eqn:Ex.
    + destruct (mapM PyStr.int r) as [zs |] eqn:Er.
      * split; [discriminate |]. intros (c & Hc & Hn).
        apply elem_of_cons in Hc. destruct Hc as [-> | Hc]; [congruence |].
        assert (Some zs = None) by (apply IH; eauto). discriminate.
      * split; [| reflexivity]. intros _.
        destruct (proj1 IH eq_refl) as (c & Hc & Hn).
        exists c. split; [now apply list_elem_of_further | assumption].
    + split; [| reflexivity]. intros _. exists x.
      split; [apply list_elem_of_here | assumption].
Qed.

(** ** What [strip] and [splitlines] keep *)

Lemma chars_app (a b : string) :
  list_ascii_of_string (a +:+ b)
  = list_ascii_of_string a ++ list_ascii_of_string b.
Proof. induction a as [| c a IH]; simpl; [reflexivity | now rewrite IH]. Qed.

Lemma has_visible_app a b : has_visible (a +:+ b) = has_visible a || has_visible b.
Proof. unfold has_visible. now rewrite chars_app, existsb_app. Qed.

Lemma existsb_reverse {A} (f : A -> bool) l : existsb f (rev l) = existsb f l.
Proof.
  induction l as [| x l IH]; [reflexivity |].
  simpl. rewrite existsb_app, IH. simpl. rewrite orb_false_r. apply orb_comm.
Qed.

Lemma lstrip_keeps_visible l :
  existsb (fun c => negb (PyStr.is_space c)) l = true ->
  existsb (fun c => negb (PyStr.is_space c)) (PyStr.lstrip_chars l) = true.
Proof.
  induction l as [| c r IH]; [discriminate |].
  intros Hv. simpl. destruct (PyStr.is_space c) eqn:Hc.
  - simpl in Hv. rewrite Hc in Hv. now apply IH.
  - exact Hv.
Qed.

Lemma strip_keeps_visible s : has_visible s = true -> has_visible (PyStr.strip s) = true.
Proof.
  unfold has_visible, PyStr.strip, PyStr.strip_chars, PyStr.rstrip_chars.
  intros Hv. rewrite list_ascii_of_string_of_list_ascii, existsb_reverse.
  apply lstrip_keeps_visible. rewrite existsb_reverse.
  now apply lstrip_keeps_visible.
Qed.

Lemma splitlines_from_nonempty l :
  forall cur, l <> [] \/ cur <> [] -> PyStr.splitlines_from cur l <> [].
Proof.
  induction l as [| c r IH]; intros cur Hne.
  - destruct Hne as [Hne | Hne]; [congruence |].
    simpl. now destruct cur.
  - simpl. destruct (PyStr.is_linebreak c); [discriminate |].
    apply IH. right. discriminate.
Qed.

(** A message with a visible character has at least one line after
    [strip]. *)
Lemma visible_message_lines s :
  has_visible s = true ->
  (0 <? List.length (PyStr.splitlines (PyStr.strip s)))%nat = true.
Proof.
  intros Hv. apply strip_keeps_visible in Hv.
  unfold PyStr.splitlines.
  destruct (PyStr.splitlines_from [] (list_ascii_of_string (PyStr.strip s))) eqn:E.
  - exfalso. revert E. apply splitlines_from_nonempty. left.
    unfold has_visible in Hv.
    destruct (list_ascii_of_string (PyStr.strip s)); [discriminate | discriminate].
  - reflexivity.
Qed.

(** ** Components of the session a computation leaves alone *)

Section Kept.
Context {W X : Type} `{Collaborators W} (f : Session W -> X).

Lemma kept_ret {A} (a : A) : kept f (ret a).
Proof. intros st o st' [= _ <-]. reflexivity. Qed.

Lemma kept_raise {A} e : kept f (A := A) (raise e).
Proof. intros st o st' [= _ <-]. reflexivity. Qed.

Lemma kept_get : kept f get.
Proof. intros st o st' [= _ <-]. reflexivity. Qed.

Lemma kept_bind {A B} (c : M (Session W) A) (k : A -> M (Session W) B) :
  kept f c -> (forall a, kept f (k a)) -> kept f (bind c k).
Proof.
  intros Hc Hk st o st'. unfold bind.
  destruct (c st) as [[a | e] s1] eqn:E.
  - intros Hrun. rewrite (Hk a _ _ _ Hrun). eapply Hc, E.
  - intros [= _ <-]. eapply Hc, E.
Qed.

Lemma kept_absorb {A} (c : M (Session W) A) :
  kept f c -> kept f (absorb_return_without_commit c).
Proof.
  intros Hc st o st'. unfold absorb_return_without_commit.
  destruct (c st) as [[a | e] s1] eqn:E.
  - intros [= _ <-]. eapply Hc, E.
  - destruct e; intros [= _ <-]; eapply Hc, E.
Qed.

End Kept.

Create HintDb kept.

#[global] Hint Resolve kept_ret kept_raise kept_get : kept.

(** The primitive operations change one component each; which ones a
    given [f] survives is settled by running them. *)
Ltac kept_primitive :=
  let st := fresh "st" in
  intros st ? ?;
  first
    [ unfold ask, bind, get, set_world, modify, ret;
      match goal with
      | |- context [let (_, _) := ?g (world st) in _] => destruct (g (world st))
      end
    | unfold call;
      match goal with
      | |- context [let (_, _) := ?g (world st) in _] => destruct (g (world st))
      end
    | idtac ];
  intros [= _ <-]; reflexivity.

#[global] Hint Extern 1 (kept _ (emit _)) => kept_primitive : kept.
#[global] Hint Extern 1 (kept _ (emit_all _)) => kept_primitive : kept.
#[global] Hint Extern 1 (kept _ (set_build _)) => kept_primitive : kept.
#[global] Hint Extern 1 (kept _ (set_world _)) => kept_primitive : kept.
#[global] Hint Extern 1 (kept _ (log_staging _)) => kept_primitive : kept.
#[global] Hint Extern 1 (kept _ (effect _)) => kept_primitive : kept.
#[global] Hint Extern 1 (kept _ warn_about_unknown_keys) => kept_primitive : kept.
#[global] Hint Extern 1 (kept _ save) => kept_primitive : kept.
#[global] Hint Extern 1 (kept _ (ask _)) => kept_primitive : kept.
#[global] Hint Extern 1 (kept _ (call _)) => kept_primitive : kept.

(** Goes through a computation built from the operations above. *)
Ltac kept :=
  repeat first
    [ progress (eauto with kept)
    | apply kept_bind; [| intros ?]
    | apply kept_absorb
    | match goal with
      | |- kept _ (if ?b then _ else _) => destruct b
      | |- kept _ (match ?x with _ => _ end) => destruct x
      end ].

(** ** The update resolver *)

Section UpdateFacts.
Context {Index W : Type} `{Collaborators W} `{Updater Index W}.

(** One iteration on an index-sourced module, up to the comparison. *)
Lemma update_one_index_sourced (st : UpdateState Index W) update modules
    old_module :
  build (session st) = Some modules ->
  get_module_from_build modules (Module_name update) = Some old_module ->
  url old_module = None ->
  update_one update st
  = update_from_index (index_for old_module) old_module update
      (consulted st (index_for old_module) []).
Proof.
  intros Hb Hold Hurl. unfold update_one, bind, get, set_index, modify.
  rewrite Hb, Hold, Hurl. unfold consulted, index_for.
  rewrite app_nil_r. destruct st as [[] ? ? ?]; reflexivity.
Qed.

(** C1: for an index-sourced target whose installed and catalog
    versions both parse, the two integer tuples are compared
    lexicographically and exactly one of three things happens.  Equal
    tuples: the module is reported as already up to date and nothing
    else changes.  Installed tuple greater: a warning is logged and
    nothing else changes, so the module is never downgraded.  Installed
    tuple smaller: the update is applied.  Under this order
    "1.2.3" < "1.2.4", "1.2.3-1" < "1.2.3-2" and "1.9.0" < "2.0.0". *)
Theorem C1_update_version_decision (st : UpdateState Index W)
    (update : string) (modules : list BuildModule)
    (old_module index_info : BuildModule) (old_version new_version : string)
    (local_ver index_ver : list Z) :
  build (session st) = Some modules ->
  get_module_from_build modules (Module_name update) = Some old_module ->
  url old_module = None ->
  version old_module = Some old_version ->
  get_module_object (index_for old_module) (Module_name update)
    = Some index_info ->
  version index_info = Some new_version ->
  version_tuple old_version = Some local_ver ->
  version_tuple new_version = Some index_ver ->
  let idx := index_for old_module in
  (local_ver = index_ver \/ lex_lt index_ver local_ver
   \/ lex_lt local_ver index_ver)
  /\ (local_ver = index_ver ->
      update_one update st
      = (Return tt,
         consulted st idx
           [Stdout ("Module '" +:+ name old_module +:+ "' already up to date")]))
  /\ (lex_lt index_ver local_ver ->
      update_one update st
      = (Return tt,
         consulted st idx
           [LogWarning ("The requested version of module '" +:+ name old_module
                       +:+ "' is older than current version ("
                       +:+ new_version +:+ " < " +:+ old_version +:+ ")."
                       +:+ " Skipping its update.")]))
  /\ (lex_lt local_ver index_ver ->
      update_one update st
      = apply_update old_module index_info update (consulted st idx []))
  /\ (version_tuple "1.2.3" = Some [1; 2; 3]
      /\ version_tuple "1.2.4" = Some [1; 2; 4]
      /\ lex_lt [1; 2; 3] [1; 2; 4])
  /\ (version_tuple "1.2.3-1" = Some [1; 2; 3; 1]
      /\ version_tuple "1.2.3-2" = Some [1; 2; 3; 2]
      /\ lex_lt [1; 2; 3; 1] [1; 2; 3; 2])
  /\ (version_tuple "2.0.0" = Some [2; 0; 0]
      /\ version_tuple "1.9.0" = Some [1; 9; 0]
      /\ lex_lt [1; 9; 0] [2; 0; 0]).
Proof.
  intros Hb Hold Hurl Hv Hobj Hnv Hlocal Hindex idx.
  assert (Hstep : update_one update st
                  = update_from_index idx old_module update (consulted st idx []))
    by (now apply update_one_index_sourced with modules).
  assert (Hcmp : update_from_index idx old_module update (consulted st idx [])
                 = (if bool_decide (local_ver = index_ver) then
                      in_session (emit (Stdout ("Module '" +:+ name old_module
                                     +:+ "' already up to date")))
                    else if list_gt local_ver index_ver then
                      in_session (emit (LogWarning
                        ("The requested version of module '" +:+ name old_module
                           +:+ "' is older than current version ("
                           +:+ new_version +:+ " < " +:+ old_version +:+ ")."
                           +:+ " Skipping its update.")))
                    else apply_update old_module index_info update)
                     (consulted st idx [])).
  { unfold update_from_index. fold idx in Hobj.
    now rewrite Hv, Hobj, Hlocal, Hnv, Hindex. }
  split; [apply lex_trichotomy |].
  split; [| split; [| split]].
  - intros Heq. rewrite Hstep, Hcmp, bool_decide_eq_true_2 by assumption.
    unfold in_session, emit, modify, consulted. simpl.
    now rewrite app_nil_r.
  - intros Hlt. apply lex_lt_list_gt in Hlt. destruct Hlt as (_ & Hgt & Hne).
    rewrite Hstep, Hcmp, bool_decide_eq_false_2 by congruence.
    rewrite Hgt. unfold in_session, emit, modify, consulted. simpl.
    now rewrite app_nil_r.
  - intros Hlt. apply lex_lt_list_gt in Hlt. destruct Hlt as (Hgt & _ & Hne).
    rewrite Hstep, Hcmp, bool_decide_eq_false_2 by assumption.
    now rewrite Hgt.
  - repeat split; try reflexivity.
    + apply lex_lt_tail, lex_lt_tail, lex_lt_head. lia.
    + apply lex_lt_tail, lex_lt_tail, lex_lt_tail, lex_lt_head. lia.
    + apply lex_lt_head. lia.
Qed.


End UpdateFacts.

Lemma C1_update_version_decision_witness :
  let installed :=
    mkModule "m1" None (Some "1.2.3") None None None None None None None None None [] in
  let st := mkUpdateState (Scripted.session_of [installed] Scripted.quiet)
              (mkModuleUpdates [] [] false "" []) [] None in
  build (session (snd (update_one "m1" st))) = Some Scripted.catalog_1_2_4
  /\ updated (snd (update_one "m1" st)) = ["m1"].
Proof.
  intros installed st.
  destruct (C1_update_version_decision st "m1" [installed] installed
              (mkModule "m1" None (Some "1.2.4") None None None None None None
                 None None None [])
              "1.2.3" "1.2.4" [1; 2; 3] [1; 2; 4])
    as (_ & _ & _ & Hless & _); [reflexivity .. |].
  rewrite Hless.
  - split; reflexivity.
  - apply lex_lt_tail, lex_lt_tail, lex_lt_head. lia.
Defined.



(** ** Prune *)

Section PruneFacts.
Context {W : Type} `{Collaborators W}.

(** The recursion of [_someone_needs_me], one frame at a time. *)
Lemma someone_needs_me_step depth modules this :
  _someone_needs_me (S depth) modules this
  = if is_root this then Some true
    else match first_dependent modules (name this) with
         | Some other => _someone_needs_me depth modules other
         | None => Some false
         end.
Proof.
  simpl. unfold is_root.
  destruct (match added_by this with
            | Some a => is_module_added_manually a
            | None => true
            end); [reflexivity |].
  unfold first_dependent.
  match goal with |- ?f modules = _ => set (scan := f) end.
  assert (Hscan : forall others,
             scan others
             = match List.find (lists_dependency (name this)) others with
               | Some other => _someone_needs_me depth modules other
               | None => Some false
               end).
  { induction others as [| other rest IH]; [reflexivity |].
    simpl. unfold lists_dependency at 1.
    destruct (dependencies other) as [deps |]; [| exact IH].
    destruct (bool_decide (name this ∈ deps)); [reflexivity | exact IH]. }
  apply Hscan.
Qed.

(** An answer, once given, is the same at every greater depth. *)
Lemma someone_needs_me_stable depth modules this b :
  _someone_needs_me depth modules this = Some b ->
  forall depth', (depth <= depth')%nat ->
                 _someone_needs_me depth' modules this = Some b.
Proof.
  revert this. induction depth as [| d IH]; intros this Hb depth' Hle.
  - discriminate.
  - destruct depth' as [| d']; [lia |].
    rewrite someone_needs_me_step in *.
    destruct (is_root this); [assumption |].
    destruct (first_dependent modules (name this)); [| assumption].
    apply IH; [assumption | lia].
Qed.

Lemma first_dependent_listed modules nm other :
  first_dependent modules nm = Some other ->
  other ∈ modules
  /\ exists deps, dependencies other = Some deps /\ nm ∈ deps.
Proof.
  unfold first_dependent. intros Hf. apply find_some in Hf.
  destruct Hf as [Hin Hl]. split; [now apply list_elem_of_In |].
  unfold lists_dependency in Hl.
  destruct (dependencies other) as [deps |]; [| discriminate].
  exists deps. split; [reflexivity |]. now apply bool_decide_eq_true in Hl.
Qed.

(** What the check keeps is reachable in the specification's sense. *)
Lemma needed_is_reachable depth modules this :
  _someone_needs_me depth modules this = Some true -> reachable modules this.
Proof.
  revert this. induction depth as [| d IH]; intros this Hn; [discriminate |].
  rewrite someone_needs_me_step in Hn.
  destruct (is_root this) eqn:Hroot; [now apply reachable_root |].
  destruct (first_dependent modules (name this)) as [other |] eqn:Hf;
    [| discriminate].
  apply first_dependent_listed in Hf. destruct Hf as (Hin & deps & Hd & Hm).
  eapply reachable_dependency; eauto.
Qed.

Lemma unused_among_stuck depth modules l this :
  this ∈ l ->
  _someone_needs_me depth modules this = None ->
  unused_among depth modules l = None.
Proof.
  induction l as [| m r IH]; intros Hin Hnone; [inversion Hin |].
  simpl. apply elem_of_cons in Hin. destruct Hin as [<- | Hin].
  - now rewrite Hnone.
  - destruct (_someone_needs_me depth modules m); [| reflexivity].
    now rewrite IH.
Qed.

(** C3 (the code does not do this): when two modules that are not
    roots are each the first module of the build list to list the
    other, the reachability check of either never returns, whatever
    depth the recursion is allowed, and prune ends in a
    [RecursionError] for every recursion limit. *)
Theorem C3_reachability_check_never_returns_on_cycle
    (modules : list BuildModule) (x y : BuildModule) :
  is_root x = false ->
  is_root y = false ->
  first_dependent modules (name x) = Some y ->
  first_dependent modules (name y) = Some x ->
  (forall depth, _someone_needs_me depth modules x = None)
  /\ (forall limit (st : Session W),
        build st = Some modules ->
        x ∈ modules ->
        fst (_clean_unused_modules limit st) = Raise RecursionError).
Proof.
  intros Hx Hy Hxy Hyx.
  assert (Hloop : forall depth,
             _someone_needs_me depth modules x = None
             /\ _someone_needs_me depth modules y = None).
  { induction depth as [| d [IHx IHy]]; [split; reflexivity |].
    rewrite !someone_needs_me_step, Hx, Hy, Hxy, Hyx. now split. }
  split; [intros depth; apply Hloop |].
  intros limit st Hb Hin.
  unfold _clean_unused_modules, bind, warn_about_unknown_keys, get, emit_all, modify.
  simpl. rewrite Hb.
  destruct modules as [| m ms]; [inversion Hin |].
  rewrite (unused_among_stuck limit (m :: ms) (m :: ms) x Hin (proj1 (Hloop limit))).
  reflexivity.
Qed.

End PruneFacts.

Lemma C3_reachability_check_never_returns_on_cycle_witness :
  let x := mkModule "x" None None None None None None (Some ["y"]) (Some "y")
             None None None [] in
  let y := mkModule "y" None None None None None None (Some ["x"]) (Some "x")
             None None None [] in
  fst (_clean_unused_modules 1000 (Scripted.session_of [x; y] Scripted.quiet))
  = Raise RecursionError.
Proof.
  intros x y.
  apply (C3_reachability_check_never_returns_on_cycle (W := Scripted.World)
           [x; y] x y); [reflexivity .. |].
  apply list_elem_of_here.
Defined.

(** The scenario of the specification: [a] is a root with dependency
    [b]; [c], whose root status was cleared, has dependency [d].  Prune
    removes [c] and [d] and keeps [a] and [b]. *)
Example prune_scenario :
  let a := mkModule "a" None None None None None None (Some ["b"]) (Some "cfbs add")
             None None None [] in
  let b := mkModule "b" None None None None None None None (Some "a")
             None None None [] in
  let c := mkModule "c" None None None None None None (Some ["d"]) (Some "gone")
             None None None [] in
  let d := mkModule "d" None None None None None None None (Some "c")
             None None None [] in
  _clean_unused_modules 1000 (Scripted.session_of [a; b; c; d] Scripted.quiet)
  = (Return 0,
     mkSession (Some [a; b]) false
       [Stdout "The following modules were added as dependencies but are no longer needed:";
        Stdout "c -  - added by: gone"; Stdout "d -  - added by: c"]
       [] [] Scripted.quiet).
Proof. reflexivity. Qed.

(** C2 (the code does not do this): [a] is a root that depends on [d];
    [x], left behind by a removed module, depends on [d] too and comes
    first in the build list.  [d] is reachable, through [a], yet the
    check follows only [x], finds it unneeded, and prune removes [d]
    along with [x], leaving [a] without its dependency. *)
Theorem C2_prune_removes_a_reachable_module :
  let x := mkModule "x" None None None None None None (Some ["d"]) (Some "q")
             None None None [] in
  let d := mkModule "d" None None None None None None None (Some "x")
             None None None [] in
  let a := mkModule "a" None None None None None None (Some ["d"]) (Some "cfbs add")
             None None None [] in
  let st := Scripted.session_of [x; d; a] Scripted.quiet in
  reachable (W := Scripted.World) [x; d; a] d
  /\ (forall depth, (2 <= depth)%nat ->
        _someone_needs_me (W := Scripted.World) depth [x; d; a] d = Some false)
  /\ fst (_clean_unused_modules 1000 st) = Return 0
  /\ build (snd (_clean_unused_modules 1000 st)) = Some [a].
Proof.
  intros x d a st. split; [| split; [| split]].
  - apply reachable_dependency with (other := a) (deps := ["d"]).
    + apply list_elem_of_further, list_elem_of_further, list_elem_of_here.
    + reflexivity.
    + apply list_elem_of_here.
    + now apply reachable_root.
  - intros depth Hd.
    apply (someone_needs_me_stable 2); [reflexivity | assumption].
  - reflexivity.
  - reflexivity.
Qed.

(** ** Remove *)

Section RemoveFacts.
Context {W : Type} `{Collaborators W}.

(** The session after [ls] was written. *)
Lemma emit_run (l : Line) (st : Session W) :
  emit l st
  = (Return tt, mkSession (build st) (non_interactive st) (out st ++ [l])
                  (commits st) (staged st) (world st)).
Proof. reflexivity. Qed.

Lemma warn_run (st : Session W) :
  warn_about_unknown_keys st = (Return tt, warned st).
Proof. reflexivity. Qed.

Lemma save_run (st : Session W) : save st = (Return tt, saved st).
Proof. reflexivity. Qed.

Lemma remove_command_run limit to_remove (st : Session W) :
  is_Some (build st) ->
  remove_command limit to_remove st
  = (acc <- remove_loop to_remove (mkRemoval 0 "" []) ;; remove_finish limit acc)
      (warned st).
Proof.
  intros [modules Hb]. unfold remove_command.
  unfold bind at 1. rewrite warn_run.
  unfold bind at 1. unfold get. unfold warned at 1. simpl build.
  now rewrite Hb.
Qed.

Lemma remove_finish_rc limit acc (st st' : Session W) r :
  remove_finish limit acc st = (Return r, st') -> rc r = 0.
Proof.
  unfold remove_finish, bind. rewrite save_run.
  destruct (0 <? num_removed acc)%nat.
  - unfold absorb_return_without_commit.
    destruct (_clean_unused_modules limit _) as [[z | []] st2];
      simpl; intros [= <- _]; reflexivity || discriminate.
  - simpl. intros [= <- _]. reflexivity.
Qed.

Lemma remove_command_rc limit to_remove (st st' : Session W) r :
  remove_command limit to_remove st = (Return r, st') -> rc r = 0.
Proof.
  destruct (build st) as [modules |] eqn:Hb.
  - rewrite remove_command_run by (now exists modules). unfold bind.
    destruct (remove_loop to_remove _ _) as [[acc |] st1]; [| discriminate].
    apply remove_finish_rc.
  - unfold remove_command. unfold bind at 1. rewrite warn_run.
    unfold bind at 1. unfold get. unfold warned at 1. simpl build.
    rewrite Hb. discriminate.
Qed.

(** C9: an identifier that matches nothing.  With a supported URI
    scheme and no module of that [url], the iteration raises
    [CFBSExitError] with "Could not find module with URL ...", the
    remaining identifiers are not looked at, and the whole command
    raises.  A plain name that matches no module only prints
    "Module ... not found"; the loop goes on with the remaining
    identifiers, and whenever the command returns its exit code is 0. *)
Theorem C9_remove_unmatched_identifier (limit : nat) (nm : string)
    (rest : list string) (acc : Removal) (st : Session W) :
  (PyStr.startswith_any nm SUPPORTED_URI_SCHEMES = true ->
   _get_modules_by_url (modules_of st) nm = [] ->
   remove_loop (nm :: rest) acc st
   = (Raise (CFBSExitError ("Could not find module with URL '" +:+ nm +:+ "'")), st)
   /\ (is_Some (build st) ->
       remove_command limit (nm :: rest) st
       = (Raise (CFBSExitError ("Could not find module with URL '" +:+ nm +:+ "'")),
          warned st)))
  /\ (PyStr.startswith_any nm SUPPORTED_URI_SCHEMES = false ->
      _get_module_by_name (modules_of st) (world st) nm = None ->
      remove_loop (nm :: rest) acc st
      = (acc' <- remove_input_data nm acc ;; remove_loop rest acc')
          (mkSession (build st) (non_interactive st)
             (out st ++ [Stdout ("Module '" +:+ nm +:+ "' not found")])
             (commits st) (staged st) (world st)))
  /\ (forall to_remove r st',
        remove_command limit to_remove st = (Return r, st') -> rc r = 0).
Proof.
  split; [| split].
  - intros Hscheme Hnone.
    assert (Hloop : forall (a : Removal) (s : Session W),
               _get_modules_by_url (modules_of s) nm = [] ->
               remove_loop (nm :: rest) a s
               = (Raise (CFBSExitError
                           ("Could not find module with URL '" +:+ nm +:+ "'")), s)).
    { intros a s Hs. simpl. unfold remove_one, bind, get. rewrite Hscheme.
      simpl. now rewrite Hs. }
    split; [now apply Hloop |].
    intros Hb. rewrite remove_command_run by assumption.
    unfold bind. now rewrite Hloop.
  - intros Hscheme Hnone. simpl. unfold remove_one, bind, get.
    rewrite Hscheme. simpl. rewrite Hnone. reflexivity.
  - intros to_remove r st'. apply remove_command_rc.
Qed.

Lemma ask_run {A} (f : W -> A * W) (st : Session W) :
  ask f st = (Return (fst (f (world st))), in_world st (snd (f (world st)))).
Proof.
  unfold ask, bind, get, set_world, modify, ret, in_world.
  now destruct (f (world st)).
Qed.

Lemma remove_prompt_run module (st : Session W) :
  _remove_module_user_prompt module st
  = (let p := prompt_user (non_interactive st)
                (remove_question (modules_of st) module) YES_NO_CHOICES "yes"
                (world st) in
     (Return (fst p), in_world st (snd p))).
Proof.
  unfold _remove_module_user_prompt. unfold bind at 1. unfold get.
  now rewrite ask_run.
Qed.

(** A declined module leaves the accumulators and the build list alone. *)
Lemma remove_matches_declined module r acc (st : Session W) :
  is_yes (fst (prompt_user (non_interactive st)
                 (remove_question (modules_of st) module) YES_NO_CHOICES "yes"
                 (world st))) = false ->
  remove_matches (module :: r) acc st
  = remove_matches r acc
      (in_world st (snd (prompt_user (non_interactive st)
                           (remove_question (modules_of st) module)
                           YES_NO_CHOICES "yes" (world st)))).
Proof.
  intros Hno. simpl. unfold bind at 1. rewrite remove_prompt_run.
  cbv beta iota zeta. rewrite Hno. reflexivity.
Qed.

Lemma remove_input_data_kept nm acc (st : Session W) :
  let input_path := os_path_join (os_path_join "." nm) "input.json" in
  let p := prompt_user (non_interactive st)
             ("Module '" +:+ nm +:+ "' has input data '" +:+ input_path
                +:+ "'. Do you want to remove it?")
             YES_NO_CHOICES "no" (world st) in
  (os_path_isfile input_path (world st) = true -> is_yes (fst p) = false) ->
  remove_input_data nm acc st
  = (Return acc,
     in_world st (if os_path_isfile input_path (world st) then snd p
                  else world st)).
Proof.
  intros input_path p Hkeep. unfold remove_input_data.
  unfold bind at 1. unfold get. fold input_path.
  destruct (os_path_isfile input_path (world st)) eqn:Hfile.
  - unfold bind at 1. rewrite ask_run. fold p. rewrite (Hkeep eq_refl).
    reflexivity.
  - unfold ret, in_world. now destruct st.
Qed.

(** C8 (amended): removing by a source URL that matches two modules,
    when the user answers no to both per-module prompts and no input
    data is removed for the identifier (there is no file
    [./<identifier>/input.json], or the user declines its removal):
    the build list is unchanged, the outcome is [Result(0, False, "",
    [])], and the transaction wrapper makes no commit. *)
Theorem C8_remove_by_url_all_declined (limit : nat) (u commit_msg : string)
    (st : Session W) (modules : list BuildModule) (m1 m2 : BuildModule) :
  build st = Some modules ->
  PyStr.startswith_any u SUPPORTED_URI_SCHEMES = true ->
  _get_modules_by_url modules u = [m1; m2] ->
  let ni := non_interactive st in
  let p1 := prompt_user ni (remove_question modules m1) YES_NO_CHOICES "yes"
              (world st) in
  let p2 := prompt_user ni (remove_question modules m2) YES_NO_CHOICES "yes"
              (snd p1) in
  let input_path := os_path_join (os_path_join "." u) "input.json" in
  let p3 := prompt_user ni
              ("Module '" +:+ u +:+ "' has input data '" +:+ input_path
                 +:+ "'. Do you want to remove it?")
              YES_NO_CHOICES "no" (snd p2) in
  let w3 := if os_path_isfile input_path (snd p2) then snd p3 else snd p2 in
  is_yes (fst p1) = false ->
  is_yes (fst p2) = false ->
  (os_path_isfile input_path (snd p2) = true -> is_yes (fst p3) = false) ->
  let st' := saved (in_world (warned st) w3) in
  remove_command limit [u] st = (Return (mkResult 0 false "" []), st')
  /\ commit_after_command commit_msg (remove_command limit [u]) st
     = (Return 0, st')
  /\ build st' = build st
  /\ commits st' = commits st.
Proof.
  intros Hb Hscheme Hmatch ni p1 p2 input_path p3 w3 Hno1 Hno2 Hkeep st'.
  assert (Hrun : remove_command limit [u] st
                 = (Return (mkResult 0 false "" []), st')).
  { rewrite remove_command_run by (now exists modules).
    unfold bind at 1. simpl remove_loop. unfold bind at 1.
    unfold remove_one. unfold bind at 1. rewrite Hscheme.
    unfold bind at 1. unfold get.
    replace (modules_of (warned st)) with modules
      by (unfold modules_of, warned; simpl; now rewrite Hb).
    rewrite Hmatch.
    assert (Hmods : forall w, modules_of (in_world (warned st) w) = modules)
      by (intros w; unfold modules_of, in_world, warned; simpl; now rewrite Hb).
    rewrite remove_matches_declined;
      replace (modules_of (warned st)) with modules
      by (unfold modules_of, warned; simpl; now rewrite Hb);
      [| exact Hno1].
    rewrite remove_matches_declined; rewrite ?Hmods; [| exact Hno2].
    simpl remove_matches. unfold ret at 1.
    rewrite remove_input_data_kept by exact Hkeep.
    unfold ret at 1. unfold remove_finish. simpl.
    unfold bind. rewrite save_run. reflexivity. }
  split; [exact Hrun |]. split; [| split; reflexivity].
  unfold commit_after_command. now rewrite Hrun.
Qed.

Lemma kept_clean limit : kept (W := W) commits (_clean_unused_modules limit).
Proof. unfold _clean_unused_modules. kept. Qed.

Lemma kept_remove_confirmed shown module acc :
  kept (W := W) commits (remove_confirmed shown module acc).
Proof. unfold remove_confirmed. kept. Qed.

Lemma kept_remove_matches matches :
  forall acc, kept (W := W) commits (remove_matches matches acc).
Proof.
  induction matches as [| module r IH]; intros acc; simpl; [kept |].
  unfold _remove_module_user_prompt. kept; try apply kept_remove_confirmed; apply IH.
Qed.

Lemma kept_remove_input_data nm acc :
  kept (W := W) commits (remove_input_data nm acc).
Proof. unfold remove_input_data. kept. Qed.

Lemma kept_remove_one nm acc : kept (W := W) commits (remove_one nm acc).
Proof.
  unfold remove_one, _remove_module_user_prompt.
  kept; try apply kept_remove_confirmed; try apply kept_remove_matches;
    apply kept_remove_input_data.
Qed.

Lemma kept_remove_loop to_remove :
  forall acc, kept (W := W) commits (remove_loop to_remove acc).
Proof.
  induction to_remove as [| nm r IH]; intros acc; simpl; [kept |].
  apply kept_bind; [apply kept_remove_one | apply IH].
Qed.

Lemma kept_remove_finish limit acc :
  kept (W := W) commits (remove_finish limit acc).
Proof. unfold remove_finish. kept; apply kept_clean. Qed.

Lemma kept_remove_command limit to_remove :
  kept (W := W) commits (remove_command limit to_remove).
Proof.
  unfold remove_command. kept;
    try apply kept_remove_loop; apply kept_remove_finish.
Qed.

Lemma tells_remove_confirmed shown module acc (st st' : Session W) acc' :
  remove_confirmed shown module acc st = (Return acc', st') ->
  (0 < num_removed acc')%nat /\ has_visible (removal_msg acc') = true.
Proof.
  unfold remove_confirmed, bind. rewrite emit_run. unfold get.
  destruct (list_remove module _); [| discriminate].
  simpl. intros [= <- _]. simpl. split; [lia |].
  rewrite !has_visible_app.
  replace (has_visible " - Removed module '") with true by reflexivity.
  now rewrite !orb_true_r.
Qed.

Lemma tells_remove_matches matches :
  forall acc (st st' : Session W) acc',
    message_tells acc ->
    remove_matches matches acc st = (Return acc', st') ->
    message_tells acc'.
Proof.
  induction matches as [| module r IH]; intros acc st st' acc' Hacc.
  - intros [= <- _]. exact Hacc.
  - simpl. unfold bind at 1. rewrite remove_prompt_run. cbv beta iota zeta.
    unfold bind at 1.
    destruct (is_yes _).
    + destruct (remove_confirmed _ _ _ _) as [[acc1 |] s1] eqn:E; [| discriminate].
      apply IH. intros _. now apply tells_remove_confirmed in E.
    + unfold ret at 1. now apply IH.
Qed.

Lemma tells_remove_input_data nm acc (st st' : Session W) acc' :
  message_tells acc ->
  remove_input_data nm acc st = (Return acc', st') ->
  message_tells acc'.
Proof.
  intros Hacc. unfold remove_input_data. unfold bind at 1. unfold get.
  destruct (os_path_isfile _ _).
  - unfold bind at 1. rewrite ask_run. destruct (is_yes _).
    + unfold bind, effect, get, set_world, modify. simpl.
      intros [= <- _]. intros _. simpl.
      rewrite !has_visible_app.
      replace (has_visible " - Removed input data for module '") with true
        by reflexivity.
      now rewrite !orb_true_r.
    + intros [= <- _]. exact Hacc.
  - intros [= <- _]. exact Hacc.
Qed.

Lemma tells_remove_one nm acc (st st' : Session W) acc' :
  message_tells acc ->
  remove_one nm acc st = (Return acc', st') ->
  message_tells acc'.
Proof.
  intros Hacc. unfold remove_one. unfold bind at 1.
  match goal with
  | |- context [(if ?b then ?c1 else ?c2) st] =>
      destruct ((if b then c1 else c2) st) as [[acc1 |] s1] eqn:E
  end; [| discriminate].
  apply tells_remove_input_data.
  destruct (PyStr.startswith_any nm SUPPORTED_URI_SCHEMES).
  - unfold bind, get in E.
    destruct (_get_modules_by_url (modules_of st) nm) eqn:Em; [discriminate |].
    eapply tells_remove_matches; eauto.
  - unfold bind at 1 in E. unfold get in E.
    destruct (_get_module_by_name _ _ _).
    + unfold bind at 1 in E. rewrite remove_prompt_run in E.
      cbv beta iota zeta in E. destruct (is_yes _).
      * intros _. now apply tells_remove_confirmed in E.
      * injection E as <- _. exact Hacc.
    + unfold bind in E. rewrite emit_run in E. injection E as <- _. exact Hacc.
Qed.

Lemma tells_remove_loop to_remove :
  forall acc (st st' : Session W) acc',
    message_tells acc ->
    remove_loop to_remove acc st = (Return acc', st') ->
    message_tells acc'.
Proof.
  induction to_remove as [| nm r IH]; intros acc st st' acc' Hacc.
  - intros [= <- _]. exact Hacc.
  - simpl. unfold bind at 1.
    destruct (remove_one nm acc st) as [[acc1 |] s1] eqn:E; [| discriminate].
    apply IH. eapply tells_remove_one; eauto.
Qed.

(** C6 (amended): on a build list that is not empty, prune with no
    removal candidate raises the "nothing to commit" signal
    [CFBSReturnWithoutCommit(0)] and changes nothing; on a missing or
    empty build list it returns 0 normally.  Remove, once it has removed
    at least one module, runs prune and absorbs the signal (or the
    normal return): it returns one outcome with exit code 0 and
    [changed] set, prune has made no commit, and the transaction wrapper
    makes exactly one commit for the whole command. *)
Theorem C6_prune_signal_absorbed_by_remove (limit : nat) (commit_msg : string)
    (to_remove : list string) (st : Session W) :
  (forall m ms,
      build st = Some (m :: ms) ->
      unused_among limit (m :: ms) (m :: ms) = Some [] ->
      _clean_unused_modules limit st
      = (Raise (CFBSReturnWithoutCommit 0), warned st))
  /\ (build st = None \/ build st = Some [] ->
      fst (_clean_unused_modules limit st) = Return 0)
  /\ (forall acc st1 o st2,
        is_Some (build st) ->
        remove_loop to_remove (mkRemoval 0 "" []) (warned st) = (Return acc, st1) ->
        (0 < num_removed acc)%nat ->
        _clean_unused_modules limit (saved st1) = (o, st2) ->
        (exists z, o = Return z) \/ (exists rv, o = Raise (CFBSReturnWithoutCommit rv)) ->
        exists r,
          remove_command limit to_remove st = (Return r, st2)
          /\ rc r = 0
          /\ changed r = true
          /\ commits st2 = commits st
          /\ (forall w,
                git_commit_maybe_prompt commit_msg (non_interactive st2)
                  (cfbs_filename :: files r) (world st2) = (Return tt, w) ->
                commits (snd (commit_after_command commit_msg
                                (remove_command limit to_remove) st))
                = commits st ++ [(commit_msg, cfbs_filename :: files r)])).
Proof.
  split; [| split].
  - intros m ms Hb Hnone. unfold _clean_unused_modules.
    unfold bind at 1. rewrite warn_run. unfold bind at 1. unfold get.
    unfold warned at 1. cbn [build]. rewrite Hb. cbv iota. rewrite Hnone.
    reflexivity.
  - intros Hb. unfold _clean_unused_modules.
    unfold bind at 1. rewrite warn_run. unfold bind at 1. unfold get.
    unfold warned at 1. cbn [build]. destruct Hb as [-> | ->]; reflexivity.
  - intros acc st1 o st2 Hb Hloop Hnum Hprune Ho.
    assert (Htells : message_tells acc).
    { eapply tells_remove_loop; [| exact Hloop]. intros Hlt. simpl in Hlt. lia. }
    assert (Hlines : (0 <? List.length (PyStr.splitlines
                                          (PyStr.strip (removal_msg acc))))%nat = true)
      by (apply visible_message_lines, Htells, Hnum).
    assert (Hc1 : commits st1 = commits st)
      by (apply (kept_remove_loop _ _ _ _ _ Hloop)).
    assert (Hc2 : commits st2 = commits st)
      by (rewrite (kept_clean _ _ _ _ Hprune); exact Hc1).
    eexists. split; [| split; [| split; [| split]]].
    + rewrite remove_command_run by assumption. unfold bind at 1.
      rewrite Hloop. unfold remove_finish. unfold bind at 1. rewrite save_run.
      unfold bind at 1. apply Nat.ltb_lt in Hnum. rewrite Hnum.
      unfold absorb_return_without_commit. rewrite Hprune.
      destruct Ho as [[z ->] | [rv ->]]; reflexivity.
    + reflexivity.
    + exact Hlines.
    + exact Hc2.
    + intros w Hcommit. unfold commit_after_command.
      assert (Hrun : remove_command limit to_remove st
                     = (Return (mkResult 0 true
                          (if (1 <? List.length (PyStr.splitlines
                                        (PyStr.strip (removal_msg acc))))%nat
                           then "Removed " +:+ PyStr.str_of_nat (num_removed acc)
                                  +:+ " modules" +:+ newline +:+ removal_msg acc
                           else PyStr.drop 4 (removal_msg acc))
                          (removal_files acc)), st2)).
      { rewrite remove_command_run by assumption. unfold bind at 1.
        rewrite Hloop. unfold remove_finish. unfold bind at 1. rewrite save_run.
        unfold bind at 1. apply Nat.ltb_lt in Hnum. rewrite Hnum.
        unfold absorb_return_without_commit. rewrite Hprune, Hlines.
        destruct Ho as [[z ->] | [rv ->]]; reflexivity. }
      rewrite Hrun. simpl changed. cbv iota. simpl rc. simpl files.
      rewrite Hlines in Hcommit. simpl files in Hcommit.
      rewrite Hcommit. simpl. now rewrite Hc2.
Qed.

End RemoveFacts.

Lemma C9_remove_unmatched_identifier_witness :
  let u1 := mkModule "u1" None None None (Some "https://example.com/repo") None
              None None (Some "cfbs add") None None None [] in
  let st := Scripted.session_of [u1] Scripted.quiet in
  remove_command 1000 ["https://example.com/other"; "u1"] st
  = (Raise (CFBSExitError "Could not find module with URL 'https://example.com/other'"),
     st)
  /\ remove_loop ["nope"; "u1"] (mkRemoval 0 "" []) st
     = (Return (mkRemoval 1 (newline +:+ " - Removed module 'u1'") []),
        mkSession (Some []) false
          [Stdout "Module 'nope' not found"; Stdout "Removing module 'u1'"]
          [] [] Scripted.quiet).
Proof.
  intros u1 st.
  destruct (C9_remove_unmatched_identifier 1000 "https://example.com/other" ["u1"]
              (mkRemoval 0 "" []) st) as ((_ & Hurl) & _); [reflexivity .. |].
  destruct (C9_remove_unmatched_identifier 1000 "nope" ["u1"]
              (mkRemoval 0 "" []) st) as (_ & Hname & _).
  split.
  - rewrite Hurl; [reflexivity | now eexists].
  - rewrite Hname; reflexivity.
Defined.

(** C6 as stated fails here: prune on an empty build list has no
    removal candidate and returns 0 normally; no signal is raised. *)
Lemma C6_prune_empty_build_returns_normally :
  unused_among (W := Scripted.World) 1000 [] [] = Some []
  /\ _clean_unused_modules 1000 (Scripted.session_of [] Scripted.quiet)
     = (Return 0, Scripted.session_of [] Scripted.quiet)
  /\ fst (_clean_unused_modules 1000 (Scripted.session_of [] Scripted.quiet))
     <> Raise (CFBSReturnWithoutCommit 0).
Proof. repeat split; try reflexivity. discriminate. Qed.

Lemma C6_prune_signal_absorbed_by_remove_witness :
  let u1 := mkModule "u1" None None None None None None None (Some "cfbs add")
              None None None [] in
  let u2 := mkModule "u2" None None None None None None None (Some "cfbs add")
              None None None [] in
  let st := Scripted.session_of [u1; u2] Scripted.quiet in
  exists r,
    remove_command 1000 ["u1"] st
    = (Return r, mkSession (Some [u2]) false [Stdout "Removing module 'u1'"]
                   [] [] Scripted.quiet)
    /\ changed r = true
    /\ commits (snd (commit_after_command "Removed module 'u1'"
                       (remove_command 1000 ["u1"]) st))
       = [("Removed module 'u1'", ["cfbs.json"])].
Proof.
  intros u1 u2 st.
  destruct (C6_prune_signal_absorbed_by_remove 1000 "Removed module 'u1'" ["u1"] st)
    as (_ & _ & Hremove).
  destruct (Hremove (mkRemoval 1 (newline +:+ " - Removed module 'u1'") [])
              (mkSession (Some [u2]) false [Stdout "Removing module 'u1'"] [] []
                 Scripted.quiet)
              (Raise (CFBSReturnWithoutCommit 0))
              (mkSession (Some [u2]) false [Stdout "Removing module 'u1'"] [] []
                 Scripted.quiet))
    as (r & Hrun & _ & Hchanged & _ & Hcommit).
  - now eexists.
  - reflexivity.
  - simpl. lia.
  - reflexivity.
  - right. now eexists.
  - assert (Hr : r = mkResult 0 true "Removed module 'u1'" []).
    { assert (Hcalc : remove_command 1000 ["u1"] st
                      = (Return (mkResult 0 true "Removed module 'u1'" []),
                         mkSession (Some [u2]) false [Stdout "Removing module 'u1'"]
                           [] [] Scripted.quiet)) by reflexivity.
      rewrite Hcalc in Hrun. now injection Hrun as <-. }
    exists r. split; [exact Hrun |]. split; [exact Hchanged |].
    rewrite (Hcommit Scripted.quiet); rewrite Hr; reflexivity.
Defined.

(** C8 as stated fails here: both per-module prompts are answered no,
    yet a file [./<identifier>/input.json] exists and its removal is
    accepted; the build list is unchanged but the outcome reports a
    change, and the wrapper commits. *)
Lemma C8_declined_modules_but_input_data_removed :
  let u := "https://example.com/repo" in
  let u1 := mkModule "u1" None None None (Some u) None None None (Some "cfbs add")
              None None None [] in
  let u2 := mkModule "u2" None None None (Some u) None None None (Some "cfbs add")
              None None None [] in
  let w := Scripted.mkWorld ["./https://example.com/repo/input.json"]
             ["no"; "no"; "yes"] false ∅ in
  let st := Scripted.session_of [u1; u2] w in
  let p1 := prompt_user false (remove_question [u1; u2] u1) YES_NO_CHOICES "yes" w in
  let p2 := prompt_user false (remove_question [u1; u2] u2) YES_NO_CHOICES "yes"
              (snd p1) in
  _get_modules_by_url [u1; u2] u = [u1; u2]
  /\ is_yes (fst p1) = false
  /\ is_yes (fst p2) = false
  /\ fst (remove_command 1000 [u] st)
     = Return (mkResult 0 true
                 "Removed input data for module 'https://example.com/repo'"
                 ["./https://example.com/repo/input.json"])
  /\ build (snd (remove_command 1000 [u] st)) = Some [u1; u2]
  /\ commits (snd (commit_after_command "Removed module" (remove_command 1000 [u]) st))
     = [("Removed module", ["cfbs.json"; "./https://example.com/repo/input.json"])].
Proof. repeat split; reflexivity. Qed.

Lemma C8_remove_by_url_all_declined_witness :
  let u := "https://example.com/repo" in
  let u1 := mkModule "u1" None None None (Some u) None None None (Some "cfbs add")
              None None None [] in
  let u2 := mkModule "u2" None None None (Some u) None None None (Some "cfbs add")
              None None None [] in
  let w := Scripted.mkWorld [] ["no"; "no"] false ∅ in
  let st := Scripted.session_of [u1; u2] w in
  commit_after_command "Removed module" (remove_command 1000 [u]) st
  = (Return 0, Scripted.session_of [u1; u2] Scripted.quiet).
Proof.
  intros u u1 u2 w st.
  destruct (C8_remove_by_url_all_declined 1000 u "Removed module" st [u1; u2] u1 u2)
    as (_ & Hwrapped & _); [reflexivity .. | discriminate |].
  rewrite Hwrapped. reflexivity.
Defined.

(** ** The fetch-and-stage pipeline *)

Section DownloadFacts.
Context {W : Type} `{Collaborators W} `{Fetcher W}.

Lemma download_dependencies_run po rd iv (st : Session W) :
  _download_dependencies po rd iv st
  = match download_loop rd iv (longest_module_key_length (build st) "name")
            0 1 (default [] (build st)) (started st) with
    | (Return _, s) => (Return tt, s)
    | (Raise e, s) => (Raise e, s)
    end.
Proof.
  unfold _download_dependencies. unfold bind at 1. rewrite emit_run.
  unfold bind at 1. unfold get. unfold bind. fold (started st).
  now destruct (download_loop _ _ _ _ _ _ _) as [[c | e] s].
Qed.

(** The loop over a list in two parts. *)
Lemma download_loop_app rd iv ml pre :
  forall position counter rest (st : Session W),
    download_loop rd iv ml position counter (pre ++ rest) st
    = match download_loop rd iv ml position counter pre st with
      | (Return counter', st') =>
          download_loop rd iv ml (position + List.length pre) counter' rest st'
      | (Raise e, st') => (Raise e, st')
      end.
Proof.
  induction pre as [| m pre IH]; intros position counter rest st.
  - simpl. now rewrite Nat.add_0_r.
  - simpl. unfold bind.
    destruct (download_one rd iv ml position counter m st) as [[c | e] s];
      [| reflexivity].
    rewrite IH. now replace (S position + List.length pre)%nat
                      with (position + S (List.length pre))%nat by lia.
Qed.

(** An exception in one iteration ends the loop where it stands. *)
Lemma download_loop_raise rd iv ml position counter module rest
    (st st' : Session W) e :
  download_one rd iv ml position counter module st = (Raise e, st') ->
  download_loop rd iv ml position counter (module :: rest) st = (Raise e, st').
Proof. intros E. simpl. now apply bind_raise. Qed.

(** C4: once the modules before it have been staged, a remote module
    with no [commit], with a [commit] that is not shaped like a full
    revision hash, or, on the registry-governed path (nothing cached, no
    archive URL, no custom index, no explicit [url], version checking
    on), with no checksum entry for its name and version in the remote
    versions catalog, makes the whole pipeline raise [CFBSExitError]
    (the last with "Cannot verify checksum of the '...' module").  The
    session is the one the preceding modules left; in the last case only
    its world has moved, by the wipe of the cache entry when a new
    download is forced and by the catalog request.  No staging call is
    made for the failing module, and the modules after it are not
    touched. *)
Theorem C4_fetch_failure_aborts_pipeline (po rd iv : bool)
    (pre rest : list BuildModule) (module : BuildModule)
    (st0 st : Session W) (counter : nat) :
  build st0 = Some (pre ++ module :: rest) ->
  let ml := longest_module_key_length (build st0) "name" in
  download_loop rd iv ml 0 1 pre (started st0) = (Return counter, st) ->
  PyStr.startswith (name module) "./" = false ->
  (commit module = None ->
   _download_dependencies po rd iv st0
   = (Raise (CFBSExitError
               ("module " +:+ name module +:+ " must have a commit property")), st))
  /\ (forall c,
        commit module = Some c ->
        is_a_commit_hash c = false ->
        _download_dependencies po rd iv st0
        = (Raise (CFBSExitError ("'" +:+ c +:+ "' is not a commit reference")), st))
  /\ (forall c u0 versions w',
        commit module = Some c ->
        is_a_commit_hash c = true ->
        source_url module = Some u0 ->
        let commit_dir := get_download_path module in
        let module_dir := match subdirectory module with
                          | Some sd => os_path_join commit_dir sd
                          | None => commit_dir
                          end in
        let w1 := if rd then rm commit_dir (world st) else world st in
        os_path_exists module_dir w1 = false ->
        PyStr.endswith_any (strip_right u0 ".git") SUPPORTED_ARCHIVES = false ->
        index module = None ->
        url module = None ->
        iv = false ->
        get_json _VERSION_INDEX w1 = (Return versions, w') ->
        archive_checksum versions module = None ->
        _download_dependencies po rd iv st0
        = (Raise (CFBSExitError
                    ("Cannot verify checksum of the '" +:+ name module
                       +:+ "' module")),
           in_world st w')
        /\ staged (in_world st w') = staged st
        /\ build (in_world st w') = build st)
  /\ (forall versions by_version v,
        versions !! name module = Some by_version ->
        version module = Some v ->
        by_version !! v = None ->
        archive_checksum versions module = None).
Proof.
  intros Hb ml Hpre Hremote.
  assert (Hrun : forall e s,
             download_one rd iv ml (0 + List.length pre) counter module st
             = (Raise e, s) ->
             _download_dependencies po rd iv st0 = (Raise e, s)).
  { intros e s Hone. rewrite download_dependencies_run. fold ml.
    rewrite Hb. simpl default. rewrite download_loop_app, Hpre.
    now rewrite (download_loop_raise _ _ _ _ _ _ _ _ _ _ Hone). }
  split; [| split; [| split]].
  - intros Hc. apply Hrun. unfold download_one. now rewrite Hremote, Hc.
  - intros c Hc Hhash. apply Hrun. unfold download_one.
    now rewrite Hremote, Hc, Hhash.
  - intros c u0 versions w' Hc Hhash Hurl commit_dir module_dir w1
           Hmissing Harchive Hindex Hu Hiv Hjson Hsum.
    split; [| split; reflexivity].
    apply Hrun. unfold download_one. rewrite Hremote, Hc, Hhash, Hurl.
    change (negb true) with false. cbv iota. fold commit_dir. fold module_dir.
    assert (Hfirst : (if rd then effect (rm commit_dir) else ret tt) st
                     = (Return tt, in_world st w1)).
    { unfold w1. destruct rd; [reflexivity |].
      unfold ret, in_world. now destruct st. }
    unfold bind at 1. rewrite Hfirst.
    unfold bind at 1. unfold get. unfold bind at 1.
    change (world (in_world st w1)) with w1. rewrite Hmissing.
    unfold fetch_missing. unfold bind at 1. unfold get.
    rewrite Harchive, Hindex, Hu, Hiv.
    rewrite (bool_decide_eq_false_2 (is_Some (@None string)))
      by (intros [? [=]]).
    cbn [orb]. cbv iota.
    unfold bind at 1. unfold call.
    change (world (in_world st w1)) with w1. rewrite Hjson.
    cbv beta iota. rewrite Hsum. reflexivity.
  - intros versions by_version v Hname Hv Hentry.
    unfold archive_checksum. rewrite Hname. simpl. rewrite Hv. simpl.
    now rewrite Hentry.
Qed.

Lemma kept_fetch_missing_staged module c u commit_dir iv :
  kept (W := W) staged (fetch_missing module c u commit_dir iv).
Proof.
  unfold fetch_missing. kept.
  intros st o st'. unfold call.
  destruct (get_json _VERSION_INDEX (world st)) as [[v | e] w];
    [| destruct e]; intros [= _ <-]; reflexivity.
Qed.


Lemma kept_annotate_staged position module :
  kept (W := W) staged (annotate position module).
Proof. unfold annotate. kept. Qed.


Lemma annotate_none position module (st : Session W) :
  build st = None -> annotate position module st = (Return tt, st).
Proof. intros Hb. unfold annotate, bind, get. now rewrite Hb. Qed.

(** One iteration makes one staging call, the expected one, and moves
    the counter by one. *)
Lemma download_one_staged rd iv ml position counter module
    (st st1 : Session W) c1 :
  download_one rd iv ml position counter module st = (Return c1, st1) ->
  c1 = S counter
  /\ staged st1 = staged st ++ [expected_staging ml counter module].
Proof.
  unfold download_one, expected_staging.
  destruct (PyStr.startswith (name module) "./").
  - intros Hrun.
    apply bind_inv in Hrun. destruct Hrun as (? & s1 & Hlog & Hrun).
    injection Hlog as _ <-.
    apply bind_inv in Hrun. destruct Hrun as (m' & s2 & Hcopy & Hrun).
    apply bind_inv in Hrun. destruct Hrun as (? & s3 & Hann & Hrun).
    injection Hrun as <- <-.
    assert (K2 : kept (W := W) staged
                   (call (local_module_copy module counter ml))) by kept.
    apply K2 in Hcopy. apply kept_annotate_staged in Hann.
    split; [lia |]. now rewrite Hann, Hcopy.
  - destruct (commit module) as [c |]; [| discriminate].
    destruct (is_a_commit_hash c); [| discriminate]. simpl negb. cbv iota.
    destruct (source_url module) as [u0 |]; [| discriminate].
    intros Hrun.
    apply bind_inv in Hrun. destruct Hrun as (? & s1 & Hrm & Hrun).
    apply bind_inv in Hrun. destruct Hrun as (? & s2 & Hget & Hrun).
    injection Hget as <- <-.
    apply bind_inv in Hrun. destruct Hrun as (? & s3 & Hfetch & Hrun).
    apply bind_inv in Hrun. destruct Hrun as (? & s4 & Hann & Hrun).
    apply bind_inv in Hrun. destruct Hrun as (? & s5 & Hlog & Hrun).
    injection Hlog as _ <-.
    apply bind_inv in Hrun. destruct Hrun as (? & s6 & Hcp & Hrun).
    apply bind_inv in Hrun. destruct Hrun as (? & s7 & Hemit & Hrun).
    injection Hemit as _ <-. injection Hrun as <- <-.
    assert (K1 : kept (W := W) staged
                   (if rd then effect (rm (get_download_path module)) else ret tt))
      by kept.
    apply K1 in Hrm.
    assert (K3 : staged s3 = staged s1).
    { destruct (os_path_exists _ _).
      - now injection Hfetch as _ <-.
      - eapply kept_fetch_missing_staged, Hfetch. }
    apply kept_annotate_staged in Hann.
    assert (K6 : forall src tgt, kept (W := W) staged (call (cp src tgt)))
      by (intros; kept).
    apply K6 in Hcp.
    split; [lia |]. simpl staged. rewrite Hcp. simpl staged.
    now rewrite Hann, K3, Hrm.
Qed.





End DownloadFacts.

Lemma C4_fetch_failure_aborts_pipeline_witness :
  let hash := "0123456789abcdef0123456789abcdef01234567" in
  let local_module := mkModule "./a.cf" None None None None None None None
                        (Some "cfbs add") None None None [] in
  let m1 := mkModule "m1" None (Some "1.0.0") (Some hash) None
              (Some "https://github.com/x/m1") None None (Some "cfbs add")
              None None None [] in
  let m2 := mkModule "m2" None (Some "1.0.0") (Some hash) None
              (Some "https://github.com/x/m2") None None (Some "cfbs add")
              None None None [] in
  let st0 := Scripted.session_of [local_module; m1; m2] Scripted.quiet in
  fst (_download_dependencies false false false st0)
  = Raise (CFBSExitError "Cannot verify checksum of the 'm1' module")
  /\ staged (snd (_download_dependencies false false false st0))
     = [LocalCopy local_module 1 6].
Proof.
  intros hash local_module m1 m2 st0.
  destruct (C4_fetch_failure_aborts_pipeline false false false [local_module] [m2] m1
              st0
              (mkSession
                 (Some [with_staging local_module "out/steps/001_local/" 1; m1; m2])
                 false [Stdout (newline +:+ "Modules:")] []
                 [LocalCopy local_module 1 6]
                 (Scripted.mkWorld ["out/steps/001_local/"] [] false ∅))
              2)
    as (_ & _ & Hsum & _); [reflexivity .. |].
  destruct (Hsum hash "https://github.com/x/m1" ∅
              (Scripted.mkWorld ["out/steps/001_local/"] [] false ∅))
    as (Hrun & _); [reflexivity .. |].
  rewrite Hrun. split; reflexivity.
Defined.


(** ** Project initialisation *)

Section InitFacts.
Context {W : Type} `{Collaborators W} `{Initializer W}.

(** C5: when [init_command] has written the manifest and the commit
    that follows raises [CFBSGitError], the command prints the error,
    unlinks the manifest file and returns 1; it records no commit, and
    in any file system where an unlinked manifest is gone the directory
    is not a project afterwards. *)
Theorem C5_init_undoes_manifest_on_commit_failure
    (idx masterfiles : option string) (ni : bool) (st st1 : Session W)
    (config : Manifest) (e : string) (w' : W) :
  init_prepare idx ni st = (Return (inr config), st1) ->
  manifest_git config = true ->
  let w_written := write_file cfbs_filename (pretty config +:+ newline)
                     (world st1) in
  is_cfbs_repo w_written = true ->
  git_commit_maybe_prompt "Initialized a new CFEngine Build project" ni
    [cfbs_filename] w_written = (Raise (CFBSGitError e), w') ->
  let final := mkSession (build st1) (non_interactive st1) (out st1 ++ [Stdout e])
                 (commits st1) (staged st1) (os_unlink cfbs_filename w') in
  init_command idx masterfiles ni st = (Return 1, final)
  /\ ((forall w, is_cfbs_repo (os_unlink cfbs_filename w) = false) ->
      is_cfbs_repo (world final) = false).
Proof.
  intros Hprep Hgit w_written Hrepo Hcommit final.
  split; [| intros Hgone; apply Hgone].
  unfold init_command. unfold bind at 1. rewrite Hprep.
  unfold init_finish. unfold bind at 1.
  assert (Hwrite : write_and_commit config ni st1 = (Return (Some 1), final)).
  { unfold write_and_commit. unfold bind at 1.
    change (effect (write_file cfbs_filename (pretty config +:+ newline)) st1)
      with (Return tt, in_world st1 w_written).
    unfold bind at 1. unfold get.
    change (world (in_world st1 w_written)) with w_written.
    rewrite Hrepo, Hgit. change (negb true) with false. cbv beta iota.
    unfold call. change (world (in_world st1 w_written)) with w_written.
    rewrite Hcommit. reflexivity. }
  now rewrite Hwrite.
Qed.

End InitFacts.

Lemma C5_init_undoes_manifest_on_commit_failure_witness :
  let w := Scripted.mkWorld [] [] true ∅ in
  let st := mkSession None false [] [] [] w in
  fst (init_command None (Some "no") false st) = Return 1
  /\ is_cfbs_repo (world (snd (init_command None (Some "no") false st))) = false
  /\ commits (snd (init_command None (Some "no") false st)) = [].
Proof.
  intros w st.
  destruct (C5_init_undoes_manifest_on_commit_failure None (Some "no") false st
              (mkSession None false [] [] [] (Scripted.mkWorld [".git"] [] true ∅))
              (mkManifest "Example project" "policy-set" "Example description" []
                 None true)
              "git commit failed"
              (Scripted.mkWorld [".git"; "cfbs.json"] [] true ∅))
    as (Hrun & _); [reflexivity .. |].
  rewrite Hrun. repeat split; reflexivity.
Defined.

(** * Further properties of the commands *)

(** ** Prune: what is kept *)

Section PruneKeeps.
Context {W : Type} `{Collaborators W}.

Lemma list_remove_cons x y r :
  list_remove x (y :: r)
  = if bool_decide (y = x) then Some r else cons y <$> list_remove x r.
Proof. reflexivity. Qed.

Lemma list_remove_after pre x l :
  (forall y, y ∈ pre -> y <> x) ->
  list_remove x (pre ++ x :: l) = Some (pre ++ l).
Proof.
induction pre as [| y pre IH]; intros Hpre.
- simpl app. rewrite list_remove_cons. case_bool_decide; [reflexivity | congruence].
- simpl app. rewrite list_remove_cons. case_bool_decide as Hy.
  + exfalso. revert Hy. apply Hpre, list_elem_of_here.
  + rewrite IH; [reflexivity |].
    intros z Hz. apply Hpre. now apply list_elem_of_further.
Qed.

(** Removing, one by one, the elements of [l] that fail [keep] leaves the
    elements that pass it, in their order. *)
Lemma remove_each_filter (keep : BuildModule -> bool) l :
  forall pre,
    (forall y, y ∈ pre -> keep y = true) ->
    remove_each (List.filter (fun m => negb (keep m)) l) (pre ++ l)
    = Some (pre ++ List.filter keep l).
Proof.
induction l as [| x l IH]; intros pre Hpre; simpl.
- reflexivity.
- destruct (keep x) eqn:Hx; simpl.
  + replace (pre ++ x :: l) with ((pre ++ [x]) ++ l) by now rewrite <- app_assoc.
    rewrite IH.
    * now rewrite <- app_assoc.
    * intros y Hy. apply elem_of_app in Hy. destruct Hy as [Hy | Hy].
      -- now apply Hpre.
      -- apply list_elem_of_singleton in Hy. now subst.
  + rewrite list_remove_after.
    * now apply IH.
    * intros y Hy ->. apply Hpre in Hy. congruence.
Qed.

Lemma unused_among_filter depth modules l to_remove :
  unused_among depth modules l = Some to_remove ->
  to_remove
  = List.filter (fun m => negb (bool_decide
                                  (_someone_needs_me depth modules m = Some true))) l
  /\ (forall m, m ∈ l -> is_Some (_someone_needs_me depth modules m)).
Proof.
revert to_remove. induction l as [| x l IH]; intros to_remove; simpl.
- intros [= <-]. split; [reflexivity |]. intros m Hm. inversion Hm.
- destruct (_someone_needs_me depth modules x) as [needed |] eqn:Hx; [| discriminate].
  destruct (unused_among depth modules l) as [rest |]; [| discriminate].
  destruct (IH rest eq_refl) as [Hrest Hsome].
  intros [= <-]. split.
  + destruct needed; case_bool_decide; try congruence; simpl; congruence.
  + intros m Hm. apply elem_of_cons in Hm. destruct Hm as [-> | Hm].
    * rewrite Hx. now eexists.
    * now apply Hsome.
Qed.

(** X1: when the reachability check returns for every module, some
    module is unneeded and the user confirms, prune returns 0 and the
    build list becomes exactly the modules the check found needed, in
    their original order; [list.remove] never fails, and no commit is
    recorded by prune itself. *)
Theorem prune_confirmed_keeps_needed_modules (limit : nat) (st : Session W)
    (modules to_remove : list BuildModule) :
  build st = Some modules ->
  unused_among limit modules modules = Some to_remove ->
  to_remove <> [] ->
  let asked := mkSession (build st) (non_interactive st)
                 (out st ++ unknown_key_warnings (world st)
                    ++ [Stdout "The following modules were added as dependencies but are no longer needed:"]
                    ++ map unused_line to_remove)
                 (commits st) (staged st) (world st) in
  let reply := prompt_user (non_interactive st)
                 "Do you wish to remove these modules?" YES_NO_CHOICES "yes"
                 (world st) in
  is_yes (fst reply) = true ->
  let kept_modules :=
    List.filter (fun m => bool_decide (_someone_needs_me limit modules m = Some true))
      modules in
  _clean_unused_modules limit st
  = (Return 0,
     mkSession (Some kept_modules) (non_interactive st) (out asked) (commits st)
       (staged st) (config_save (Some kept_modules) (snd reply))).
Proof.
intros Hb Hunused Hne asked reply Hyes kept_modules.
destruct (unused_among_filter _ _ _ _ Hunused) as [Hfilter _].
assert (Heach : remove_each to_remove modules = Some kept_modules).
{ rewrite Hfilter. apply (remove_each_filter _ modules []). intros y Hy. inversion Hy. }
unfold _clean_unused_modules. unfold bind at 1. rewrite warn_run.
unfold bind at 1. unfold get. unfold warned at 1. cbn [build]. rewrite Hb.
destruct modules as [| m ms]; [simpl in Hunused; injection Hunused as <-; congruence |].
cbv iota. rewrite Hunused.
destruct to_remove as [| r rs]; [congruence |]. cbv iota.
unfold bind at 1. rewrite emit_run. unfold bind at 1.
change (emit_all ?ls ?s) with (Return tt, mkSession (build s) (non_interactive s)
                                 (out s ++ ls) (commits s) (staged s) (world s)).
cbv beta iota. unfold bind at 1. rewrite ask_run.
cbn [world warned non_interactive]. fold reply. unfold bind at 1. rewrite Hyes.
rewrite Heach. unfold bind at 1.
change (set_build ?b ?s) with (Return tt, mkSession (Some b) (non_interactive s)
                                 (out s) (commits s) (staged s) (world s)).
cbv beta iota. rewrite save_run. unfold ret, saved, in_world, asked. simpl.
rewrite <- !app_assoc. reflexivity.
Qed.

Lemma root_is_needed depth modules m :
  is_root m = true ->
  is_Some (_someone_needs_me depth modules m) ->
  _someone_needs_me depth modules m = Some true.
Proof.
intros Hroot [b Hb]. destruct depth as [| d]; [discriminate |].
now rewrite someone_needs_me_step, Hroot.
Qed.

(** X2: however prune ends (normal return, "nothing to commit" signal,
    [RecursionError], declined or confirmed), the build list it leaves is
    either the one it found or the modules the check found needed; every
    root of the build list is still in it, and in the second case every
    module left is reachable from a root in the specification's sense. *)
Theorem prune_never_removes_a_root (limit : nat) (st st' : Session W)
    (o : Outcome Z) (modules : list BuildModule) :
  build st = Some modules ->
  _clean_unused_modules limit st = (o, st') ->
  let kept_modules :=
    List.filter (fun m => bool_decide (_someone_needs_me limit modules m = Some true))
      modules in
  exists modules',
    build st' = Some modules'
    /\ (forall m, m ∈ modules -> is_root m = true -> m ∈ modules')
    /\ (modules' = modules
        \/ (modules' = kept_modules
            /\ forall m, m ∈ modules' -> reachable modules m)).
Proof.
intros Hb Hrun kept_modules.
assert (Hsame : build st' = build st ->
                exists modules',
                  build st' = Some modules'
                  /\ (forall m, m ∈ modules -> is_root m = true -> m ∈ modules')
                  /\ (modules' = modules
                      \/ (modules' = kept_modules
                          /\ forall m, m ∈ modules' -> reachable modules m))).
{ intros Hsame. exists modules. rewrite Hsame, Hb. repeat split; auto. }
revert Hrun. unfold _clean_unused_modules. unfold bind at 1. rewrite warn_run.
unfold bind at 1. unfold get. unfold warned at 1. cbn [build]. rewrite Hb.
destruct modules as [| m ms].
{ intros [= _ <-]. now apply Hsame. }
cbv iota.
destruct (unused_among limit (m :: ms) (m :: ms)) as [to_remove |] eqn:Hunused.
2: { intros [= _ <-]. now apply Hsame. }
destruct to_remove as [| r rs].
{ intros [= _ <-]. now apply Hsame. }
cbv iota. unfold bind at 1. rewrite emit_run. unfold bind at 1.
change (emit_all ?ls ?s) with (Return tt, mkSession (build s) (non_interactive s)
                                 (out s ++ ls) (commits s) (staged s) (world s)).
cbv beta iota. unfold bind at 1. rewrite ask_run.
unfold bind at 1. destruct (is_yes _).
- destruct (unused_among_filter _ _ _ _ Hunused) as [Hfilter Hsome].
  assert (Heach : remove_each (r :: rs) (m :: ms) = Some kept_modules).
  { rewrite Hfilter.
    apply (remove_each_filter
             (fun x => bool_decide (_someone_needs_me limit (m :: ms) x = Some true))
             (m :: ms) []).
    intros y Hy. inversion Hy. }
  rewrite Heach. unfold bind at 1.
  change (set_build ?b ?s) with (Return tt, mkSession (Some b) (non_interactive s)
                                   (out s) (commits s) (staged s) (world s)).
  cbv beta iota. rewrite save_run. intros [= _ <-].
  exists kept_modules. split; [reflexivity |]. split.
  + intros x Hx Hroot. apply list_elem_of_In, filter_In.
    split; [now apply list_elem_of_In |].
    apply bool_decide_eq_true_2. apply root_is_needed; auto.
  + right. split; [reflexivity |].
    intros x Hx. apply list_elem_of_In, filter_In in Hx. destruct Hx as [_ Hx].
    apply bool_decide_eq_true in Hx. now apply needed_is_reachable in Hx.
- intros [= _ <-]. now apply Hsame.
Qed.

(** X3: the reachability check returns whenever the first-dependent
    links go down some rank: if every module that is not a root has a
    first dependent of strictly smaller rank, the check of a module
    returns within rank + 1 frames, so with a recursion limit above every
    rank prune does not end in [RecursionError]. *)
Theorem reachability_check_returns_on_ranked_lists (modules : list BuildModule)
    (rank : BuildModule -> nat) :
  (forall m other,
      is_root m = false ->
      first_dependent modules (name m) = Some other ->
      (rank other < rank m)%nat) ->
  (forall m limit, (rank m < limit)%nat ->
                   is_Some (_someone_needs_me limit modules m))
  /\ (forall limit (st : Session W),
        build st = Some modules ->
        (forall m, m ∈ modules -> (rank m < limit)%nat) ->
        fst (_clean_unused_modules limit st) <> Raise RecursionError).
Proof.
intros Hrank.
assert (Hret : forall n m limit, (rank m <= n)%nat -> (rank m < limit)%nat ->
                                 is_Some (_someone_needs_me limit modules m)).
{ induction n as [| n IH]; intros m limit Hn Hlimit;
    (destruct limit as [| d]; [lia |]);
    rewrite someone_needs_me_step;
    (destruct (is_root m) eqn:Hroot; [now eexists |]);
    (destruct (first_dependent modules (name m)) as [other |] eqn:Hf;
     [| now eexists]);
    specialize (Hrank m other Hroot Hf).
  - lia.
  - apply IH; lia. }
split.
- intros m limit. now apply (Hret (rank m)).
- intros limit st Hb Hall.
  assert (Hunused : forall l, (forall m, m ∈ l -> m ∈ modules) ->
                              is_Some (unused_among limit modules l)).
  { induction l as [| x l IHl]; intros Hl; simpl; [now eexists |].
    destruct (Hret (rank x) x limit) as [b Hb'];
      [lia | apply Hall, Hl, list_elem_of_here |].
    rewrite Hb'.
    destruct IHl as [rest Hr];
      [intros y Hy; now apply Hl, list_elem_of_further |].
    rewrite Hr. now eexists. }
  destruct (Hunused modules (fun m Hm => Hm)) as [to_remove Hr].
  unfold _clean_unused_modules. unfold bind at 1. rewrite warn_run.
  unfold bind at 1. unfold get. unfold warned at 1. cbn [build]. rewrite Hb.
  destruct modules as [| m ms] eqn:Hmods; [discriminate |].
  cbv iota. rewrite Hr. destruct to_remove as [| r rs]; [discriminate |].
  cbv iota. unfold bind at 1. rewrite emit_run. unfold bind at 1.
  change (emit_all ?ls ?s) with (Return tt, mkSession (build s) (non_interactive s)
                                   (out s ++ ls) (commits s) (staged s) (world s)).
  cbv beta iota. unfold bind at 1. rewrite ask_run.
  unfold bind at 1. destruct (is_yes _); [| discriminate].
  destruct (remove_each _ _); [| discriminate].
  unfold bind at 1.
  change (set_build ?b ?s) with (Return tt, mkSession (Some b) (non_interactive s)
                                   (out s) (commits s) (staged s) (world s)).
  cbv beta iota. rewrite save_run. discriminate.
Qed.

End PruneKeeps.

(** ** Remove: dependents and bookkeeping *)

Section RemoveBookkeeping.
Context {W : Type} `{Collaborators W}.

Lemma depends_on_lists dependency m :
  depends_on dependency m
  = if lists_dependency dependency m then [name m] else [].
Proof.
unfold depends_on, lists_dependency.
destruct (dependencies m) as [deps |]; reflexivity.
Qed.

Lemma filter_names_cons dependency m l :
  map name (List.filter (lists_dependency dependency) (m :: l))
  = depends_on dependency m ++ map name (List.filter (lists_dependency dependency) l).
Proof.
rewrite depends_on_lists. simpl.
now destruct (lists_dependency dependency m).
Qed.

Lemma reduce_dependencies_fold dependency rest :
  forall names,
    fold_left (fun a b => inr (reduce_dependencies dependency a b)) rest
      (inr names : BuildModule + list string)
    = inr (names ++ map name (List.filter (lists_dependency dependency) rest)).
Proof.
induction rest as [| b rest IH]; intros names; simpl fold_left.
- simpl. now rewrite app_nil_r.
- rewrite IH. unfold reduce_dependencies.
  now rewrite filter_names_cons, app_assoc.
Qed.

(** X4: [_get_dependents] lists, in build-list order, the names of
    the modules that list the dependency, as soon as the build list has
    two modules; with fewer it answers the empty list, also when the only
    module does list the dependency. *)
Theorem get_dependents_lists_the_dependents (modules : list BuildModule)
    (dependency : string) :
  _get_dependents modules dependency
  = if (List.length modules <? 2)%nat then []
    else map name (List.filter (lists_dependency dependency) modules).
Proof.
unfold _get_dependents.
destruct (List.length modules <? 2)%nat eqn:Hlen; [reflexivity |].
destruct modules as [| first rest]; [reflexivity |].
destruct rest as [| second rest]; [discriminate |].
simpl fold_left. rewrite reduce_dependencies_fold.
now rewrite !filter_names_cons, app_assoc.
Qed.

Lemma accounted_refl (st : Session W) acc : removal_accounted st acc st acc.
Proof. repeat split; auto. Qed.

Lemma accounted_trans (st1 : Session W) a1 st2 a2 st3 a3 :
  removal_accounted st1 a1 st2 a2 ->
  removal_accounted st2 a2 st3 a3 ->
  removal_accounted st1 a1 st3 a3.
Proof.
intros (S1 & L1 & B1) (S2 & L2 & B2). repeat split.
- now transitivity (modules_of st2).
- lia.
- auto.
Qed.

Lemma accounted_same_build (st : Session W) acc st' acc' :
  build st' = build st ->
  num_removed acc' = num_removed acc ->
  removal_accounted st acc st' acc'.
Proof.
intros Hb Hn. unfold removal_accounted, modules_of. rewrite Hb, Hn.
repeat split; auto.
Qed.

Lemma list_remove_sublist x l l' :
  list_remove x l = Some l' ->
  sublist l' l /\ S (List.length l') = List.length l.
Proof.
revert l'. induction l as [| y l IH]; intros l'; [discriminate |].
rewrite list_remove_cons. case_bool_decide.
- intros [= <-]. split; [now constructor | reflexivity].
- destruct (list_remove x l) as [r |]; [| discriminate].
  intros [= <-]. destruct (IH r eq_refl) as [Hs Hl].
  split; [now constructor | simpl; lia].
Qed.

Lemma accounted_remove_confirmed shown module acc (st st' : Session W) acc' :
  remove_confirmed shown module acc st = (Return acc', st') ->
  removal_accounted st acc st' acc'.
Proof.
unfold remove_confirmed, bind. rewrite emit_run. unfold get.
change (modules_of (mkSession ?b ?n ?o ?c ?s ?w)) with (default [] b).
fold (modules_of st).
destruct (list_remove module (modules_of st)) as [l' |] eqn:Hrem; [| discriminate].
simpl. intros [= <- <-].
apply list_remove_sublist in Hrem. destruct Hrem as [Hs Hl].
unfold removal_accounted, modules_of at 1 3. simpl.
repeat split; [exact Hs | lia | intros _; now eexists].
Qed.

Lemma accounted_remove_matches matches :
  forall acc (st st' : Session W) acc',
    remove_matches matches acc st = (Return acc', st') ->
    removal_accounted st acc st' acc'.
Proof.
induction matches as [| module r IH]; intros acc st st' acc'.
- intros [= <- <-]. apply accounted_refl.
- simpl. unfold bind at 1. rewrite remove_prompt_run. cbv beta iota zeta.
  unfold bind at 1.
  match goal with |- context [in_world st ?w] => set (s1 := in_world st w) end.
  assert (H1 : removal_accounted st acc s1 acc) by (apply accounted_same_build; reflexivity).
  destruct (is_yes _).
  + destruct (remove_confirmed _ _ _ _) as [[acc1 |] s2] eqn:E; [| discriminate].
    intros Hrest. apply accounted_remove_confirmed in E. apply IH in Hrest.
    exact (accounted_trans _ _ _ _ _ _ H1 (accounted_trans _ _ _ _ _ _ E Hrest)).
  + unfold ret at 1. intros Hrest. apply IH in Hrest.
    exact (accounted_trans _ _ _ _ _ _ H1 Hrest).
Qed.

Lemma accounted_remove_input_data nm acc (st st' : Session W) acc' :
  remove_input_data nm acc st = (Return acc', st') ->
  removal_accounted st acc st' acc'
  /\ num_removed acc' = num_removed acc.
Proof.
unfold remove_input_data. unfold bind at 1. unfold get.
destruct (os_path_isfile _ _).
- unfold bind at 1. rewrite ask_run. destruct (is_yes _).
  + unfold bind, effect, get, set_world, modify. simpl.
    intros [= <- <-]. split; [| reflexivity]. apply accounted_same_build; reflexivity.
  + intros [= <- <-]. split; [| reflexivity]. apply accounted_same_build; reflexivity.
- intros [= <- <-]. split; [apply accounted_refl | reflexivity].
Qed.

Lemma accounted_remove_one nm acc (st st' : Session W) acc' :
  remove_one nm acc st = (Return acc', st') ->
  removal_accounted st acc st' acc'.
Proof.
unfold remove_one. intros Hrun.
apply bind_inv in Hrun. destruct Hrun as (acc1 & s1 & Hfirst & Hdata).
apply accounted_remove_input_data in Hdata. destruct Hdata as [Hdata _].
eapply accounted_trans; [| exact Hdata]. clear Hdata.
destruct (PyStr.startswith_any nm SUPPORTED_URI_SCHEMES).
- unfold bind, get in Hfirst.
  destruct (_get_modules_by_url (modules_of st) nm); [discriminate |].
  now apply accounted_remove_matches in Hfirst.
- unfold bind at 1 in Hfirst. unfold get in Hfirst.
  destruct (_get_module_by_name _ _ _).
  + unfold bind at 1 in Hfirst. rewrite remove_prompt_run in Hfirst.
    cbv beta iota zeta in Hfirst.
    match type of Hfirst with context [in_world st ?w] => set (s0 := in_world st w) in * end.
    assert (H0 : removal_accounted st acc s0 acc) by (apply accounted_same_build; reflexivity).
    destruct (is_yes _).
    * apply accounted_remove_confirmed in Hfirst.
      exact (accounted_trans _ _ _ _ _ _ H0 Hfirst).
    * injection Hfirst as <- <-. exact H0.
  + unfold bind in Hfirst. rewrite emit_run in Hfirst. injection Hfirst as <- <-.
    apply accounted_same_build; reflexivity.
Qed.

(** X5: the loop of [remove_command] only ever takes modules out:
    when it completes, the build list is a sublist of the one it started
    from (same order, nothing added, nothing altered), and [num_removed]
    has grown by exactly the number of modules that left it. *)
Theorem remove_loop_accounts_for_every_module (to_remove : list string) :
  forall acc (st st' : Session W) acc',
    remove_loop to_remove acc st = (Return acc', st') ->
    sublist (modules_of st') (modules_of st)
    /\ (List.length (modules_of st') + num_removed acc'
        = List.length (modules_of st) + num_removed acc)%nat.
Proof.
assert (Hacc : forall acc (st st' : Session W) acc',
           remove_loop to_remove acc st = (Return acc', st') ->
           removal_accounted st acc st' acc').
{ induction to_remove as [| nm r IH]; intros acc st st' acc'.
  - intros [= <- <-]. apply accounted_refl.
  - simpl. intros Hrun.
    apply bind_inv in Hrun. destruct Hrun as (acc1 & s1 & Hone & Hrest).
    apply accounted_remove_one in Hone. apply IH in Hrest.
    exact (accounted_trans _ _ _ _ _ _ Hone Hrest). }
intros acc st st' acc' Hrun. apply Hacc in Hrun.
destruct Hrun as (Hs & Hl & _). now split.
Qed.

End RemoveBookkeeping.

(** ** The pipeline when it fails *)

Lemma bind_cases {S A B} (c : M S A) (k : A -> M S B) s o s' :
  bind c k s = (o, s') ->
  (exists e, c s = (Raise e, s') /\ o = Raise e)
  \/ (exists a s1, c s = (Return a, s1) /\ k a s1 = (o, s')).
Proof.
unfold bind. destruct (c s) as [[a | e] s1].
- intros Hk. right. now exists a, s1.
- intros [= <- <-]. left. now exists e.
Qed.

Section StagingOrder.
Context {W : Type} `{Collaborators W} `{Fetcher W}.

Lemma stages_kept {A} c (m : M (Session W) A) :
  kept staged m -> stages_at_most c m.
Proof. intros Hk st o st' Hrun. left. exact (Hk _ _ _ Hrun). Qed.

Lemma stages_bind_kept {A B} c (m : M (Session W) A) (k : A -> M (Session W) B) :
  kept staged m -> (forall a, stages_at_most c (k a)) -> stages_at_most c (bind m k).
Proof.
intros Hm Hk st o st' Hrun. apply bind_cases in Hrun.
destruct Hrun as [(e & Hraise & _) | (a & s1 & Hret & Hrest)].
- left. exact (Hm _ _ _ Hraise).
- rewrite <- (Hm _ _ _ Hret). exact (Hk a _ _ _ Hrest).
Qed.

Lemma stages_log {B} c (k : unit -> M (Session W) B) :
  (forall a, kept staged (k a)) -> stages_at_most c (bind (log_staging c) k).
Proof.
intros Hk st o st' Hrun. apply bind_cases in Hrun.
destruct Hrun as [(e & Hraise & _) | (a & s1 & Hret & Hrest)].
- discriminate.
- injection Hret as _ <-. right. exact (Hk a _ _ _ Hrest).
Qed.

Lemma download_one_stages rd iv ml position counter module :
  stages_at_most (W := W) (expected_staging ml counter module)
    (download_one rd iv ml position counter module).
Proof.
unfold download_one, expected_staging.
destruct (PyStr.startswith (name module) "./").
- apply stages_log. intros _.
  apply kept_bind; [kept | intros m'].
  apply kept_bind; [apply kept_annotate_staged | intros _; kept].
- destruct (commit module) as [c |]; [| apply stages_kept; kept].
  destruct (negb (is_a_commit_hash c)); [apply stages_kept; kept |].
  destruct (source_url module) as [u0 |]; [| apply stages_kept; kept].
  simpl default.
  apply stages_bind_kept; [kept | intros _].
  apply stages_bind_kept; [kept | intros s].
  apply stages_bind_kept.
  { destruct (os_path_exists _ _); [kept | apply kept_fetch_missing_staged]. }
  intros _. apply stages_bind_kept; [apply kept_annotate_staged | intros _].
  apply stages_log. intros _. kept.
Qed.

(** X6: whatever the outcome of the pipeline, completed or aborted
    by an exception anywhere, the staging calls it has made are the
    expected calls for the first [k] modules of the build list, in order
    and without gaps; nothing is ever staged out of order or under a
    sequence number other than position + 1. *)
Theorem pipeline_stages_a_prefix_in_order (po rd iv : bool)
    (st st' : Session W) (o : Outcome unit) (modules : list BuildModule) :
  build st = Some modules ->
  _download_dependencies po rd iv st = (o, st') ->
  let ml := longest_module_key_length (Some modules) "name" in
  exists k,
    (k <= List.length modules)%nat
    /\ staged st'
       = staged st ++ take k (imap (fun i m => expected_staging ml (S i) m) modules).
Proof.
intros Hb Hrun ml.
assert (Hloop : forall l position counter (s s' : Session W) (r : Outcome nat),
           download_loop rd iv ml position counter l s = (r, s') ->
           exists k, (k <= List.length l)%nat
                     /\ staged s'
                        = staged s
                            ++ take k (imap (fun i m => expected_staging ml (counter + i) m) l)).
{ induction l as [| m l IH]; intros position counter s s' r.
  - intros [= _ <-]. exists 0%nat. split; [lia |]. simpl. now rewrite app_nil_r.
  - simpl download_loop. intros Hl. apply bind_cases in Hl.
    destruct Hl as [(e & Hraise & _) | (c1 & s1 & Hone & Hrest)].
    + destruct (download_one_stages _ _ _ _ _ _ _ _ _ Hraise) as [Hs | Hs].
      * exists 0%nat. split; [lia |]. simpl. now rewrite app_nil_r.
      * exists 1%nat. split; [simpl; lia |]. simpl. rewrite Nat.add_0_r.
        now rewrite take_0.
    + destruct (download_one_staged _ _ _ _ _ _ _ _ _ Hone) as [-> Hs1].
      destruct (IH _ _ _ _ _ Hrest) as (k & Hk & Hs').
      exists (S k). split; [simpl; lia |].
      rewrite Hs', Hs1, <- app_assoc. simpl. rewrite Nat.add_0_r.
      do 3 f_equal. apply imap_ext. intros i x _. simpl. f_equal. lia. }
rewrite download_dependencies_run, Hb in Hrun. simpl default in Hrun.
fold ml in Hrun.
destruct (download_loop rd iv ml 0 1 modules (started st)) as [r s1] eqn:Hl.
destruct (Hloop _ _ _ _ _ _ Hl) as (k & Hk & Hs).
exists k. split; [exact Hk |].
assert (st' = s1) by (destruct r; now injection Hrun as _ <-). subst.
exact Hs.
Qed.

End StagingOrder.

(** ** Versions: malformed strings and extensions *)

Lemma re_split_version_nonempty v : PyStr.re_split_version v <> [].
Proof.
destruct v as [| c r]; simpl; [discriminate |].
destruct (PyStr.is_version_sep c); [discriminate |].
now destruct (PyStr.re_split_version r).
Qed.

(** Splitting at a separator splits the list of components. *)
Lemma re_split_version_app a c b :
  PyStr.is_version_sep c = true ->
  PyStr.re_split_version (a +:+ String c b)
  = PyStr.re_split_version a ++ PyStr.re_split_version b.
Proof.
intros Hc. induction a as [| x a IH]; simpl.
- now rewrite Hc.
- rewrite IH. destruct (PyStr.is_version_sep x); [reflexivity |].
  pose proof (re_split_version_nonempty a) as Hne.
  now destruct (PyStr.re_split_version a).
Qed.

Lemma empty_component_unparsable v :
  has_empty_component v -> version_tuple v = None.
Proof.
intros Hv. unfold version_tuple. apply mapM_int_None. exists "".
split; [| reflexivity].
destruct Hv as [-> | [(c & r & -> & Hc) | [(a & c & -> & Hc)
                                        | (a & c1 & c2 & b & -> & H1 & H2)]]].
- apply list_elem_of_here.
- simpl. rewrite Hc. apply list_elem_of_here.
- rewrite re_split_version_app by assumption. apply elem_of_app. right.
  apply list_elem_of_here.
- rewrite re_split_version_app by assumption. apply elem_of_app. right.
  simpl. rewrite H2. apply list_elem_of_here.
Qed.

Section VersionEdges.
Context {Index W : Type} `{Collaborators W} `{Updater Index W}.

(** X7: an installed version that is empty, starts or ends with a
    separator, or has two separators in a row (["1..2"], ["1.2-"]) has an
    empty component, which [int] rejects: for an index-sourced target
    found in the index, the iteration raises [ValueError], whatever the
    catalog version is, and no warning is written. *)
Theorem update_raises_on_empty_version_component (st : UpdateState Index W)
    (update : string) (modules : list BuildModule)
    (old_module index_info : BuildModule) (old_version : string) :
  build (session st) = Some modules ->
  get_module_from_build modules (Module_name update) = Some old_module ->
  url old_module = None ->
  version old_module = Some old_version ->
  get_module_object (index_for old_module) (Module_name update) = Some index_info ->
  has_empty_component old_version ->
  update_one update st = (Raise ValueError, consulted st (index_for old_module) []).
Proof.
intros Hb Hold Hurl Hv Hobj Hbad.
rewrite (update_one_index_sourced st update modules old_module Hb Hold Hurl).
unfold update_from_index. rewrite Hv, Hobj.
now rewrite (empty_component_unparsable _ Hbad).
Qed.

(** X8: a version with further components counts as newer than the
    version it extends, whatever the further components are (so "1.2" is
    older than "1.2.0"): with the shorter one installed the update is
    applied, with the longer one installed the catalog version is refused
    as a downgrade. *)
Theorem update_treats_extension_as_newer (st : UpdateState Index W)
    (update : string) (modules : list BuildModule)
    (old_module index_info : BuildModule) (old_version new_version : string)
    (short : list Z) (y : Z) (more : list Z) :
  build (session st) = Some modules ->
  get_module_from_build modules (Module_name update) = Some old_module ->
  url old_module = None ->
  version old_module = Some old_version ->
  get_module_object (index_for old_module) (Module_name update) = Some index_info ->
  version index_info = Some new_version ->
  let idx := index_for old_module in
  (version_tuple old_version = Some short ->
   version_tuple new_version = Some (short ++ y :: more) ->
   update_one update st
   = apply_update old_module index_info update (consulted st idx []))
  /\ (version_tuple old_version = Some (short ++ y :: more) ->
      version_tuple new_version = Some short ->
      update_one update st
      = (Return tt,
         consulted st idx
           [LogWarning ("The requested version of module '" +:+ name old_module
                          +:+ "' is older than current version ("
                          +:+ new_version +:+ " < " +:+ old_version +:+ ")."
                          +:+ " Skipping its update.")])).
Proof.
intros Hb Hold Hurl Hv Hobj Hnv idx.
assert (Hext : lex_lt short (short ++ y :: more)).
{ induction short as [| x short IH]; simpl; now constructor. }
apply lex_lt_list_gt in Hext. destruct Hext as (Hle & Hgt & Hne).
rewrite (update_one_index_sourced st update modules old_module Hb Hold Hurl).
fold idx. unfold update_from_index. fold idx in Hobj. rewrite Hv, Hobj, Hnv.
split; intros Ho Hn; rewrite Ho, Hn.
- rewrite bool_decide_eq_false_2 by assumption. now rewrite Hle.
- rewrite bool_decide_eq_false_2 by congruence. rewrite Hgt.
  unfold in_session, emit, modify, consulted. simpl. now rewrite app_nil_r.
Qed.

Lemma consulted_consulted (st : UpdateState Index W) i j ls ms :
  consulted (consulted st i ls) j ms = consulted st j (ls ++ ms).
Proof. unfold consulted. simpl. now rewrite app_assoc. Qed.

Lemma update_one_current (st : UpdateState Index W) update modules old_module :
  build (session st) = Some modules ->
  already_current modules update old_module ->
  update_one update st
  = (Return tt,
     consulted st (index_for old_module)
       [Stdout ("Module '" +:+ name old_module +:+ "' already up to date")]).
Proof.
intros Hb (Hold & Hurl & ov & info & nv & tuple & Hv & Hobj & Hnv & Ho & Hn).
rewrite (update_one_index_sourced st update modules old_module Hb Hold Hurl).
unfold update_from_index. rewrite Hv, Hobj, Ho, Hnv, Hn.
rewrite bool_decide_eq_true_2 by reflexivity.
unfold in_session, emit, modify, consulted. simpl. now rewrite app_nil_r.
Qed.

(** X9: when every target is index-sourced and already at the
    catalog version, and no update was pending, [update_command] leaves
    the build list, the update record and the list of updated modules as
    they were, prints one "already up to date" line per target and then
    "Modules are already up to date", saves, and returns exit code 0 with
    [changed] unset, so that nothing is committed. *)
Theorem update_of_current_modules_changes_nothing (st : UpdateState Index W)
    (to_update targets : list string) (modules : list BuildModule) :
  build (session st) = Some modules ->
  targets = match to_update with [] => map name modules | _ => to_update end ->
  (forall t, t ∈ targets -> exists old_module, already_current modules t old_module) ->
  new_deps (module_updates st) = [] ->
  changes_made (module_updates st) = false ->
  exists lines final,
    update_command to_update st
    = (Return (mkResult 0 false (updates_msg (module_updates st))
                 (updates_files (module_updates st))), final)
    /\ List.length lines = List.length targets
    /\ out (session final)
       = out (session st) ++ unknown_key_warnings (world (session st))
           ++ lines ++ [Stdout "Modules are already up to date"]
    /\ build (session final) = Some modules
    /\ module_updates final = module_updates st
    /\ updated final = updated st
    /\ commits (session final) = commits (session st)
    /\ world (session final) = config_save (Some modules) (world (session st)).
Proof.
intros Hb Htargets Hcurrent Hdeps Hchanged.
assert (Hloop : forall l (s : UpdateState Index W),
           build (session s) = Some modules ->
           (forall t, t ∈ l -> exists old_module, already_current modules t old_module) ->
           exists lines i,
             List.length lines = List.length l
             /\ (for_each update_one l s = (Return tt, consulted s i lines)
                 \/ (l = [] /\ for_each update_one l s = (Return tt, s)))).
{ induction l as [| t l IH]; intros s Hs Hl.
  - exists [], config_index. split; [reflexivity |]. right. now split.
  - destruct (Hl t (list_elem_of_here _ _)) as [old Hold].
    simpl for_each. unfold bind.
    rewrite (update_one_current s t modules old Hs Hold).
    destruct (IH (consulted s (index_for old)
                    [Stdout ("Module '" +:+ name old +:+ "' already up to date")]))
      as (lines & i & Hlen & Hrun).
    + exact Hs.
    + intros t' Ht'. apply Hl. now apply list_elem_of_further.
    + destruct Hrun as [Hrun | [-> Hrun]].
      * exists (Stdout ("Module '" +:+ name old +:+ "' already up to date") :: lines), i.
        split; [simpl; now rewrite Hlen |]. left.
        now rewrite Hrun, consulted_consulted.
      * exists [Stdout ("Module '" +:+ name old +:+ "' already up to date")],
          (index_for old).
        split; [reflexivity |]. left. exact Hrun. }
unfold update_command. unfold bind at 1.
change (in_session warn_about_unknown_keys st)
  with (Return tt, mkUpdateState (warned (session st)) (module_updates st)
                     (updated st) (last_index st)).
unfold bind at 1. unfold get. cbn [session build warned]. rewrite Hb.
rewrite <- Htargets. unfold bind at 1.
set (s0 := mkUpdateState (warned (session st)) (module_updates st) (updated st)
             (last_index st)).
destruct (Hloop targets s0 Hb Hcurrent) as (lines & i & Hlen & Hrun).
assert (Hafter : exists s1,
           for_each update_one targets s0 = (Return tt, s1)
           /\ module_updates s1 = module_updates st
           /\ updated s1 = updated st
           /\ session s1 = mkSession (Some modules) (non_interactive (session st))
                             (out (session st) ++ unknown_key_warnings (world (session st))
                                ++ lines)
                             (commits (session st)) (staged (session st))
                             (world (session st))).
{ destruct Hrun as [Hrun | [Hnil Hrun]].
  - eexists. split; [exact Hrun |]. repeat split.
    unfold consulted, s0, warned. simpl. rewrite Hb. now rewrite app_assoc.
  - exists s0. split; [exact Hrun |]. repeat split.
    rewrite Hnil in Hlen. destruct lines; [| discriminate].
    unfold s0, warned. simpl. now rewrite Hb, app_nil_r. }
destruct Hafter as (s1 & Hfor & Hmu & Hup & Hsess).
rewrite Hfor. destruct s1 as [sess1 mu1 up1 li1].
cbn [module_updates updated session] in Hmu, Hup, Hsess. subst sess1 mu1 up1.
exists lines. eexists. split.
{ unfold bind at 1. unfold get. cbn [module_updates]. rewrite Hdeps.
  unfold ret at 1. unfold bind at 1.
  unfold in_session at 1, save, bind, get, set_world, modify. cbn.
  rewrite Hchanged. cbn. rewrite Hchanged. reflexivity. }
split; [exact Hlen |]. cbn. rewrite <- !app_assoc.
repeat split; reflexivity.
Qed.

End VersionEdges.

(** ** Project initialisation: what counts as a version, early exits *)

Lemma skip_digits_stop d c r :
  forallb PyStr.is_digit d = true ->
  PyStr.is_digit c = false ->
  skip_digits (d ++ c :: r) = c :: r.
Proof.
intros Hd Hc. induction d as [| x d IH]; simpl.
- now rewrite Hc.
- simpl in Hd. apply andb_true_iff in Hd. destruct Hd as [Hx Hd].
  rewrite Hx. now apply IH.
Qed.

Lemma skip_digits_split l :
  exists d, forallb PyStr.is_digit d = true /\ l = d ++ skip_digits l.
Proof.
induction l as [| x l (d & Hd & Hl)]; simpl.
- now exists [].
- destruct (PyStr.is_digit x) eqn:Hx.
  + exists (x :: d). simpl. rewrite Hx, Hd. split; [reflexivity |]. now f_equal.
  + now exists [].
Qed.

Lemma digits1_split l r :
  digits1 l = Some r ->
  exists d, d <> [] /\ forallb PyStr.is_digit d = true /\ l = d ++ r.
Proof.
destruct l as [| x l]; [discriminate |]. simpl.
destruct (PyStr.is_digit x) eqn:Hx; [| discriminate].
intros [= <-]. destruct (skip_digits_split l) as (d & Hd & Hl).
exists (x :: d). simpl. rewrite Hx, Hd. repeat split; [discriminate |].
now f_equal.
Qed.

Lemma digits1_some d rest :
  d <> [] -> forallb PyStr.is_digit d = true -> is_Some (digits1 (d ++ rest)).
Proof.
intros Hne Hd. destruct d as [| x d]; [congruence |].
simpl in *. apply andb_true_iff in Hd. destruct Hd as [Hx _].
rewrite Hx. now eexists.
Qed.

Lemma digits1_stop d c r :
  d <> [] -> forallb PyStr.is_digit d = true -> PyStr.is_digit c = false ->
  digits1 (d ++ c :: r) = Some (c :: r).
Proof.
intros Hne Hd Hc. destruct d as [| x d]; [congruence |].
simpl in *. apply andb_true_iff in Hd. destruct Hd as [Hx Hd].
rewrite Hx. f_equal. now apply skip_digits_stop.
Qed.

Lemma dot_digits1_split l r :
  dot_digits1 l = Some r ->
  exists d, d <> [] /\ forallb PyStr.is_digit d = true /\ l = "."%char :: d ++ r.
Proof.
destruct l as [| c l]; [discriminate |]. simpl.
destruct (PyStr.code c =? 46)%nat eqn:Hc; [| discriminate].
intros Hd. apply digits1_split in Hd. destruct Hd as (d & Hne & Hd & ->).
exists d. repeat split; try assumption. f_equal.
apply Nat.eqb_eq in Hc. unfold PyStr.code in Hc.
rewrite <- (ascii_nat_embedding c), Hc. reflexivity.
Qed.

Lemma is_decimal_chars s :
  is_decimal s = true
  <-> list_ascii_of_string s <> []
      /\ forallb PyStr.is_digit (list_ascii_of_string s) = true.
Proof.
unfold is_decimal. rewrite andb_true_iff, negb_true_iff. split.
- intros [Hne Hd]. split; [| exact Hd].
  destruct s; [now rewrite bool_decide_eq_true_2 in Hne | discriminate].
- intros [Hne Hd]. split; [| exact Hd].
  destruct s; [now simpl in Hne | now apply bool_decide_eq_false_2].
Qed.

Lemma chars_inj a b :
  list_ascii_of_string a = list_ascii_of_string b -> a = b.
Proof.
intros E. rewrite <- (string_of_list_ascii_of_string a), E.
apply string_of_list_ascii_of_string.
Qed.

Section InitEdges.
Context {W : Type} `{Collaborators W} `{Initializer W}.

(** X10: [--masterfiles] counts as a version number exactly when it
    starts with three runs of decimal digits separated by dots, whatever
    follows them (so "3.18.0", "3.18.0-1" and "3.18.0rc1" do, "3.18" and
    "master" do not); for such a value [init_command] asks for
    ["masterfiles@<value>"] and never looks up a branch. *)
Theorem masterfiles_version_is_a_dotted_prefix (s : string) :
  (looks_like_version s = true
   <-> exists d1 d2 d3 rest,
         is_decimal d1 = true /\ is_decimal d2 = true /\ is_decimal d3 = true
         /\ s = d1 +:+ "." +:+ d2 +:+ "." +:+ d3 +:+ rest)
  /\ (looks_like_version s = true ->
      forall ni (st : Session W),
        init_masterfiles (Some s) ni st
        = add_command ["masterfiles@" +:+ s] "cfbs init"
            (mkSession (build st) (non_interactive st)
               (out st ++ [LogDebug ("--masterfiles=" +:+ s
                                       +:+ " appears to be a version number")])
               (commits st) (staged st) (world st))).
Proof.
split.
- unfold looks_like_version. split.
  + destruct (digits1 (list_ascii_of_string s)) as [r1 |] eqn:E1; [| discriminate].
    destruct (dot_digits1 r1) as [r2 |] eqn:E2; [| discriminate].
    destruct (dot_digits1 r2) as [r3 |] eqn:E3; [| discriminate].
    intros _.
    apply digits1_split in E1. destruct E1 as (d1 & N1 & D1 & E1).
    apply dot_digits1_split in E2. destruct E2 as (d2 & N2 & D2 & ->).
    apply dot_digits1_split in E3. destruct E3 as (d3 & N3 & D3 & ->).
    exists (string_of_list_ascii d1), (string_of_list_ascii d2),
      (string_of_list_ascii d3), (string_of_list_ascii r3).
    rewrite !is_decimal_chars, !list_ascii_of_string_of_list_ascii.
    repeat split; try assumption.
    apply chars_inj.
    rewrite E1, !chars_app, !list_ascii_of_string_of_list_ascii.
    reflexivity.
  + intros (d1 & d2 & d3 & rest & H1 & H2 & H3 & ->).
    apply is_decimal_chars in H1, H2, H3.
    destruct H1 as [N1 D1], H2 as [N2 D2], H3 as [N3 D3].
    rewrite !chars_app. simpl.
    rewrite digits1_stop by (assumption || reflexivity). simpl.
    rewrite digits1_stop by (assumption || reflexivity). simpl.
    destruct (digits1_some _ (list_ascii_of_string rest) N3 D3) as [r Hr].
    now rewrite Hr.
- intros Hv ni st. unfold init_masterfiles. rewrite Hv.
  unfold bind at 1. unfold bind at 1. unfold bind at 1. rewrite emit_run.
  reflexivity.
Qed.

(** X11: [init_command] ends early without writing anything in two
    cases.  In a directory that is already a project it raises
    [CFBSUserError] and the session is untouched.  With [--git=yes] and no
    [git] binary it returns 1 after the two questions on the name and the
    description: no manifest is written, no repository is initialised and
    no commit is made. *)
Theorem init_ends_early_without_writing (idx masterfiles : option string)
    (ni : bool) (st : Session W) :
  (is_cfbs_repo (world st) = true ->
   init_command idx masterfiles ni st
   = (Raise (CFBSUserError ("Already initialized - look at " +:+ cfbs_filename)), st))
  /\ (is_cfbs_repo (world st) = false ->
      args_git = Some "yes" ->
      let asked_name :=
        prompt_user ni "Please enter the name of this CFEngine Build project" []
          "Example project" (world st) in
      let asked_description :=
        prompt_user ni "Please enter the description of this CFEngine Build project"
          [] "Example description" (snd asked_name) in
      git_exists (snd asked_description) = false ->
      init_command idx masterfiles ni st
      = (Return 1,
         mkSession (build st) (non_interactive st)
           (out st ++ [Stdout "Command 'git' was not found"])
           (commits st) (staged st) (snd asked_description))).
Proof.
split.
- intros Hrepo. unfold init_command, init_prepare.
  unfold bind at 1. unfold bind at 1. unfold get. now rewrite Hrepo.
- intros Hrepo Hgit asked_name asked_description Hmissing.
  unfold init_command, init_prepare.
  unfold bind at 1. unfold bind at 1. unfold get. rewrite Hrepo.
  unfold bind at 1. rewrite ask_run. fold asked_name.
  unfold bind at 1. rewrite ask_run.
  change (world (in_world st (snd asked_name))) with (snd asked_name).
  fold asked_description.
  unfold bind at 1. unfold get. rewrite Hgit.
  rewrite bool_decide_eq_true_2 by (apply list_elem_of_here).
  unfold bind at 1. unfold ret at 1. unfold bind at 1.
  rewrite bool_decide_eq_true_2 by reflexivity.
  unfold init_git. unfold bind at 1. unfold get.
  change (world (in_world ?s ?w)) with w. rewrite Hmissing.
  change (negb false) with true. cbv iota.
  unfold bind at 1. rewrite emit_run. reflexivity.
Qed.

(** X12: with [--git=no], [init_command] writes the manifest with
    ["git": false] and goes on to the choice of the policy set without
    calling git at all: no commit is attempted or recorded. *)
Theorem init_without_git_makes_no_commit (idx masterfiles : option string)
    (ni : bool) (st : Session W) :
  is_cfbs_repo (world st) = false ->
  args_git = Some "no" ->
  let asked_name :=
    prompt_user ni "Please enter the name of this CFEngine Build project" []
      "Example project" (world st) in
  let asked_description :=
    prompt_user ni "Please enter the description of this CFEngine Build project"
      [] "Example description" (snd asked_name) in
  let config := mkManifest (fst asked_name) "policy-set" (fst asked_description) []
                  (truthy idx) false in
  let written := write_file cfbs_filename (pretty config +:+ newline)
                   (snd asked_description) in
  is_cfbs_repo written = true ->
  init_command idx masterfiles ni st
  = (reload ;;; init_masterfiles masterfiles ni)
      (mkSession (build st) (non_interactive st)
         (out st ++ [Stdout ("Initialized an empty project called '" +:+ fst asked_name
                               +:+ "' in '" +:+ cfbs_filename +:+ "'")])
         (commits st) (staged st) written).
Proof.
intros Hrepo Hgit asked_name asked_description config written Hwritten.
unfold init_command, init_prepare.
unfold bind at 1. unfold bind at 1. unfold get. rewrite Hrepo.
unfold bind at 1. rewrite ask_run. fold asked_name.
unfold bind at 1. rewrite ask_run.
change (world (in_world st (snd asked_name))) with (snd asked_name).
fold asked_description.
unfold bind at 1. unfold get. rewrite Hgit.
rewrite bool_decide_eq_true_2
  by (apply list_elem_of_further, list_elem_of_here).
unfold bind at 1. unfold ret at 1. unfold bind at 1.
rewrite bool_decide_eq_false_2 by discriminate.
unfold ret at 1. unfold ret at 1. fold config.
unfold init_finish. unfold bind at 1. unfold write_and_commit.
unfold bind at 1.
change (effect (write_file cfbs_filename (pretty config +:+ newline)) ?s)
  with (Return tt, in_world s written).
unfold bind at 1. unfold get. change (world (in_world ?s ?w)) with w.
rewrite Hwritten. change (negb true) with false. cbv iota.
change (manifest_git config) with false. cbv iota. unfold ret at 1.
unfold bind at 1. rewrite emit_run. reflexivity.
Qed.

End InitEdges.

(** ** Install *)

Section InstallFacts.
Context {W : Type} `{Collaborators W} `{Fetcher W} `{Builder W}.

Lemma prefixed_destination d :
  let destination :=
    if negb (PyStr.startswith d "/") && negb (PyStr.startswith d "./")
    then "./" +:+ d else d in
  PyStr.startswith destination "/" = true \/ PyStr.startswith destination "./" = true.
Proof.
simpl. destruct (PyStr.startswith d "/") eqn:Hroot; [now left |].
destruct (PyStr.startswith d "./") eqn:Hdot; [now right |].
right. simpl. unfold PyStr.startswith. simpl.
now destruct d.
Qed.

(** X13: whenever [install_command] returns 0 it has copied
    [out/masterfiles] to one destination, announced on the last line, and
    that destination starts with "/" or "./" whatever the argument, the
    user and [HOME] are: a bare relative name is never handed to [rm] and
    [cp]. *)
Theorem install_destination_is_anchored (args : list string)
    (st st' : Session W) :
  install_command args st = (Return 0, st') ->
  exists d earlier lines,
    (PyStr.startswith d "/" = true \/ PyStr.startswith d "./" = true)
    /\ staged st' = earlier ++ [Copy "out/masterfiles" d]
    /\ out st' = lines ++ [Stdout ("Installed to " +:+ d)].
Proof.
unfold install_command.
destruct (1 <? List.length args)%nat; [discriminate |].
intros Hrun.
apply bind_inv in Hrun. destruct Hrun as (s0 & s0' & Hget & Hrun).
injection Hget as <- <-.
apply bind_inv in Hrun. destruct Hrun as (built & s1 & _ & Hrun).
destruct (negb (built =? 0)%Z) eqn:Hbuilt.
{ injection Hrun as -> _. discriminate. }
apply bind_inv in Hrun. destruct Hrun as (s2 & s2' & Hget & Hrun).
injection Hget as <- <-.
destruct (install_destination args (world s1)) as [d |]; [| discriminate].
pose proof (prefixed_destination d) as Hd. cbv zeta in Hd.
set (destination := if negb (PyStr.startswith d "/") && negb (PyStr.startswith d "./")
                    then "./" +:+ d else d) in *.
apply bind_inv in Hrun. destruct Hrun as (? & s3 & Hrm & Hrun).
apply bind_inv in Hrun. destruct Hrun as (? & s4 & Hlog & Hrun).
injection Hlog as _ <-.
apply bind_inv in Hrun. destruct Hrun as (? & s5 & Hcp & Hrun).
apply bind_inv in Hrun. destruct Hrun as (? & s6 & Hemit & Hrun).
injection Hemit as _ <-. injection Hrun as <-.
assert (Kcp : kept (W := W) staged (call (cp "out/masterfiles" destination))) by kept.
apply Kcp in Hcp. simpl in Hcp.
exists destination, (staged s3), (out s5).
split; [exact Hd |]. split; [exact Hcp | reflexivity].
Qed.

(** X14: when [out/masterfiles] is missing, [install_command]
    builds first, and a build that returns a code other than 0 ends the
    command with that code in the session the build left: the destination
    is neither removed nor written. *)
Theorem install_stops_on_failed_build (args : list string)
    (st st1 : Session W) (r : Z) :
  (List.length args <= 1)%nat ->
  os_path_exists "out/masterfiles" (world st) = false ->
  build_command false st = (Return r, st1) ->
  r <> 0 ->
  install_command args st = (Return r, st1).
Proof.
intros Hargs Hmissing Hbuild Hr. unfold install_command.
rewrite (proj2 (Nat.ltb_ge 1 (List.length args))) by lia.
unfold bind at 1. unfold get. unfold bind at 1. rewrite Hmissing.
change (negb false) with true. cbv iota. rewrite Hbuild.
rewrite (proj2 (Z.eqb_neq r 0)) by assumption. reflexivity.
Qed.

End InstallFacts.

(** ** Pretty *)

Section PrettyFacts.
Context {W Rules : Type} `{Collaborators W} `{Prettifier W Rules}.

(** X15: in check mode over file names that all end in [.json] and
    files that can all be read, [pretty_command] prints "Would reformat
    <f>" for each file that is not formatted, in order, then the count,
    and returns 1 if there is such a file and 0 otherwise; nothing but the
    printed lines changes, no file is rewritten. *)
Theorem pretty_check_counts_unformatted_files (filenames : list string)
    (keep_order : bool) (st : Session W) (formatted : string -> bool) :
  filenames <> [] ->
  let sorting_rules := if keep_order then Some CFBS_DEFAULT_SORTING_RULES else None in
  (forall f, f ∈ filenames ->
             f <> "" /\ PyStr.endswith f ".json" = true
             /\ pretty_check_file f sorting_rules (world st) = FileOk (formatted f)) ->
  let unformatted := List.filter (fun f => negb (formatted f)) filenames in
  pretty_command filenames true keep_order st
  = (Return (if (0 <? List.length unformatted)%nat then 1 else 0),
     mkSession (build st) (non_interactive st)
       (out st ++ map (fun f => Stdout ("Would reformat " +:+ f)) unformatted
          ++ [Stdout ("Would reformat " +:+ PyStr.str_of_nat (List.length unformatted)
                        +:+ " file(s)")])
       (commits st) (staged st) (world st)).
Proof.
intros Hne sorting_rules Hfiles unformatted.
assert (Hloop : forall l n (s : Session W),
           world s = world st ->
           (forall f, f ∈ l -> f ∈ filenames) ->
           pretty_loop true sorting_rules n l s
           = (Return (n + List.length (List.filter (fun f => negb (formatted f)) l))%nat,
              mkSession (build s) (non_interactive s)
                (out s ++ map (fun f => Stdout ("Would reformat " +:+ f))
                            (List.filter (fun f => negb (formatted f)) l))
                (commits s) (staged s) (world s))).
{ induction l as [| f l IH]; intros n s Hw Hl;
    destruct s as [b ni o c sg w]; cbn [world] in Hw; subst w.
  - simpl. unfold ret. now rewrite Nat.add_0_r, app_nil_r.
  - destruct (Hfiles f (Hl f (list_elem_of_here _ _))) as (Hf & Hjson & Hcheck).
    assert (Hl' : forall g, g ∈ l -> g ∈ filenames)
      by (intros g Hg; now apply Hl, list_elem_of_further).
    simpl pretty_loop. unfold bind at 1. unfold pretty_one.
    rewrite bool_decide_eq_false_2 by assumption. rewrite Hjson.
    change (false || negb true) with false. cbv iota.
    unfold bind at 1. unfold call. cbn [world]. rewrite Hcheck. simpl handled.
    cbv beta iota. simpl List.filter.
    destruct (formatted f).
    + change (negb true) with false. cbv iota. unfold ret at 1.
      cbn [build non_interactive out commits staged world].
      now rewrite (IH n (mkSession b ni o c sg (world st)) eq_refl Hl').
    + change (negb false) with true. cbv iota.
      unfold bind at 1. rewrite emit_run. unfold ret at 1.
      cbn [build non_interactive out commits staged world].
      rewrite (IH (n + 1)%nat
                 (mkSession b ni (o ++ [Stdout ("Would reformat " +:+ f)]) c sg
                    (world st)) eq_refl Hl'). cbn.
      rewrite <- app_assoc. simpl. do 2 f_equal. lia. }
unfold pretty_command. destruct filenames as [| f0 fs] eqn:Hfs; [congruence |].
rewrite <- Hfs in *. fold sorting_rules. unfold bind at 1.
rewrite Hloop by auto. simpl Nat.add.
unfold bind at 1. rewrite emit_run. unfold ret.
cbn [build non_interactive out commits staged world].
unfold unformatted. rewrite Hfs. now rewrite <- app_assoc.
Qed.

Lemma pretty_loop_app check rules pre :
  forall n rest (st : Session W),
    pretty_loop check rules n (pre ++ rest) st
    = match pretty_loop check rules n pre st with
      | (Return n', st') => pretty_loop check rules n' rest st'
      | (Raise e, st') => (Raise e, st')
      end.
Proof.
induction pre as [| f pre IH]; intros n rest st; [reflexivity |].
simpl. unfold bind.
destruct (pretty_one check rules n f st) as [[n' | e] s]; [apply IH | reflexivity].
Qed.

(** X16: file names are checked one at a time, as the loop reaches
    them: a name that is empty or does not end in [.json] raises
    [CFBSExitError] naming its base name, in the session left by the files
    before it, which have already been checked or rewritten; the files
    after it are not touched. *)
Theorem pretty_rejects_a_name_when_it_reaches_it (pre rest : list string)
    (bad : string) (check keep_order : bool) (st st1 : Session W) (n : nat) :
  let sorting_rules := if keep_order then Some CFBS_DEFAULT_SORTING_RULES else None in
  pretty_loop check sorting_rules 0 pre st = (Return n, st1) ->
  bad = "" \/ PyStr.endswith bad ".json" = false ->
  pretty_command (pre ++ bad :: rest) check keep_order st
  = (Raise (CFBSExitError
              ("cfbs pretty command can only be used with .json files, not '"
                 +:+ os_path_basename bad +:+ "'")), st1).
Proof.
intros sorting_rules Hpre Hbad. unfold pretty_command.
destruct (pre ++ bad :: rest) as [| f0 fs] eqn:Hfs.
{ now destruct pre. }
rewrite <- Hfs. fold sorting_rules. unfold bind at 1.
rewrite pretty_loop_app, Hpre. simpl pretty_loop. unfold bind at 1.
unfold pretty_one.
replace (bool_decide (bad = "") || negb (PyStr.endswith bad ".json")) with true.
- reflexivity.
- destruct Hbad as [-> | ->]; [reflexivity | now rewrite orb_true_r].
Qed.

End PrettyFacts.

(** ** Validate *)

Section ValidateFacts.
Context {W : Type} `{Collaborators W} `{Initializer W} `{Builder W} `{Validator W}.

(** X17: with paths given, the exit code of [validate_command] is 0
    or 1, whatever codes the validations return, and a failed validation
    does not stop the loop; with no path, in a project, it is the code of
    [validate_config] as it is. *)
Theorem validate_exit_code_is_normalised (paths : list string)
    (index_arg : option string) (st st' : Session W) (r : Z) :
  (paths <> [] ->
   validate_command paths index_arg st = (Return r, st') ->
   r = 0 \/ r = 1)
  /\ (is_cfbs_repo (world st) = true ->
      validate_command [] index_arg st = validate_config st).
Proof.
split.
- intros Hne.
  assert (Hloop : forall l ret (s s' : Session W) r',
             ret = 0 \/ ret = 1 ->
             validate_loop index_arg ret l s = (Return r', s') ->
             r' = 0 \/ r' = 1).
  { induction l as [| p l IH]; intros ret s s' r' Hret.
    - now intros [= <- _].
    - simpl. intros Hrun.
      apply bind_inv in Hrun. destruct Hrun as (ret' & s1 & Hone & Hrest).
      apply (IH ret' s1 s' r'); [| exact Hrest].
      revert Hone. unfold validate_one. unfold bind at 1. unfold get.
      repeat match goal with
             | |- context [if ?b then raise _ else _] =>
                 destruct b; [discriminate |]
             end.
      intros Hone.
      apply bind_inv in Hone. destruct Hone as (code & s2 & _ & Hone).
      destruct (negb (code =? 0)%Z).
      + unfold bind in Hone. rewrite emit_run in Hone. injection Hone as <- _.
        now right.
      + unfold bind in Hone. rewrite emit_run in Hone. injection Hone as <- _.
        exact Hret. }
  unfold validate_command. destruct paths as [| p ps]; [congruence |].
  apply Hloop. now left.
- intros Hrepo. unfold validate_command, bind, get. now rewrite Hrepo.
Qed.

End ValidateFacts.

(** ** The comparison of input data with its specification *)

Lemma compare_value_list a b :
  compare_value (JList a) (JList b) = _compare_list a b.
Proof.
unfold _compare_list. revert b.
induction a as [| x a IH]; intros [| y b]; try reflexivity.
change (compare_value (JList (x :: a)) (JList (y :: b)))
  with (compare_value x y && compare_value (JList a) (JList b)).
rewrite IH. simpl.
now destruct (compare_value x y), (List.length a =? List.length b)%nat.
Qed.

Lemma same_key_set_spec a b :
  same_key_set a b = true <-> (forall k, k ∈ a <-> k ∈ b).
Proof.
unfold same_key_set. rewrite andb_true_iff, !forallb_forall. split.
- intros [Hab Hba] k. split; intros Hk.
  + apply list_elem_of_In, Hab in Hk. now apply bool_decide_eq_true in Hk.
  + apply list_elem_of_In, Hba in Hk. now apply bool_decide_eq_true in Hk.
- intros Heq. split; intros k Hk; apply bool_decide_eq_true, Heq;
    now apply list_elem_of_In.
Qed.

Lemma same_key_set_refl a : same_key_set a a = true.
Proof. now apply same_key_set_spec. Qed.

Lemma compare_mapped_lists (f g : string -> JSON) keys :
  _compare_list (map f keys) (map g keys)
  = forallb (fun k => compare_value (f k) (g k)) keys.
Proof.
unfold _compare_list. rewrite !length_map, Nat.eqb_refl. simpl.
induction keys as [| k keys IH]; [reflexivity |]. simpl. now rewrite IH.
Qed.

Lemma forallb_over_map {A B} (f : B -> bool) (g : A -> B) l :
  forallb f (map g l) = forallb (fun x => f (g x)) l.
Proof. induction l as [| x l IH]; [reflexivity |]. simpl. now rewrite IH. Qed.

Lemma json_get_head k v d : json_get k ((k, v) :: d) = Some v.
Proof. unfold json_get. simpl. now rewrite bool_decide_eq_true_2. Qed.

Lemma json_get_skip k k' v d : k' <> k -> json_get k ((k', v) :: d) = json_get k d.
Proof. intros Hk. unfold json_get. simpl. now rewrite bool_decide_eq_false_2. Qed.

Lemma json_get_elem k d : k ∈ map fst d -> is_Some (json_get k d).
Proof.
induction d as [| [k' v] d IH]; simpl; intros Hk.
- now apply elem_of_nil in Hk.
- destruct (decide (k' = k)) as [-> | Hne].
  + rewrite json_get_head. now eexists.
  + rewrite json_get_skip by assumption. apply IH.
    apply elem_of_cons in Hk. destruct Hk as [-> | Hk]; [congruence | assumption].
Qed.

Lemma filter_ignore_nothing (l : list string) :
  List.filter (fun k => negb (bool_decide (k ∈ @nil string))) l = l.
Proof. induction l as [| k l IH]; [reflexivity |]. simpl. f_equal. exact IH. Qed.

Lemma json_get_own k v d :
  NoDup (map fst d) -> (k, v) ∈ d -> json_get k d = Some v.
Proof.
induction d as [| [k' v'] d IH]; simpl; intros Hnodup Hin.
- now apply elem_of_nil in Hin.
- apply NoDup_cons in Hnodup. destruct Hnodup as [Hnot Hnodup].
  apply elem_of_cons in Hin. destruct Hin as [[= -> ->] | Hin].
  + apply json_get_head.
  + rewrite json_get_skip; [now apply IH |].
    intros ->. apply Hnot. apply list_elem_of_fmap. now exists (k, v).
Qed.

Lemma forallb_ext_in {A} (f g : A -> bool) l :
  (forall x, x ∈ l -> f x = g x) -> forallb f l = forallb g l.
Proof.
induction l as [| x l IH]; intros Hfg; [reflexivity |]. simpl.
rewrite (Hfg x) by left. rewrite IH; [reflexivity |].
intros y Hy. apply Hfg. now right.
Qed.

(** The comparison of two nested objects is [_compare_dict] without
    ignored keys, as in the source, when the keys of the first are
    distinct. *)
Lemma compare_value_dict a b :
  NoDup (map fst a) ->
  compare_value (JDict a) (JDict b) = _compare_dict a b [].
Proof.
intros Hnodup. unfold _compare_dict. rewrite compare_mapped_lists.
rewrite filter_ignore_nothing. simpl.
destruct (same_key_set (map fst a) (map fst b)) eqn:Hkeys; [| reflexivity].
simpl. rewrite forallb_over_map.
assert (Hown : forall es pre, a = (pre ++ es)%list ->
           (fix entries (es : list (string * JSON)) : bool :=
              match es with
              | [] => true
              | (k, v) :: r =>
                  match json_get k b with
                  | Some w => compare_value v w && entries r
                  | None => false
                  end
              end) es
           = forallb (fun kv => compare_value (default JNull (json_get (fst kv) a))
                                  (default JNull (json_get (fst kv) b))) es).
{ induction es as [| [k v] es IH]; intros pre Ha; [reflexivity |].
  assert (Hk : json_get k a = Some v).
  { apply json_get_own; [assumption |]. subst a. apply elem_of_app. right. left. }
  assert (Hb : is_Some (json_get k b)).
  { apply json_get_elem. apply same_key_set_spec with (k := k) in Hkeys.
    apply Hkeys. subst a. rewrite map_app. apply elem_of_app. right. left. }
  destruct Hb as [w Hw]. simpl forallb. rewrite Hk, Hw. simpl.
  f_equal. apply (IH (pre ++ [(k, v)])%list). now rewrite <- app_assoc. }
now apply (Hown a []).
Qed.

Lemma float_eq_refl f : float_eq f f = nan_free (JFloat f).
Proof.
destruct f as [| b | b | m e]; simpl; try reflexivity.
- now destruct b.
- now rewrite !Z.eqb_refl.
Qed.

Lemma compare_value_self x :
  distinct_keys x = true -> compare_value x x = nan_free x.
Proof.
induction x as [| b | z | f | s | l IH | d IH] using JSON_ind; intros Hkeys.
- reflexivity.
- now destruct b.
- apply Z.eqb_refl.
- apply float_eq_refl.
- simpl. now rewrite bool_decide_eq_true_2.
- rewrite compare_value_list. unfold _compare_list. rewrite Nat.eqb_refl.
  simpl in *. induction IH as [| y l Hy _ IHl]; [reflexivity |].
  simpl in *. apply andb_true_iff in Hkeys. destruct Hkeys as [Hy' Hl].
  now rewrite (Hy Hy'), (IHl Hl).
- simpl in Hkeys. apply andb_true_iff in Hkeys. destruct Hkeys as [Hnodup Hvalues].
  apply bool_decide_eq_true in Hnodup.
  rewrite compare_value_dict by assumption. unfold _compare_dict.
  rewrite compare_mapped_lists, forallb_over_map, filter_ignore_nothing.
  rewrite same_key_set_refl. simpl. apply forallb_ext_in. intros [k v] Hin. simpl.
  rewrite (json_get_own k v d Hnodup Hin). simpl.
  rewrite Forall_forall in IH. apply (IH (k, v) Hin).
  rewrite forallb_forall in Hvalues. apply (Hvalues (k, v)).
  now apply list_elem_of_In.
Qed.

(** X18: [_compare_list] of a list with itself (objects having
    distinct keys, as parsed ones have) succeeds exactly when no
    not-a-number occurs anywhere in it, at any depth: a value holding NaN
    differs from itself. *)
Theorem compare_list_with_itself (a : list JSON) :
  forallb distinct_keys a = true ->
  _compare_list a a = forallb nan_free a.
Proof.
intros Hkeys. rewrite <- compare_value_list. now apply (compare_value_self (JList a)).
Qed.

Lemma json_get_without k k' r pre post :
  k <> k' ->
  json_get k (pre ++ (k', r) :: post) = json_get k (pre ++ post).
Proof.
intros Hk. induction pre as [| [k0 v0] pre IH]; simpl.
- now apply json_get_skip.
- destruct (decide (k0 = k)) as [-> | Hne].
  + now rewrite !json_get_head.
  + now rewrite !json_get_skip by assumption.
Qed.

Lemma filter_keys_without (ignore : list string) k' (r : JSON) pre post :
  k' ∈ ignore ->
  List.filter (fun k => negb (bool_decide (k ∈ ignore)))
    (map fst (pre ++ (k', r) :: post))
  = List.filter (fun k => negb (bool_decide (k ∈ ignore))) (map fst (pre ++ post)).
Proof.
intros Hk. rewrite !map_app, !List.filter_app. f_equal. simpl.
now rewrite bool_decide_eq_true_2.
Qed.

Lemma elem_of_filter_ignore (ignore l : list string) k :
  k ∈ List.filter (fun k => negb (bool_decide (k ∈ ignore))) l
  <-> k ∈ l /\ k ∉ ignore.
Proof.
rewrite list_elem_of_In, filter_In, <- list_elem_of_In.
now rewrite negb_true_iff, bool_decide_eq_false.
Qed.

Lemma same_key_set_filtered a l (ignore : list string) k :
  same_key_set a (List.filter (fun k => negb (bool_decide (k ∈ ignore))) l) = true ->
  k ∈ a -> k ∈ l /\ k ∉ ignore.
Proof.
intros Hkeys Hk. apply same_key_set_spec with (k := k) in Hkeys.
apply Hkeys in Hk. now apply elem_of_filter_ignore in Hk.
Qed.

(** X19: the value under ["response"] in a data entry is never
    looked at: the comparison with the specification entry is the same as
    without it, whatever the response is; and a specification entry that
    has a ["response"] key of its own matches no data entry. *)
Theorem response_is_never_compared (a pre post : list (string * JSON)) (r : JSON) :
  _compare_dict a (pre ++ ("response", r) :: post) ["response"]
  = _compare_dict a (pre ++ post) ["response"]
  /\ ("response" ∈ map fst a ->
      forall b, _compare_dict a b ["response"] = false).
Proof.
split.
- unfold _compare_dict.
  rewrite filter_keys_without by left.
  destruct (same_key_set _ _) eqn:Hkeys; [| reflexivity]. simpl.
  rewrite !compare_mapped_lists. apply forallb_ext_in. intros k Hk.
  rewrite json_get_without; [reflexivity |].
  intros ->. apply (same_key_set_filtered _ _ _ _ Hkeys) in Hk.
  destruct Hk as [_ Hk]. apply Hk. left.
- intros Hresp b. unfold _compare_dict.
  destruct (same_key_set _ _) eqn:Hkeys; [| reflexivity].
  apply (same_key_set_filtered _ _ _ _ Hkeys) in Hresp.
  destruct Hresp as [_ Hresp]. exfalso. apply Hresp. left.
Qed.

Lemma combine_take {A B} (l : list A) (m : list B) :
  combine l m
  = combine (take (Nat.min (List.length l) (List.length m)) l)
            (take (Nat.min (List.length l) (List.length m)) m).
Proof.
revert m. induction l as [| x l IH]; intros [| y m]; try reflexivity.
simpl. f_equal. apply IH.
Qed.

(** X20: [zip] stops at the shorter list, so only the first
    [min(len(spec), len(data))] entries of the two are compared: missing
    and surplus entries of the data go unnoticed, and an empty list of data
    conforms with every specification. *)
Theorem conformance_stops_at_the_shorter_list (spec data : list JSON) :
  let n := Nat.min (List.length spec) (List.length data) in
  input_conforms spec data = input_conforms (take n spec) (take n data)
  /\ input_conforms spec [] = true
  /\ input_conforms [] data = true.
Proof.
intros n. unfold input_conforms. split; [| split].
- unfold n. now rewrite <- combine_take.
- now destruct spec.
- reflexivity.
Qed.

(** X21: [_compare_dict(a, b, ignore)] succeeds exactly when the
    keys of [a] are the keys of [b] that are not ignored (no key missing,
    none added) and the values of [a] and [b] under each key of [a] have
    the same type and are equal by the item comparison of
    [_compare_list]. *)
Theorem compare_dict_accepts_same_keys_and_values (a b : list (string * JSON))
    (ignore : list string) :
  _compare_dict a b ignore = true
  <-> (forall k, k ∈ map fst a <-> (k ∈ map fst b /\ k ∉ ignore))
      /\ (forall k, k ∈ map fst a ->
                    compare_value (default JNull (json_get k a))
                      (default JNull (json_get k b)) = true).
Proof.
unfold _compare_dict. rewrite andb_true_iff, compare_mapped_lists.
rewrite same_key_set_spec, forallb_forall.
split; intros [Hkeys Hvalues]; split.
- intros k. now rewrite (Hkeys k), elem_of_filter_ignore.
- intros k Hk. apply Hvalues. now apply list_elem_of_In.
- intros k. now rewrite (Hkeys k), elem_of_filter_ignore.
- intros k Hk. apply Hvalues. now apply list_elem_of_In.
Qed.

(** ** Search *)

Lemma dict_get_set_same {V} k (f : option V -> V) d :
  dict_get k (dict_set k f d) = Some (f (dict_get k d)).
Proof.
induction d as [| [k' v] d IH]; simpl.
- unfold dict_get. simpl. now rewrite bool_decide_eq_true_2.
- case_bool_decide as Hk.
  + subst k'. unfold dict_get. simpl. now rewrite !bool_decide_eq_true_2.
  + unfold dict_get in *. simpl. now rewrite !bool_decide_eq_false_2.
Qed.

Lemma dict_get_set_other {V} k k' (f : option V -> V) d :
  k <> k' -> dict_get k (dict_set k' f d) = dict_get k d.
Proof.
intros Hne. induction d as [| [k0 v] d IH]; simpl.
- unfold dict_get. simpl. rewrite bool_decide_eq_false_2; [reflexivity | congruence].
- case_bool_decide as Hk.
  + subst k0. unfold dict_get. simpl.
    rewrite !bool_decide_eq_false_2 by congruence. reflexivity.
  + unfold dict_get in *. simpl. case_bool_decide; [reflexivity | exact IH].
Qed.

Lemma dict_get_elem {V} k (v : V) d : dict_get k d = Some v -> (k, v) ∈ d.
Proof.
induction d as [| [k' v'] d IH]; unfold dict_get in *; simpl; [discriminate |].
case_bool_decide as Hk.
- simpl in Hk. subst k'. intros [= ->]. left.
- intros Hget. right. now apply IH.
Qed.

Lemma dict_set_fresh {V} k (f : option V -> V) d :
  k ∉ map fst d -> dict_set k f d = d ++ [(k, f None)].
Proof.
induction d as [| [k' v] d IH]; simpl; intros Hk; [reflexivity |].
rewrite bool_decide_eq_false_2.
- rewrite IH; [reflexivity |]. intros Hin. apply Hk. now right.
- intros ->. apply Hk. left.
Qed.

Lemma dict_set_Forall {V} (P : V -> Prop) k (f : option V -> V) d :
  Forall (fun kv => P (snd kv)) d ->
  P (f None) ->
  (forall v, P v -> P (f (Some v))) ->
  Forall (fun kv => P (snd kv)) (dict_set k f d).
Proof.
intros Hd Hnone Hsome. induction Hd as [| [k' v] d Hv Hd IH]; simpl.
- now repeat constructor.
- case_bool_decide; constructor; simpl; auto.
Qed.

(** Every result has its list of aliases. *)
Lemma gather_one_aliases results name data results' :
  Forall (fun kv => is_Some (result_aliases (snd kv))) results ->
  gather_one results name data = Return results' ->
  Forall (fun kv => is_Some (result_aliases (snd kv))) results'.
Proof.
intros Hres. unfold gather_one.
destruct (data_alias data) as [realname |].
- intros [= <-]. apply (dict_set_Forall (fun v => is_Some (result_aliases v))); simpl; eauto.
- destruct (data_description data) as [description |]; [| discriminate].
  intros [= <-]. apply (dict_set_Forall (fun v => is_Some (result_aliases v))); simpl; eauto.
Qed.

Lemma gather_aliases index :
  forall results results',
    Forall (fun kv => is_Some (result_aliases (snd kv))) results ->
    gather index results = Return results' ->
    Forall (fun kv => is_Some (result_aliases (snd kv))) results'.
Proof.
induction index as [| [name data] index IH]; simpl; intros results results' Hres.
- now intros [= <-].
- destruct (gather_one results name data) as [r1 | e] eqn:Hone; [| discriminate].
  apply IH. now apply (gather_one_aliases results name data).
Qed.

(** The gathering completes exactly when every entry that is not an
    alias has a description. *)
Lemma gather_completes index :
  (forall name data, (name, data) ∈ index ->
                     data_alias data = None -> is_Some (data_description data)) ->
  forall results, exists results', gather index results = Return results'.
Proof.
induction index as [| [name data] index IH]; simpl; intros Hdesc results.
- now eexists.
- assert (Hone : exists r1, gather_one results name data = Return r1).
  { unfold gather_one. destruct (data_alias data) as [realname |] eqn:Halias.
    - now eexists.
    - destruct (Hdesc name data (list_elem_of_here _ _) Halias) as [d Hd].
      rewrite Hd. now eexists. }
  destruct Hone as [r1 ->]. apply IH.
  intros n d Hin Hal. apply (Hdesc n d); [now right | assumption].
Qed.

Lemma empty_terms_match_nothing terms name data :
  Forall (fun t => t = "") terms ->
  is_Some (result_aliases data) ->
  search_matches terms name data = Return false.
Proof.
intros Hterms [aliases Haliases].
assert (Hnone : forall (p : string -> bool),
           existsb truthy_str (List.filter p terms) = false).
{ intros p. induction Hterms as [| t terms -> _ IH]; [reflexivity |].
  simpl. destruct (p ""); [simpl |]; exact IH. }
unfold search_matches. rewrite Hnone, Haliases, Hnone. now destruct terms.
Qed.

(** X22: a term that is the empty string matches nothing, although
    it is a substring of every name: when every term is empty (and there
    is one), nothing is printed and the exit code is 1, as long as the
    index can be gathered, that is every entry that is not an alias has
    a description. *)
Theorem search_for_empty_terms_finds_nothing (index : list (string * IndexData))
    (terms : list string) :
  terms <> [] ->
  Forall (fun t => t = "") terms ->
  (forall name data, (name, data) ∈ index ->
                     data_alias data = None -> is_Some (data_description data)) ->
  search_command index terms = (Return 1, "").
Proof.
intros Hne Hterms Hdesc. unfold search_command.
destruct (gather_completes index Hdesc []) as [results Hgather]. rewrite Hgather.
assert (Hal : Forall (fun kv => is_Some (result_aliases (snd kv))) results)
  by (apply (gather_aliases index [] results); [constructor | assumption]).
assert (Hfilter : forall filtered, search_filter terms results filtered = Return filtered).
{ clear Hgather. induction Hal as [| [name data] results Hdata _ IH]; intros filtered;
    [reflexivity |].
  simpl. rewrite empty_terms_match_nothing by assumption. apply IH. }
destruct terms as [| t terms]; [congruence |].
now rewrite Hfilter.
Qed.

Lemma gather_raises_key_error index :
  forall results e, gather index results = Raise e -> e = KeyError.
Proof.
induction index as [| [n d] index IH]; simpl; intros results e; [discriminate |].
destruct (gather_one results n d) as [r1 | e1] eqn:Hone.
- apply IH.
- intros [= <-]. revert Hone. unfold gather_one.
  destruct (data_alias d); [discriminate |].
  destruct (data_description d); [discriminate | now intros [= <-]].
Qed.

Lemma print_results_raises results :
  forall text,
    Exists (fun kv => result_description (snd kv) = None) results ->
    fst (print_results results text) = Raise KeyError.
Proof.
induction results as [| [k v] results IH]; intros text Hex.
- now apply Exists_nil in Hex.
- simpl. destruct (result_aliases v) as [aliases |]; [| reflexivity].
  destruct (result_description v) as [description |] eqn:Hd; [| reflexivity].
  apply IH. apply Exists_cons in Hex. destruct Hex as [Hex | Hex]; [| assumption].
  simpl in Hex. congruence.
Qed.

Lemma gather_dangling target index :
  (forall name data, (name, data) ∈ index -> data_alias data = None -> name <> target) ->
  forall results results',
    (forall v, dict_get target results = Some v -> result_description v = None) ->
    gather index results = Return results' ->
    (forall v, dict_get target results' = Some v -> result_description v = None)
    /\ ((is_Some (dict_get target results)
         \/ exists name data, (name, data) ∈ index /\ data_alias data = Some target) ->
        is_Some (dict_get target results')).
Proof.
induction index as [| [name data] index IH]; simpl; intros Hno results results' Hinv.
- intros [= <-]. split; [assumption |].
  intros [Hsome | (n & d & Hin & _)]; [assumption | now apply elem_of_nil in Hin].
- destruct (gather_one results name data) as [r1 | e] eqn:Hone; [| discriminate].
  intros Hrest.
  assert (Hone' : (forall v, dict_get target r1 = Some v -> result_description v = None)
                  /\ (is_Some (dict_get target results) \/ data_alias data = Some target ->
                      is_Some (dict_get target r1))).
  { revert Hone. unfold gather_one.
    destruct (data_alias data) as [realname |] eqn:Halias.
    - intros [= <-]. destruct (decide (target = realname)) as [-> | Hne].
      + rewrite dict_get_set_same. split; [| now eexists].
        intros v [= <-]. simpl.
        destruct (dict_get realname results) as [v0 |] eqn:Hget; simpl;
          [now apply Hinv | reflexivity].
      + rewrite dict_get_set_other by assumption. split; [assumption |].
        intros [Hsome | [= Heq]]; [assumption | congruence].
    - destruct (data_description data) as [description |]; [| discriminate].
      intros [= <-].
      rewrite dict_get_set_other
        by (intros ->; now apply (Hno name data (list_elem_of_here _ _) Halias)).
      split; [assumption |]. intros [Hsome | [=]]. assumption. }
  destruct Hone' as [Hinv1 Hsome1].
  destruct (IH (fun n d Hin => Hno n d (list_elem_of_further _ _ _ Hin)) r1 results'
              Hinv1 Hrest) as [Hinv' Hsome'].
  split; [assumption |].
  intros [Hsome | (n & d & Hin & Hal)].
  + apply Hsome'. left. apply Hsome1. now left.
  + apply elem_of_cons in Hin. destruct Hin as [[= -> ->] | Hin].
    * apply Hsome'. left. apply Hsome1. now right.
    * apply Hsome'. right. now exists n, d.
Qed.

(** X23: an alias whose target has no entry of its own in the index
    leaves a result without description: listing the whole index (no
    term) then ends in [KeyError]. *)
Theorem search_raises_on_dangling_alias (index : list (string * IndexData))
    (name target : string) (data : IndexData) :
  (name, data) ∈ index ->
  data_alias data = Some target ->
  (forall name' data', (name', data') ∈ index ->
                       data_alias data' = None -> name' <> target) ->
  fst (search_command index []) = Raise KeyError.
Proof.
intros Hin Halias Hno. unfold search_command.
destruct (gather index []) as [results | e] eqn:Hgather.
- destruct (gather_dangling target index Hno [] results) as [Hinv Hsome];
    [discriminate | assumption |].
  destruct Hsome as [v Hv]; [right; now exists name, data |].
  assert (Hex : Exists (fun kv => result_description (snd kv) = None) results).
  { apply Exists_exists. exists (target, v). split.
    - now apply dict_get_elem.
    - simpl. now apply Hinv. }
  pose proof (print_results_raises results "" Hex) as Hprint.
  destruct (print_results results "") as [[u | e] text]; simpl in Hprint;
    [discriminate | now injection Hprint as ->].
- simpl. f_equal.
  now apply (gather_raises_key_error index [] e).
Qed.

Lemma first_mentions_snoc names k :
  first_mentions (names ++ [k])
  = if bool_decide (k ∈ first_mentions names) then first_mentions names
    else first_mentions names ++ [k].
Proof. unfold first_mentions. now rewrite fold_left_app. Qed.

Lemma first_mentions_spec names :
  NoDup (first_mentions names)
  /\ forall k, k ∈ first_mentions names <-> k ∈ names.
Proof.
induction names as [| k names [IHn IHe]] using rev_ind.
- split; [constructor |]. reflexivity.
- rewrite first_mentions_snoc. case_bool_decide as Hk.
  + split; [assumption |]. intros k'. rewrite elem_of_app, list_elem_of_singleton, IHe.
    split; [now left |]. intros [Hin | ->]; [assumption | now apply IHe].
  + split.
    * apply NoDup_app. split; [assumption |]. split; [| apply NoDup_singleton].
      intros k' Hin Hk'. apply list_elem_of_singleton in Hk'. now subst k'.
    * intros k'. rewrite !elem_of_app, IHe. reflexivity.
Qed.

Lemma dict_set_map_in {V} k (f : option V -> V) (g : string -> V) keys :
  NoDup keys -> k ∈ keys ->
  dict_set k f (map (fun k' => (k', g k')) keys)
  = map (fun k' => (k', if bool_decide (k' = k) then f (Some (g k)) else g k')) keys.
Proof.
induction keys as [| k0 keys IH]; intros Hnodup Hin; [now apply elem_of_nil in Hin |].
apply NoDup_cons in Hnodup. destruct Hnodup as [Hnot Hnodup].
simpl. case_bool_decide as Hk.
- subst k0. f_equal. apply map_ext_in. intros k' Hk'.
  rewrite bool_decide_eq_false_2; [reflexivity |].
  intros ->. apply Hnot. now apply list_elem_of_In.
- f_equal. apply IH; [assumption |].
  apply elem_of_cons in Hin. destruct Hin as [-> | Hin]; [congruence | assumption].
Qed.

Lemma find_over_app {A} (f : A -> bool) l m :
  List.find f (l ++ m)
  = match List.find f l with Some x => Some x | None => List.find f m end.
Proof.
induction l as [| x l IH]; [reflexivity |]. simpl. now destruct (f x).
Qed.

Lemma described_snoc index name data k :
  described (index ++ [(name, data)]) k
  = match List.find (fun entry => bool_decide (fst entry = k)
                                  && bool_decide (data_alias (snd entry) = None))
            index with
    | Some entry => data_description (snd entry)
    | None => if bool_decide (name = k) && bool_decide (data_alias data = None)
              then data_description data else None
    end.
Proof.
unfold described. rewrite find_over_app.
destruct (List.find _ index); [reflexivity |]. simpl.
now destruct (bool_decide (name = k) && bool_decide (data_alias data = None)).
Qed.

Lemma aliases_of_snoc index name data k :
  aliases_of (index ++ [(name, data)]) k
  = aliases_of index k
    ++ (if bool_decide (data_alias data = Some k) then [name] else []).
Proof.
unfold aliases_of. rewrite List.filter_app, map_app. simpl.
now destruct (bool_decide (data_alias data = Some k)).
Qed.

Lemma not_mentioned index k :
  k ∉ map search_target index ->
  described index k = None /\ aliases_of index k = [].
Proof.
induction index as [| [n d] index IH]; [now split |].
intros Hk. simpl in Hk. rewrite not_elem_of_cons in Hk. destruct Hk as [Hne Hk].
destruct (IH Hk) as [Hd Ha]. unfold search_target in Hne. simpl in Hne.
split.
- unfold described in *. simpl.
  destruct (data_alias d) as [a |] eqn:Hal; simpl in Hne.
  + rewrite (bool_decide_eq_false_2 (Some a = None)) by discriminate.
    rewrite andb_false_r. exact Hd.
  + rewrite (bool_decide_eq_false_2 (n = k)) by congruence. exact Hd.
- unfold aliases_of in *. simpl.
  rewrite bool_decide_eq_false_2; [exact Ha |].
  intros Hal. rewrite Hal in Hne. simpl in Hne. congruence.
Qed.

Lemma no_entry_named index k :
  k ∉ map fst index ->
  List.find (fun entry : string * IndexData =>
               bool_decide (fst entry = k)
               && bool_decide (data_alias (snd entry) = None)) index = None.
Proof.
induction index as [| [n d] index IH]; [reflexivity |].
intros Hk. simpl in Hk. rewrite not_elem_of_cons in Hk. destruct Hk as [Hne Hk]. simpl in *.
rewrite (bool_decide_eq_false_2 (n = k)) by congruence. now apply IH.
Qed.

(** One entry more in the index, one iteration more of the loop. *)
Lemma gather_one_gathered index name data :
  NoDup (map fst (index ++ [(name, data)])) ->
  (data_alias data = None -> is_Some (data_description data)) ->
  gather_one (gathered index) name data
  = Return (gathered (index ++ [(name, data)])).
Proof.
intros Hnodup Hdesc.
assert (Hfresh : name ∉ map fst index).
{ rewrite map_app in Hnodup. apply NoDup_app in Hnodup.
  destruct Hnodup as (_ & Hdisj & _). intros Hin. apply (Hdisj name Hin). left. }
destruct (first_mentions_spec (map search_target index)) as [Hnd Hmem].
unfold gather_one, gathered.
rewrite map_app.
change (map search_target [(name, data)]) with [search_target (name, data)].
rewrite first_mentions_snoc.
set (target := search_target (name, data)).
assert (Htarget : target = default name (data_alias data)) by reflexivity.
clearbody target.
destruct (data_alias data) as [realname |] eqn:Halias; simpl in Htarget; subst target.
- f_equal. case_bool_decide as Hin.
  + rewrite dict_set_map_in by assumption. apply map_ext_in. intros k Hk. f_equal.
    rewrite described_snoc, aliases_of_snoc. rewrite Halias.
    rewrite (bool_decide_eq_false_2 (Some realname = None)) by discriminate.
    rewrite andb_false_r.
    case_bool_decide as Hk'.
    * subst k. simpl. now rewrite bool_decide_eq_true_2.
    * rewrite bool_decide_eq_false_2 by congruence. now rewrite app_nil_r.
  + rewrite dict_set_fresh
      by (rewrite map_map; simpl; now rewrite map_id).
    rewrite map_app. simpl. f_equal.
    * apply map_ext_in. intros k Hk. f_equal.
      rewrite described_snoc, aliases_of_snoc, Halias.
      rewrite (bool_decide_eq_false_2 (Some realname = None)) by discriminate.
      rewrite andb_false_r.
      rewrite bool_decide_eq_false_2; [now rewrite app_nil_r |].
      intros [= ->]. apply Hin. now apply list_elem_of_In.
    * destruct (not_mentioned index realname) as [Hd Ha];
        [intros Hm; now apply Hin, Hmem |].
      rewrite described_snoc, aliases_of_snoc, Halias, Ha.
      rewrite (bool_decide_eq_false_2 (Some realname = None)) by discriminate.
      rewrite andb_false_r, bool_decide_eq_true_2 by reflexivity.
      unfold described in Hd. now rewrite Hd.
- destruct (Hdesc eq_refl) as [description Hdescription]. rewrite Hdescription.
  f_equal. case_bool_decide as Hin.
  + rewrite dict_set_map_in by assumption. apply map_ext_in. intros k Hk. f_equal.
    rewrite described_snoc, aliases_of_snoc, Halias.
    rewrite (bool_decide_eq_false_2 (None = Some k)) by discriminate.
    rewrite app_nil_r.
    case_bool_decide as Hk'.
    * subst k. rewrite no_entry_named by assumption.
      rewrite !bool_decide_eq_true_2 by reflexivity. simpl. now rewrite Hdescription.
    * rewrite (bool_decide_eq_false_2 (name = k)) by congruence. simpl.
      unfold described. now destruct (List.find _ index).
  + rewrite dict_set_fresh
      by (rewrite map_map; simpl; now rewrite map_id).
    rewrite map_app. simpl. f_equal.
    * apply map_ext_in. intros k Hk. f_equal.
      rewrite described_snoc, aliases_of_snoc, Halias.
      rewrite (bool_decide_eq_false_2 (None = Some k)) by discriminate.
      rewrite app_nil_r.
      rewrite (bool_decide_eq_false_2 (name = k)).
      -- simpl. unfold described. now destruct (List.find _ index).
      -- intros ->. apply Hin. now apply list_elem_of_In.
    * destruct (not_mentioned index name) as [Hd Ha];
        [intros Hm; now apply Hin, Hmem |].
      rewrite described_snoc, aliases_of_snoc, Halias, Ha.
      rewrite (bool_decide_eq_false_2 (None = Some name)) by discriminate.
      rewrite no_entry_named by assumption.
      rewrite !bool_decide_eq_true_2 by reflexivity. simpl. now rewrite Hdescription.
Qed.

Lemma gather_gathered index :
  forall pre,
    NoDup (map fst (pre ++ index)) ->
    (forall name data, (name, data) ∈ index ->
                       data_alias data = None -> is_Some (data_description data)) ->
    gather index (gathered pre) = Return (gathered (pre ++ index)).
Proof.
induction index as [| [name data] index IH]; intros pre Hnodup Hdesc.
- now rewrite app_nil_r.
- simpl. rewrite gather_one_gathered.
  + replace (pre ++ (name, data) :: index) with ((pre ++ [(name, data)]) ++ index)
      by now rewrite <- app_assoc.
    apply IH.
    * now rewrite <- app_assoc.
    * intros n d Hin Hal. apply (Hdesc n d); [now right | assumption].
  + replace (pre ++ (name, data) :: index) with ((pre ++ [(name, data)]) ++ index)
      in Hnodup by now rewrite <- app_assoc.
    rewrite map_app in Hnodup. now apply NoDup_app in Hnodup.
  + intros Hal. apply (Hdesc name data); [left | assumption].
Qed.

Lemma existsb_truthy_filter (p : string -> bool) l :
  existsb truthy_str (List.filter p l) = existsb (fun t => truthy_str t && p t) l.
Proof.
induction l as [| t l IH]; [reflexivity |]. simpl.
destruct (p t); simpl; rewrite IH.
- now rewrite andb_true_r.
- now rewrite andb_false_r.
Qed.

Lemma existsb_ext_in {A} (f g : A -> bool) l :
  (forall x, x ∈ l -> f x = g x) -> existsb f l = existsb g l.
Proof.
induction l as [| x l IH]; intros Hfg; [reflexivity |]. simpl.
rewrite (Hfg x) by left. rewrite IH; [reflexivity |].
intros y Hy. apply Hfg. now right.
Qed.

Lemma existsb_either {A} (f g : A -> bool) l :
  existsb (fun x => f x || g x) l = existsb f l || existsb g l.
Proof.
induction l as [| x l IH]; [reflexivity |]. simpl. rewrite IH.
destruct (f x), (g x), (existsb f l), (existsb g l); reflexivity.
Qed.

(** Only the empty string occurs in the empty string. *)
Lemma contains_truthy s t :
  truthy_str t = true -> str_contains s t = true -> truthy_str s = true.
Proof.
intros Ht Hc. destruct s as [| c s]; [| reflexivity].
destruct t as [| c' t]; [discriminate Ht | discriminate Hc].
Qed.

Lemma search_matches_occurs terms name data aliases :
  result_aliases data = Some aliases ->
  search_matches terms name data = Return (term_occurs terms name aliases).
Proof.
intros Haliases. unfold search_matches, term_occurs.
rewrite Haliases, !existsb_truthy_filter.
rewrite (existsb_ext_in
           (fun t => truthy_str t
                     && (str_contains name t
                         || existsb (fun s => str_contains s t) aliases))
           (fun t => truthy_str t && str_contains name t
                     || truthy_str t
                        && existsb truthy_str
                             (List.filter (fun s => str_contains s t) aliases))).
- rewrite existsb_either.
  destruct (existsb (fun t => truthy_str t && str_contains name t) terms);
    [reflexivity |].
  now destruct terms.
- intros t _. rewrite andb_orb_distrib_r. f_equal.
  destruct (truthy_str t) eqn:Ht; [| reflexivity]. simpl.
  rewrite existsb_truthy_filter. apply existsb_ext_in. intros s _.
  destruct (str_contains s t) eqn:Hc; [| now rewrite andb_false_r].
  now rewrite (contains_truthy s t Ht Hc).
Qed.

Lemma search_filter_selects terms (D : string -> option string)
    (A : string -> list string) keys :
  forall filtered,
    NoDup (map fst filtered ++ keys) ->
    search_filter terms (map (fun k => (k, mkSearchResult (D k) (Some (A k)))) keys)
      filtered
    = Return (filtered
                ++ map (fun k => (k, mkSearchResult (D k) (Some (A k))))
                     (List.filter (fun k => term_occurs terms k (A k)) keys)).
Proof.
induction keys as [| k keys IH]; intros filtered Hnodup.
- simpl. now rewrite app_nil_r.
- simpl. rewrite (search_matches_occurs terms k _ (A k)) by reflexivity.
  destruct (term_occurs terms k (A k)).
  + rewrite dict_set_fresh.
    * rewrite IH.
      -- simpl. now rewrite <- app_assoc.
      -- rewrite map_app. simpl. now rewrite <- app_assoc.
    * apply NoDup_app in Hnodup. destruct Hnodup as (_ & Hdisj & _).
      intros Hin. apply (Hdisj k Hin). left.
  + apply IH. apply NoDup_app in Hnodup. destruct Hnodup as (Hf & Hdisj & Hk).
    apply NoDup_app. split; [assumption |]. split.
    * intros x Hx Hx'. apply (Hdisj x Hx). now right.
    * now apply NoDup_cons in Hk.
Qed.

Lemma str_append_assoc (a b c : string) : (a +:+ b) +:+ c = a +:+ (b +:+ c).
Proof.
induction a as [| x a IH]; [reflexivity |].
change (String x ((a +:+ b) +:+ c) = String x (a +:+ (b +:+ c))). now rewrite IH.
Qed.

Lemma str_append_nil_r (a : string) : a +:+ "" = a.
Proof.
induction a as [| x a IH]; [reflexivity |].
change (String x (a +:+ "") = String x a). now rewrite IH.
Qed.

Lemma print_results_lines (D : string -> option string) (A : string -> list string)
    keys :
  (forall k, k ∈ keys -> is_Some (D k)) ->
  forall text,
    print_results (map (fun k => (k, mkSearchResult (D k) (Some (A k)))) keys) text
    = (Return tt,
       text +:+ fold_right String.append ""
                  (map (fun k => result_heading k (A k) +:+ " - "
                                 +:+ default "" (D k) +:+ newline) keys)).
Proof.
induction keys as [| k keys IH]; intros Hdesc text.
- simpl. now rewrite str_append_nil_r.
- simpl. destruct (Hdesc k) as [d Hd]; [left |]. rewrite Hd. simpl.
  rewrite IH by (intros k' Hk'; apply Hdesc; now right).
  now rewrite !str_append_assoc.
Qed.

Lemma described_own index name data :
  NoDup (map fst index) ->
  (name, data) ∈ index ->
  data_alias data = None ->
  described index name = data_description data.
Proof.
induction index as [| [n d] index IH]; intros Hnodup Hin Halias.
- now apply elem_of_nil in Hin.
- simpl in Hnodup. apply NoDup_cons in Hnodup. destruct Hnodup as [Hnot Hnodup].
  apply elem_of_cons in Hin. unfold described. simpl.
  destruct Hin as [[= -> ->] | Hin].
  + now rewrite !bool_decide_eq_true_2.
  + rewrite (bool_decide_eq_false_2 (n = name)).
    * now apply IH.
    * intros ->. apply Hnot. apply list_elem_of_fmap. now exists (name, data).
Qed.

(** X24: on an index whose names are distinct and where every
    entry is a described module or an alias of one, [search_command]
    prints one line per module, never one for an alias, in the order in
    which the modules are first mentioned (by their own entry or by an
    alias): the name, the aliases in index order between brackets, the
    description.  With terms, only the modules are kept for which some
    non-empty term occurs in the name or in an alias.  The exit code is 0
    when a module with a non-empty name is printed and 1 otherwise. *)
Theorem search_lists_the_matching_modules (index : list (string * IndexData))
    (terms : list string) :
  NoDup (map fst index) ->
  (forall entry, entry ∈ index -> is_Some (described index (search_target entry))) ->
  let names := first_mentions (map search_target index) in
  let selected :=
    match terms with
    | [] => names
    | _ :: _ => List.filter (fun k => term_occurs terms k (aliases_of index k)) names
    end in
  search_command index terms
  = (Return (if existsb truthy_str selected then 0 else 1),
     fold_right String.append "" (map (result_line index) selected)).
Proof.
intros Hnodup Hdescribed names selected.
assert (Hdesc : forall name data, (name, data) ∈ index ->
                                  data_alias data = None ->
                                  is_Some (data_description data)).
{ intros name data Hin Halias.
  rewrite <- (described_own index name data Hnodup Hin Halias).
  specialize (Hdescribed (name, data) Hin). unfold search_target in Hdescribed.
  simpl in Hdescribed. now rewrite Halias in Hdescribed. }
destruct (first_mentions_spec (map search_target index)) as [Hnd Hmem].
assert (Hnames : forall k, k ∈ names -> is_Some (described index k)).
{ intros k Hk. apply Hmem, list_elem_of_fmap in Hk. destruct Hk as (entry & -> & Hin).
  now apply Hdescribed. }
unfold search_command.
change (@nil (string * SearchResult)) with (gathered []) at 1.
rewrite (gather_gathered index [] Hnodup Hdesc). unfold gathered.
change (@nil (string * IndexData) ++ index) with index. fold names.
assert (Hselected : (match terms with
                     | [] => Return (map (fun k => (k, mkSearchResult (described index k)
                                                         (Some (aliases_of index k))))
                                       names)
                     | _ :: _ =>
                         search_filter terms
                           (map (fun k => (k, mkSearchResult (described index k)
                                                (Some (aliases_of index k)))) names) []
                     end)
                    = Return (map (fun k => (k, mkSearchResult (described index k)
                                                  (Some (aliases_of index k))))
                                selected)).
{ unfold selected. destruct terms as [| t terms]; [reflexivity |].
  now rewrite search_filter_selects. }
rewrite Hselected.
assert (Hsub : forall k, k ∈ selected -> is_Some (described index k)).
{ intros k Hk. apply Hnames. unfold selected in Hk.
  destruct terms; [assumption |].
  apply list_elem_of_In, filter_In in Hk. now apply list_elem_of_In. }
rewrite (print_results_lines (described index) (aliases_of index) selected Hsub).
rewrite map_map. simpl. rewrite map_id. reflexivity.
Qed.

(** X25: an entry of the index that has neither an alias nor a
    description makes every search end in [KeyError], whatever the terms
    are, before anything is printed. *)
Theorem search_raises_on_entry_without_description
    (index : list (string * IndexData)) (terms : list string)
    (name : string) (data : IndexData) :
  (name, data) ∈ index ->
  data_alias data = None ->
  data_description data = None ->
  search_command index terms = (Raise KeyError, "").
Proof.
intros Hin Halias Hdescription.
assert (Hraise : forall results, gather index results = Raise KeyError).
{ induction index as [| [n d] index IH]; intros results;
    [now apply elem_of_nil in Hin |].
  simpl. destruct (gather_one results n d) as [r1 | e1] eqn:Hone.
  - apply elem_of_cons in Hin. destruct Hin as [[= <- <-] | Hin]; [| now apply IH].
    unfold gather_one in Hone. now rewrite Halias, Hdescription in Hone.
  - f_equal. apply (gather_raises_key_error [(n, d)] results). simpl. now rewrite Hone. }
unfold search_command. now rewrite Hraise.
Qed.

(** * The further properties in the scripted world *)

Lemma prune_confirmed_keeps_needed_modules_witness :
  let a := mkModule "a" None None None None None None None (Some "cfbs add")
             None None None [] in
  let d := mkModule "d" None None None None None None None (Some "a")
             None None None [] in
  let st := Scripted.session_of [a; d] Scripted.quiet in
  fst (_clean_unused_modules 1000 st) = Return 0
  /\ build (snd (_clean_unused_modules 1000 st)) = Some [a].
Proof.
  intros a d st.
  rewrite (prune_confirmed_keeps_needed_modules 1000 st [a; d] [d]);
    [split; reflexivity | reflexivity | reflexivity | discriminate | reflexivity].
Defined.

Lemma prune_never_removes_a_root_witness :
  let a := mkModule "a" None None None None None None None (Some "cfbs add")
             None None None [] in
  let d := mkModule "d" None None None None None None None (Some "a")
             None None None [] in
  let st := Scripted.session_of [a; d] Scripted.quiet in
  exists modules',
    build (snd (_clean_unused_modules 1000 st)) = Some modules' /\ a ∈ modules'.
Proof.
  intros a d st.
  destruct (prune_never_removes_a_root 1000 st (snd (_clean_unused_modules 1000 st))
              (fst (_clean_unused_modules 1000 st)) [a; d])
    as (modules' & Hbuild & Hroots & _); [reflexivity .. |].
  exists modules'. split; [exact Hbuild |].
  apply Hroots; [apply list_elem_of_here | reflexivity].
Defined.

Lemma reachability_check_returns_on_ranked_lists_witness :
  let a := mkModule "a" None None None None None None (Some ["b"]) (Some "cfbs add")
             None None None [] in
  let b := mkModule "b" None None None None None None None (Some "a")
             None None None [] in
  is_Some (_someone_needs_me 2 [a; b] b)
  /\ fst (_clean_unused_modules 2 (Scripted.session_of [a; b] Scripted.quiet))
     <> Raise RecursionError.
Proof.
  intros a b.
  destruct (reachability_check_returns_on_ranked_lists (W := Scripted.World) [a; b]
              (fun m => if is_root m then 0%nat else 1%nat)) as (Hcheck & Hprune).
  - intros m other Hroot Hfirst. rewrite Hroot.
    unfold first_dependent in Hfirst. simpl in Hfirst.
    destruct (lists_dependency (name m) a); [| discriminate].
    injection Hfirst as <-. simpl. lia.
  - split.
    + apply Hcheck. simpl. lia.
    + apply Hprune; [reflexivity |].
      intros m _. destruct (is_root m); lia.
Defined.

Lemma remove_loop_accounts_for_every_module_witness :
  let u1 := mkModule "u1" None None None (Some "https://example.com/repo") None
              None None (Some "cfbs add") None None None [] in
  let st := Scripted.session_of [u1] Scripted.quiet in
  let acc := mkRemoval 0 "" [] in
  sublist (modules_of (snd (remove_loop ["nope"; "u1"] acc st))) [u1]
  /\ (List.length (modules_of (snd (remove_loop ["nope"; "u1"] acc st))) + 1 = 1)%nat.
Proof.
  intros u1 st acc.
  apply (remove_loop_accounts_for_every_module ["nope"; "u1"] acc st
           (snd (remove_loop ["nope"; "u1"] acc st))
           (mkRemoval 1 (newline +:+ " - Removed module 'u1'") [])).
  reflexivity.
Defined.

Lemma pipeline_stages_a_prefix_in_order_witness :
  let hash := "0123456789abcdef0123456789abcdef01234567" in
  let local_module := mkModule "./a.cf" None None None None None None None
                        (Some "cfbs add") None None None [] in
  let m1 := mkModule "m1" None (Some "1.0.0") (Some hash) None
              (Some "https://github.com/x/m1") None None (Some "cfbs add")
              None None None [] in
  let st := Scripted.session_of [local_module; m1] Scripted.quiet in
  exists k,
    (k <= 2)%nat
    /\ staged (snd (_download_dependencies false false false st))
       = take k [LocalCopy local_module 1 6;
                 Copy "cache/0123456789abcdef0123456789abcdef01234567"
                   "out/steps/002_m1_0123456789abcdef0123456789abcdef01234567/"].
Proof.
  intros hash local_module m1 st.
  destruct (pipeline_stages_a_prefix_in_order false false false st
              (snd (_download_dependencies false false false st))
              (fst (_download_dependencies false false false st))
              [local_module; m1])
    as (k & Hk & Hstaged); [reflexivity .. |].
  exists k. split; [exact Hk | exact Hstaged].
Defined.

Lemma update_raises_on_empty_version_component_witness :
  let installed :=
    mkModule "m1" None (Some "1..2") None None None None None None None None None [] in
  let st := mkUpdateState (Scripted.session_of [installed] Scripted.quiet)
              (mkModuleUpdates [] [] false "" []) [] None in
  fst (update_one "m1" st) = Raise ValueError
  /\ out (session (snd (update_one "m1" st))) = [].
Proof.
  intros installed st.
  rewrite (update_raises_on_empty_version_component st "m1" [installed] installed
             (mkModule "m1" None (Some "1.2.4") None None None None None None
                None None None [])
             "1..2"); [split; reflexivity | reflexivity .. |].
  right. right. right. exists "1", "."%char, "."%char, "2". repeat split; reflexivity.
Defined.

Lemma update_treats_extension_as_newer_witness :
  let shorter :=
    mkModule "m1" None (Some "1.2") None None None None None None None None None [] in
  let longer :=
    mkModule "m1" None (Some "1.2.4.0") None None None None None None None None None [] in
  let state_of m := mkUpdateState (Scripted.session_of [m] Scripted.quiet)
                      (mkModuleUpdates [] [] false "" []) [] None in
  updated (snd (update_one "m1" (state_of shorter))) = ["m1"]
  /\ updated (snd (update_one "m1" (state_of longer))) = []
  /\ build (session (snd (update_one "m1" (state_of longer)))) = Some [longer].
Proof.
  intros shorter longer state_of.
  destruct (update_treats_extension_as_newer (state_of shorter) "m1" [shorter] shorter
              (mkModule "m1" None (Some "1.2.4") None None None None None None
                 None None None [])
              "1.2" "1.2.4" [1; 2] 4 [])
    as (Hup & _); [reflexivity .. |].
  destruct (update_treats_extension_as_newer (state_of longer) "m1" [longer] longer
              (mkModule "m1" None (Some "1.2.4") None None None None None None
                 None None None [])
              "1.2.4.0" "1.2.4" [1; 2; 4] 0 [])
    as (_ & Hdown); [reflexivity .. |].
  rewrite Hup, Hdown by reflexivity. repeat split; reflexivity.
Defined.

Lemma update_of_current_modules_changes_nothing_witness :
  let installed :=
    mkModule "m1" None (Some "1.2.4") None None None None None None None None None [] in
  let st := mkUpdateState (Scripted.session_of [installed] Scripted.quiet)
              (mkModuleUpdates [] [] false "" []) [] None in
  exists final,
    update_command [] st = (Return (mkResult 0 false "" []), final)
    /\ build (session final) = Some [installed]
    /\ commits (session final) = [].
Proof.
  intros installed st.
  destruct (update_of_current_modules_changes_nothing st [] ["m1"] [installed])
    as (lines & final & Hrun & _ & _ & Hbuild & _ & _ & Hcommits & _);
    [reflexivity | reflexivity | | reflexivity | reflexivity |].
  - intros t Ht. apply list_elem_of_singleton in Ht. subst t.
    exists installed. split; [reflexivity |]. split; [reflexivity |].
    exists "1.2.4", installed, "1.2.4", [1; 2; 4]. repeat split; reflexivity.
  - exists final. split; [exact Hrun |]. split; [exact Hbuild | exact Hcommits].
Defined.

Lemma masterfiles_version_is_a_dotted_prefix_witness :
  looks_like_version "3.18.0-1" = true
  /\ init_masterfiles (Some "3.18.0-1") false
       (Scripted.session_of [] Scripted.quiet)
     = (Return 0,
        mkSession (Some []) false
          [LogDebug "--masterfiles=3.18.0-1 appears to be a version number"]
          [] [] Scripted.quiet).
Proof.
  destruct (masterfiles_version_is_a_dotted_prefix (W := Scripted.World) "3.18.0-1")
    as (Hiff & Hinit).
  assert (Hlooks : looks_like_version "3.18.0-1" = true).
  { apply Hiff. exists "3", "18", "0", "-1". repeat split; reflexivity. }
  split; [exact Hlooks |].
  rewrite (Hinit Hlooks). reflexivity.
Defined.

Lemma init_ends_early_without_writing_witness :
  let project := mkSession None false [] [] []
                   (Scripted.mkWorld ["cfbs.json"] [] false ∅) in
  let empty := mkSession None true [] [] [] Scripted.quiet in
  init_command None None false project
  = (Raise (CFBSUserError "Already initialized - look at cfbs.json"), project)
  /\ @init_command _ _ (ScriptedTools.initializer_with_git "yes" false)
       None None true empty
     = (Return 1,
        mkSession None true [Stdout "Command 'git' was not found"] [] []
          Scripted.quiet).
Proof.
  intros project empty.
  destruct (init_ends_early_without_writing None None false project) as (Hdone & _).
  destruct (init_ends_early_without_writing
              (H0 := ScriptedTools.initializer_with_git "yes" false)
              None None true empty) as (_ & Hgit).
  split.
  - rewrite Hdone; reflexivity.
  - rewrite Hgit; reflexivity.
Defined.

Lemma init_without_git_makes_no_commit_witness :
  let empty := mkSession None true [] [] [] Scripted.quiet in
  @init_command _ _ (ScriptedTools.initializer_with_git "no" true)
    None (Some "3.18.0") true empty
  = (Return 0,
     mkSession None true
       [Stdout "Initialized an empty project called 'Example project' in 'cfbs.json'";
        LogDebug "--masterfiles=3.18.0 appears to be a version number"]
       [] [] (Scripted.mkWorld ["cfbs.json"] [] false ∅)).
Proof.
  intros empty.
  rewrite (init_without_git_makes_no_commit
             (H0 := ScriptedTools.initializer_with_git "no" true)
             None (Some "3.18.0") true empty); reflexivity.
Defined.

Lemma install_destination_is_anchored_witness :
  let built := mkSession (Some []) false [] [] []
                 (Scripted.mkWorld ["out/masterfiles"] [] false ∅) in
  exists d earlier lines,
    (PyStr.startswith d "/" = true \/ PyStr.startswith d "./" = true)
    /\ staged (snd (install_command ["policy"] built))
       = (earlier ++ [Copy "out/masterfiles" d])%list
    /\ out (snd (install_command ["policy"] built))
       = (lines ++ [Stdout ("Installed to " +:+ d)])%list.
Proof.
  intros built.
  apply (install_destination_is_anchored ["policy"] built
           (snd (install_command ["policy"] built))).
  reflexivity.
Defined.

Lemma install_stops_on_failed_build_witness :
  let st := Scripted.session_of [] Scripted.quiet in
  @install_command _ _ _ ScriptedTools.failing_builder ["policy"] st
  = (Return 3,
     mkSession (Some []) false [Stdout (newline +:+ "Modules:")] [] []
       Scripted.quiet).
Proof.
  intros st.
  apply (install_stops_on_failed_build (H1 := ScriptedTools.failing_builder)
           ["policy"] st); [simpl; lia | reflexivity | reflexivity | discriminate].
Defined.

Lemma pretty_check_counts_unformatted_files_witness :
  let files := ["a.json"; "ugly.json"; "b.json"] in
  let st := mkSession None false [] [] [] (Scripted.mkWorld files [] false ∅) in
  pretty_command files true false st
  = (Return 1,
     mkSession None false
       [Stdout "Would reformat ugly.json"; Stdout "Would reformat 1 file(s)"]
       [] [] (Scripted.mkWorld files [] false ∅)).
Proof.
  intros files st.
  rewrite (pretty_check_counts_unformatted_files files false st
             (fun f => negb (PyStr.startswith f "ugly"))); [reflexivity | discriminate |].
  intros f Hf. repeat (apply elem_of_cons in Hf; destruct Hf as [-> | Hf]);
    [repeat split; (discriminate || reflexivity) .. |].
  now apply elem_of_nil in Hf.
Defined.

Lemma pretty_rejects_a_name_when_it_reaches_it_witness :
  let st := mkSession None false [] [] []
              (Scripted.mkWorld ["a.json"; "ugly.json"] [] false ∅) in
  pretty_command ["ugly.json"; "dir/notes.txt"; "a.json"] true false st
  = (Raise (CFBSExitError
              "cfbs pretty command can only be used with .json files, not 'notes.txt'"),
     mkSession None false [Stdout "Would reformat ugly.json"] [] []
       (Scripted.mkWorld ["a.json"; "ugly.json"] [] false ∅)).
Proof.
  intros st.
  apply (pretty_rejects_a_name_when_it_reaches_it ["ugly.json"] ["a.json"]
           "dir/notes.txt" true false st _ 1%nat); [reflexivity |].
  right. reflexivity.
Defined.

Lemma validate_exit_code_is_normalised_witness :
  let st := mkSession None false [] [] []
              (Scripted.mkWorld ["bad.json"; "good.json"; "cfbs.json"] [] false ∅) in
  (fst (validate_command ["bad.json"; "good.json"] None st) = Return 1)
  /\ validate_command [] None st = validate_config st.
Proof.
  intros st.
  destruct (validate_exit_code_is_normalised ["bad.json"; "good.json"] None st
              (snd (validate_command ["bad.json"; "good.json"] None st)) 1)
    as (Hcode & Hconfig).
  split.
  - destruct Hcode as [Hzero | Hone]; [discriminate | reflexivity | discriminate |].
    reflexivity.
  - apply Hconfig. reflexivity.
Defined.

Lemma compare_list_with_itself_witness :
  _compare_list [JDict [("type", JStr "list"); ("default", JFloat FNaN)]]
                [JDict [("type", JStr "list"); ("default", JFloat FNaN)]] = false
  /\ _compare_list [JDict [("type", JStr "list"); ("default", JList [JInt 1])]]
                   [JDict [("type", JStr "list"); ("default", JList [JInt 1])]] = true.
Proof.
  split; rewrite compare_list_with_itself; reflexivity.
Defined.

Lemma response_is_never_compared_witness :
  let spec := [("type", JStr "string"); ("variable", JStr "name")] in
  _compare_dict spec (spec ++ [("response", JInt 7)]) ["response"]
  = _compare_dict spec spec ["response"]
  /\ _compare_dict (("response", JNull) :: spec) (("response", JNull) :: spec)
       ["response"] = false.
Proof.
  intros spec.
  destruct (response_is_never_compared spec spec [] (JInt 7)) as [Hsame _].
  destruct (response_is_never_compared (("response", JNull) :: spec) [] [] JNull)
    as [_ Hnever].
  split.
  - rewrite Hsame. now rewrite app_nil_r.
  - apply Hnever. left.
Defined.

Lemma compare_dict_accepts_same_keys_and_values_witness :
  let spec := [("type", JStr "string"); ("variable", JStr "name")] in
  let data := [("variable", JStr "name"); ("response", JStr "x");
               ("type", JStr "string")] in
  ("type" ∈ map fst data /\ "type" ∉ ["response"])
  /\ compare_value (default JNull (json_get "type" spec))
       (default JNull (json_get "type" data)) = true.
Proof.
  intros spec data.
  destruct (compare_dict_accepts_same_keys_and_values spec data ["response"])
    as [Hconforms _].
  destruct (Hconforms eq_refl) as [Hkeys Hvalues].
  split.
  - apply Hkeys. left.
  - apply Hvalues. left.
Defined.

Lemma search_for_empty_terms_finds_nothing_witness :
  search_command [("mpf", mkIndexData None (Some "Masterfiles"))] [""; ""]
  = (Return 1, "")
  /\ str_contains "mpf" "" = true.
Proof.
  split; [| reflexivity].
  apply search_for_empty_terms_finds_nothing; [discriminate | now repeat constructor |].
  intros name data Hin _. apply list_elem_of_singleton in Hin.
  injection Hin as -> ->. now eexists.
Defined.

Lemma search_raises_on_dangling_alias_witness :
  search_command [("mpf", mkIndexData None (Some "Masterfiles"));
                  ("old", mkIndexData (Some "gone") None)] []
  = (Raise KeyError, "mpf - Masterfiles" +:+ newline +:+ "gone (old)").
Proof.
  pose proof (search_raises_on_dangling_alias
                [("mpf", mkIndexData None (Some "Masterfiles"));
                 ("old", mkIndexData (Some "gone") None)]
                "old" "gone" (mkIndexData (Some "gone") None)) as Hraise.
  rewrite (surjective_pairing (search_command _ _)), Hraise; [reflexivity | | | ].
  - right. left.
  - reflexivity.
  - intros name' data' Hin Halias Hname.
    repeat (apply elem_of_cons in Hin;
            destruct Hin as [Heq | Hin]; [injection Heq as -> ->; discriminate |]).
    now apply elem_of_nil in Hin.
Defined.

Lemma search_lists_the_matching_modules_witness :
  let index := [("masterfiles", mkIndexData (Some "mpf") None);
                ("autorun", mkIndexData None (Some "Enable autorun"));
                ("mpf", mkIndexData None (Some "Masterfiles"));
                ("policy", mkIndexData (Some "mpf") None)] in
  search_command index ["master"]
  = (Return 0, "mpf (masterfiles, policy) - Masterfiles" +:+ newline)
  /\ search_command index []
     = (Return 0, "mpf (masterfiles, policy) - Masterfiles" +:+ newline
                  +:+ "autorun - Enable autorun" +:+ newline)
  /\ search_command index ["nothing"] = (Return 1, "").
Proof.
  intros index.
  assert (Hnodup : NoDup (map fst index)) by (apply (bool_decide_unpack _); exact I).
  assert (Hdescribed : forall entry, entry ∈ index ->
                                     is_Some (described index (search_target entry))).
  { intros entry Hin.
    repeat (apply elem_of_cons in Hin; destruct Hin as [-> | Hin]; [now eexists |]).
    now apply elem_of_nil in Hin. }
  rewrite !(search_lists_the_matching_modules index _ Hnodup Hdescribed).
  repeat split; reflexivity.
Defined.

Lemma search_raises_on_entry_without_description_witness :
  search_command [("mpf", mkIndexData None (Some "Masterfiles"));
                  ("bare", mkIndexData None None)] ["mpf"]
  = (Raise KeyError, "").
Proof.
  apply (search_raises_on_entry_without_description _ _ "bare" (mkIndexData None None));
    [right; left | reflexivity | reflexivity].
Defined.
